(** * InferenceProfile: resource resolution, profile store and message shaping

    A shallow embedding of [command_gen/utils/InferenceProfile.py].

    The Python code talks to the process environment, to the file system
    and to mutable list objects.  These are gathered in a [world]; every
    function of the module becomes a computation in a small state and
    exception monad [M] over that world.  Each primitive of the [os] module
    leaves an event in the world's trace, so that statements such as
    "before any file-system access" or "without reading the content" can be
    phrased on the trace.

    Modelling conventions.
    - A path denotes a file by its literal text (no symbolic links, no
      normalisation of [.], [..] or doubled separators).  The file system is
      a finite map from paths to nodes; POSIX path rules are used.
    - A file carries a read-permission bit and its content as a byte string.
      Opening an unused path for writing creates the file: the directory
      it lies in is taken to exist and to be writable.
    - Values decoded from JSON are the constructors of [json]; numbers are
      integers (floating point literals are outside the model).
    - Python identifiers are kept; where a constructor argument is annotated
      with a type in the source, the embedding uses that type. *)

From Stdlib Require Import ZArith Ascii.
From stdpp Require Import base gmap strings list pretty.

Set Warnings "-register-all".

(** ** Python values decoded from JSON *)

Inductive json : Type :=
  | JNull
  | JBool (b : bool)
  | JInt (z : Z)
  | JStr (s : string)
  | JList (l : list json)
  | JObj (kvs : list (string * json)).

(** A Python [dict] with string keys, in insertion order. *)
Abbreviation pydict := (list (string * json)).

Fixpoint dict_get (d : pydict) (k : string) : option json :=
  match d with
  | [] => None
  | (k', v) :: d' => if String.eqb k' k then Some v else dict_get d' k
  end.

(** [sep.join(parts)]. *)
Fixpoint str_join (sep : string) (parts : list string) : string :=
  match parts with
  | [] => ""
  | [p] => p
  | p :: ps => p +:+ sep +:+ str_join sep ps
  end.

(** [repr(v)] for decoded JSON values.  Strings are shown between single
    quotes; this is Python's output for text without quotes, backslashes or
    unprintable characters. *)
Fixpoint py_repr (v : json) : string :=
  match v with
  | JNull => "None"
  | JBool true => "True"
  | JBool false => "False"
  | JInt z => pretty z
  | JStr s => "'" +:+ s +:+ "'"
  | JList l => "[" +:+ str_join ", " (map py_repr l) +:+ "]"
  | JObj kvs =>
      "{" +:+ str_join ", "
                (map (fun kv => "'" +:+ fst kv +:+ "': " +:+ py_repr (snd kv)) kvs)
          +:+ "}"
  end.

(** [str(v)], which is what an f-string [f"{v}"] inserts. *)
Definition py_str (v : json) : string :=
  match v with
  | JStr s => s
  | _ => py_repr v
  end.

(** [v == s] for a string literal [s]. *)
Definition py_eq_str (v : json) (s : string) : bool :=
  match v with
  | JStr t => String.eqb t s
  | _ => false
  end.

(** ** Exceptions *)

Inductive py_class : Type :=
  | OSError
  | FileNotFoundError
  | PermissionError
  | FileExistsError
  | IsADirectoryError
  | ValueError
  | JSONDecodeError
  | TypeError
  | IndexError
  | KeyError
  | AttributeError.

(** In Python 3 [EnvironmentError] is another name of [OSError]. *)
Definition EnvironmentError : py_class := OSError.

Global Instance py_class_eq_dec : EqDecision py_class.
Proof. solve_decision. Defined.

(** The direct base class, [None] standing for [Exception]. *)
Definition base_class (c : py_class) : option py_class :=
  match c with
  | FileNotFoundError | PermissionError | FileExistsError
  | IsADirectoryError => Some OSError
  | JSONDecodeError => Some ValueError
  | _ => None
  end.

Definition issubclass (c d : py_class) : bool :=
  bool_decide (c = d) || bool_decide (base_class c = Some d).

Record exn : Type := Exn { exn_class : py_class; exn_msg : string }.

(** [isinstance(e, c)]: would [except c] catch [e]? *)
Definition isinstance (e : exn) (c : py_class) : bool :=
  issubclass (exn_class e) c.

(** Two exceptions are distinguishable when some handler class catches one
    and not the other. *)
Definition distinguishable (e1 e2 : exn) : Prop :=
  ∃ c, isinstance e1 c ≠ isinstance e2 c.

(** ** The world: environment, file system, list objects, trace *)

Inductive node : Type :=
  | File (readable : bool) (content : string)
  | Dir.

Inductive event : Type :=
  | EvGetenv (var : string)
  | EvIsfile (path : string)
  | EvAccess (path : string)
  | EvGetsize (path : string)
  | EvExists (path : string)
  | EvMakedirs (path : string)
  | EvRead (path : string)
  | EvWrite (path : string)
  | EvFromPretrained (dir : string)
  | EvPrint (line : string).

Definition is_fs_access (e : event) : bool :=
  match e with
  | EvGetenv _ | EvPrint _ => false
  | _ => true
  end.

(** Events that read the content of a file. *)
Definition is_content_read (e : event) : bool :=
  match e with
  | EvRead _ | EvFromPretrained _ => true
  | _ => false
  end.

Abbreviation loc := nat.

Record world : Type := World {
  w_env : gmap string string;
  w_fs : gmap string node;
  w_heap : gmap loc (list pydict);
  w_trace : list event
}.

Definition set_fs (fs : gmap string node) (w : world) : world :=
  World (w_env w) fs (w_heap w) (w_trace w).
Definition set_heap (h : gmap loc (list pydict)) (w : world) : world :=
  World (w_env w) (w_fs w) h (w_trace w).
Definition log (e : event) (w : world) : world :=
  World (w_env w) (w_fs w) (w_heap w) (w_trace w ++ [e]).

(** ** The monad *)

(** [Timeout] is the outcome of a loop that exhausts its iteration bound;
    it is not a Python outcome and is shown unreachable below. *)
Inductive result (A : Type) : Type :=
  | Ok (a : A)
  | Raise (e : exn)
  | Timeout.
Arguments Ok {A} a.
Arguments Raise {A} e.
Arguments Timeout {A}.

Definition M (A : Type) : Type := world → result A * world.

Definition ret {A} (a : A) : M A := λ w, (Ok a, w).
Definition raise {A} (c : py_class) (msg : string) : M A :=
  λ w, (Raise (Exn c msg), w).
Definition bind {A B} (m : M A) (k : A → M B) : M B :=
  λ w, match m w with
       | (Ok a, w') => k a w'
       | (Raise e, w') => (Raise e, w')
       | (Timeout, w') => (Timeout, w')
       end.

Notation "'let*' x := m 'in' k" := (bind m (λ x, k))
  (at level 10, x pattern, m at level 100, k at level 200).

Definition tell (e : event) : M unit := λ w, (Ok tt, log e w).
Definition get_world : M world := λ w, (Ok w, w).

Fixpoint mapM {A B} (f : A → M B) (l : list A) : M (list B) :=
  match l with
  | [] => ret []
  | x :: l' =>
      let* y := f x in
      let* ys := mapM f l' in
      ret (y :: ys)
  end.

(** ** The [os] primitives used by the module *)

Definition os_getenv (var : string) : M (option string) :=
  let* _ := tell (EvGetenv var) in
  let* w := get_world in
  ret (w_env w !! var).

Definition os_path_isfile (p : string) : M bool :=
  let* _ := tell (EvIsfile p) in
  let* w := get_world in
  ret (match w_fs w !! p with Some (File _ _) => true | _ => false end).

Definition os_access_R_OK (p : string) : M bool :=
  let* _ := tell (EvAccess p) in
  let* w := get_world in
  ret (match w_fs w !! p with
       | Some (File r _) => r
       | Some Dir => true
       | None => false
       end).

Definition os_path_getsize (p : string) : M nat :=
  let* _ := tell (EvGetsize p) in
  let* w := get_world in
  match w_fs w !! p with
  | Some (File _ c) => ret (String.length c)
  | Some Dir => ret 4096
  | None => raise FileNotFoundError p
  end.

Definition os_path_exists (p : string) : M bool :=
  let* _ := tell (EvExists p) in
  let* w := get_world in
  ret (bool_decide (is_Some (w_fs w !! p))).

(** [os.makedirs(p, exist_ok=True)]. *)
Definition os_makedirs (p : string) : M unit :=
  let* _ := tell (EvMakedirs p) in
  let* w := get_world in
  match w_fs w !! p with
  | Some Dir => ret tt
  | Some (File _ _) => raise FileExistsError p
  | None => λ w, (Ok tt, set_fs (<[p := Dir]> (w_fs w)) w)
  end.

(** [open(p, "r").read()]. *)
Definition read_file (p : string) : M string :=
  let* _ := tell (EvRead p) in
  let* w := get_world in
  match w_fs w !! p with
  | Some (File true c) => ret c
  | Some (File false _) => raise PermissionError p
  | Some Dir => raise IsADirectoryError p
  | None => raise FileNotFoundError p
  end.

(** [open(p, "w").write(c)]: creates the file, or truncates an existing one. *)
Definition write_file (p c : string) : M unit :=
  let* _ := tell (EvWrite p) in
  let* w := get_world in
  match w_fs w !! p with
  | Some Dir => raise IsADirectoryError p
  | Some (File r _) => λ w, (Ok tt, set_fs (<[p := File r c]> (w_fs w)) w)
  | None => λ w, (Ok tt, set_fs (<[p := File true c]> (w_fs w)) w)
  end.

Definition print (line : string) : M unit := tell (EvPrint line).

(** ** [os.path] string functions (POSIX) *)

Definition startswith_sep (s : string) : bool :=
  match s with
  | String c _ => Ascii.eqb c "/"
  | EmptyString => false
  end.

Fixpoint endswith_sep (s : string) : bool :=
  match s with
  | EmptyString => false
  | String c EmptyString => Ascii.eqb c "/"
  | String _ r => endswith_sep r
  end.

(** [os.path.join(a, b)]. *)
Definition os_path_join (a b : string) : string :=
  if startswith_sep b then b
  else if String.eqb a "" || endswith_sep a then a +:+ b
  else a +:+ "/" +:+ b.

Global Arguments os_path_join : simpl never.

(** Characters of [s] up to and including the last ["/"], reversed. *)
Fixpoint drop_to_sep (r : list ascii) : list ascii :=
  match r with
  | [] => []
  | c :: r' => if Ascii.eqb c "/" then r else drop_to_sep r'
  end.

Fixpoint lstrip_sep (r : list ascii) : list ascii :=
  match r with
  | [] => []
  | c :: r' => if Ascii.eqb c "/" then lstrip_sep r' else r
  end.

(** [os.path.dirname(p)]. *)
Definition os_path_dirname (p : string) : string :=
  let head := drop_to_sep (rev (String.list_ascii_of_string p)) in
  match lstrip_sep head with
  | [] => String.string_of_list_ascii (rev head)
  | stripped => String.string_of_list_ascii (rev stripped)
  end.

(** ** The resource resolver *)

Definition file_sanity_check (full_file_path : string) : M unit :=
  let* isf := os_path_isfile full_file_path in
  let* _ :=
    if negb isf then
      raise FileNotFoundError
        ("The file " +:+ full_file_path +:+ " could not be found.")
    else
      let* acc := os_access_R_OK full_file_path in
      if negb acc then
        raise PermissionError
          ("Permission denied to read the file " +:+ full_file_path)
      else ret tt in
  let* size := os_path_getsize full_file_path in
  if Nat.eqb size 0 then
    raise ValueError ("The file " +:+ full_file_path +:+ " is empty")
  else ret tt.

Definition get_full_resource_path (env_variable resource_name : string)
  : M string :=
  let* env_value := os_getenv env_variable in
  match env_value with
  | None =>
      raise EnvironmentError
        ("Environment variable '" +:+ env_variable
           +:+ "' is not set, please set it.")
  | Some env_value =>
      let resource_path := os_path_join env_value resource_name in
      let* _ := file_sanity_check resource_path in
      ret resource_path
  end.

(** ** The [json] library: [json.dump(obj, f, indent=4)] and [json.load]

    The text produced is the one of Python's encoder for the values of
    [json]: four spaces per nesting level, [", "]-free item separators at
    line ends, [": "] after keys, and every character outside the printable
    ASCII range (or a quote or a backslash) escaped. *)

Definition dquote : ascii := "034"%char.
Definition newline : ascii := "010"%char.

Definition hex_digit (n : nat) : ascii :=
  nth n ["0"; "1"; "2"; "3"; "4"; "5"; "6"; "7"; "8"; "9";
         "a"; "b"; "c"; "d"; "e"; "f"]%char "0"%char.

Definition escape_char (c : ascii) : string :=
  if Ascii.eqb c dquote then String "\" (String dquote "")
  else if Ascii.eqb c "\" then "\\"
  else if Ascii.eqb c "010" then "\n"
  else if Ascii.eqb c "013" then "\r"
  else if Ascii.eqb c "009" then "\t"
  else if Ascii.eqb c "008" then "\b"
  else if Ascii.eqb c "012" then "\f"
  else
    let n := nat_of_ascii c in
    if (n <? 32) || (126 <? n) then
      "\u00" +:+ String (hex_digit (n / 16)) (String (hex_digit (n mod 16)) "")
    else String c "".

Fixpoint escape (s : string) : string :=
  match s with
  | EmptyString => ""
  | String c r => escape_char c +:+ escape r
  end.

Definition json_quote (s : string) : string :=
  String dquote (escape s +:+ String dquote "").

Fixpoint spaces (n : nat) : string :=
  match n with
  | 0 => ""
  | S n' => String " " (spaces n')
  end.

Definition newline_indent (level : nat) : string :=
  String newline (spaces (4 * level)).

Fixpoint json_encode (level : nat) (v : json) : string :=
  match v with
  | JNull => "null"
  | JBool true => "true"
  | JBool false => "false"
  | JInt z => pretty z
  | JStr s => json_quote s
  | JList [] => "[]"
  | JList l =>
      "[" +:+ newline_indent (S level)
          +:+ str_join ("," +:+ newline_indent (S level))
                (map (json_encode (S level)) l)
          +:+ newline_indent level +:+ "]"
  | JObj [] => "{}"
  | JObj kvs =>
      "{" +:+ newline_indent (S level)
          +:+ str_join ("," +:+ newline_indent (S level))
                (map (fun kv => json_quote (fst kv) +:+ ": "
                                  +:+ json_encode (S level) (snd kv)) kvs)
          +:+ newline_indent level +:+ "}"
  end.

Definition json_dumps_indent4 (v : json) : string := json_encode 0 v.

Definition is_ws (c : ascii) : bool :=
  Ascii.eqb c " " || Ascii.eqb c "009" || Ascii.eqb c "010" || Ascii.eqb c "013".

Fixpoint skip_ws (s : list ascii) : list ascii :=
  match s with
  | c :: r => if is_ws c then skip_ws r else s
  | [] => []
  end.

Definition hex_value (c : ascii) : option nat :=
  let n := nat_of_ascii c in
  if (48 <=? n) && (n <=? 57) then Some (n - 48)
  else if (97 <=? n) && (n <=? 102) then Some (n - 87)
  else if (65 <=? n) && (n <=? 70) then Some (n - 55)
  else None.

Definition unescape (c : ascii) : option ascii :=
  if Ascii.eqb c dquote then Some dquote
  else if Ascii.eqb c "\" then Some "\"%char
  else if Ascii.eqb c "/" then Some "/"%char
  else if Ascii.eqb c "n" then Some "010"%char
  else if Ascii.eqb c "r" then Some "013"%char
  else if Ascii.eqb c "t" then Some "009"%char
  else if Ascii.eqb c "b" then Some "008"%char
  else if Ascii.eqb c "f" then Some "012"%char
  else None.

(** The characters after an opening quote, up to the closing one.  Escapes
    [\uXXXX] are decoded for code points below 256. *)
Fixpoint parse_string_body (s : list ascii) : option (string * list ascii) :=
  match s with
  | [] => None
  | c :: r =>
      if Ascii.eqb c dquote then Some ("", r)
      else if Ascii.eqb c "\" then
        match r with
        | [] => None
        | e :: r1 =>
            if Ascii.eqb e "u" then
              match r1 with
              | h3 :: h2 :: h1 :: h0 :: r2 =>
                  a3 ← hex_value h3; a2 ← hex_value h2;
                  a1 ← hex_value h1; a0 ← hex_value h0;
                  if (a3 =? 0) && (a2 =? 0) then
                    '(str, rest) ← parse_string_body r2;
                    Some (String (ascii_of_nat (16 * a1 + a0)) str, rest)
                  else None
              | _ => None
              end
            else
              ch ← unescape e;
              '(str, rest) ← parse_string_body r1;
              Some (String ch str, rest)
        end
      else if nat_of_ascii c <? 32 then None
      else
        '(str, rest) ← parse_string_body r;
        Some (String c str, rest)
  end.

Definition digit_value (c : ascii) : option N :=
  let n := nat_of_ascii c in
  if (48 <=? n) && (n <=? 57) then Some (N.of_nat (n - 48)) else None.

Fixpoint parse_digits (acc : N) (s : list ascii) : N * list ascii :=
  match s with
  | c :: r =>
      match digit_value c with
      | Some d => parse_digits (10 * acc + d) r
      | None => (acc, s)
      end
  | [] => (acc, [])
  end.

(** An integer literal; a leading zero, a fraction or an exponent is
    refused. *)
Definition parse_nat_literal (s : list ascii) : option (N * list ascii) :=
  match s with
  | c :: r =>
      d ← digit_value c;
      let '(n, rest) := parse_digits d r in
      let float_follows :=
        match rest with
        | x :: _ => Ascii.eqb x "." || Ascii.eqb x "e" || Ascii.eqb x "E"
        | [] => false
        end in
      let leading_zero :=
        match r with
        | x :: _ => bool_decide (d = 0%N) && bool_decide (is_Some (digit_value x))
        | [] => false
        end in
      if float_follows || leading_zero then None else Some (n, rest)
  | [] => None
  end.

Definition parse_number (s : list ascii) : option (json * list ascii) :=
  match s with
  | c :: r =>
      if Ascii.eqb c "-" then
        '(n, rest) ← parse_nat_literal r; Some (JInt (- Z.of_N n), rest)
      else
        '(n, rest) ← parse_nat_literal s; Some (JInt (Z.of_N n), rest)
  | [] => None
  end.

Definition expect (lit : string) (s : list ascii) : option (list ascii) :=
  let l := String.list_ascii_of_string lit in
  if bool_decide (take (length l) s = l) then Some (drop (length l) s)
  else None.

Fixpoint parse_value (fuel : nat) (s : list ascii) : option (json * list ascii) :=
  match fuel with
  | 0 => None
  | S fuel' =>
      match skip_ws s with
      | [] => None
      | c :: r =>
          if Ascii.eqb c dquote then
            '(str, rest) ← parse_string_body r; Some (JStr str, rest)
          else if Ascii.eqb c "[" then
            match skip_ws r with
            | c' :: r' =>
                if Ascii.eqb c' "]" then Some (JList [], r')
                else '(l, rest) ← parse_elements fuel' r; Some (JList l, rest)
            | [] => None
            end
          else if Ascii.eqb c "{" then
            match skip_ws r with
            | c' :: r' =>
                if Ascii.eqb c' "}" then Some (JObj [], r')
                else '(kvs, rest) ← parse_members fuel' r; Some (JObj kvs, rest)
            | [] => None
            end
          else if Ascii.eqb c "n" then
            rest ← expect "ull" r; Some (JNull, rest)
          else if Ascii.eqb c "t" then
            rest ← expect "rue" r; Some (JBool true, rest)
          else if Ascii.eqb c "f" then
            rest ← expect "alse" r; Some (JBool false, rest)
          else parse_number (c :: r)
      end
  end
with parse_elements (fuel : nat) (s : list ascii)
  : option (list json * list ascii) :=
  match fuel with
  | 0 => None
  | S fuel' =>
      '(v, r) ← parse_value fuel' s;
      match skip_ws r with
      | c :: r' =>
          if Ascii.eqb c "," then
            '(vs, rest) ← parse_elements fuel' r'; Some (v :: vs, rest)
          else if Ascii.eqb c "]" then Some ([v], r')
          else None
      | [] => None
      end
  end
with parse_members (fuel : nat) (s : list ascii)
  : option (list (string * json) * list ascii) :=
  match fuel with
  | 0 => None
  | S fuel' =>
      match skip_ws s with
      | q :: r0 =>
          if Ascii.eqb q dquote then
            '(k, r1) ← parse_string_body r0;
            match skip_ws r1 with
            | colon :: r2 =>
                if Ascii.eqb colon ":" then
                  '(v, r3) ← parse_value fuel' r2;
                  match skip_ws r3 with
                  | c :: r4 =>
                      if Ascii.eqb c "," then
                        '(kvs, rest) ← parse_members fuel' r4;
                        Some ((k, v) :: kvs, rest)
                      else if Ascii.eqb c "}" then Some ([(k, v)], r4)
                      else None
                  | [] => None
                  end
                else None
            | [] => None
            end
          else None
      | [] => None
      end
  end.

(** [json.loads(text)]; [None] stands for [JSONDecodeError]. *)
Definition json_loads (text : string) : option json :=
  let s := String.list_ascii_of_string text in
  match parse_value (2 * length s + 2) s with
  | Some (v, rest) =>
      match skip_ws rest with
      | [] => Some v
      | _ => None
      end
  | None => None
  end.

Definition json_load (path : string) : M json :=
  let* text := read_file path in
  match json_loads text with
  | Some v => ret v
  | None => raise JSONDecodeError path
  end.

(** [json.dump(obj, open(path, "w"), indent=4)]. *)
Definition json_dump (v : json) (path : string) : M unit :=
  write_file path (json_dumps_indent4 v).

(** ** Mutable list objects *)

Definition list_getitem (l : loc) (i : nat) : M pydict :=
  let* w := get_world in
  match w_heap w !! l with
  | Some items =>
      match items !! i with
      | Some x => ret x
      | None => raise IndexError "list index out of range"
      end
  | None => raise TypeError "object is not subscriptable"
  end.

Definition dict_getitem (d : pydict) (k : string) : M json :=
  match dict_get d k with
  | Some v => ret v
  | None => raise KeyError k
  end.

(** [l.insert(0, x)]: the object [l] itself is changed. *)
Definition list_insert_front (l : loc) (x : pydict) : M unit :=
  let* w := get_world in
  match w_heap w !! l with
  | Some items => λ w, (Ok tt, set_heap (<[l := x :: items]> (w_heap w)) w)
  | None => raise AttributeError "insert"
  end.

(** ** The class [InferenceProfile] *)

Section InferenceProfile.

(** The tokenizer library: a loaded tokenizer maps a text to its
    [input_ids]; [AutoTokenizer.from_pretrained(dir, local_files_only=True)]
    builds one from the files of a directory, or raises. *)
Definition tokenizer : Type := string → list Z.
Variable AutoTokenizer_from_pretrained :
  gmap string node → string → exn + tokenizer.

Definition from_pretrained (dir : string) : M tokenizer :=
  let* _ := tell (EvFromPretrained dir) in
  let* w := get_world in
  match AutoTokenizer_from_pretrained (w_fs w) dir with
  | inr tk => ret tk
  | inl e => λ w, (Raise e, w)
  end.

(** The attributes of an instance.  The three last ones are set by
    [_load_files] only; [None] means that the attribute does not exist. *)
Record InferenceProfile : Type := {
  _engine_name : string;
  _base_url : string;
  _model_id : string;
  _config_folder_name : string;
  _system_prompt_file : string;
  _tools : list json;
  _optional_hyper_parameters : pydict;
  _api_key : string;
  _load_tokenizer_flag : bool;
  _tokenizer : option tokenizer;
  _tokenizer_config : option json;
  _system_prompt : option string
}.

Definition set_tokenizer (tk : tokenizer) (self : InferenceProfile) :=
  {| _engine_name := _engine_name self; _base_url := _base_url self;
     _model_id := _model_id self;
     _config_folder_name := _config_folder_name self;
     _system_prompt_file := _system_prompt_file self;
     _tools := _tools self;
     _optional_hyper_parameters := _optional_hyper_parameters self;
     _api_key := _api_key self;
     _load_tokenizer_flag := _load_tokenizer_flag self;
     _tokenizer := Some tk;
     _tokenizer_config := _tokenizer_config self;
     _system_prompt := _system_prompt self |}.

Definition set_tokenizer_config (c : json) (self : InferenceProfile) :=
  {| _engine_name := _engine_name self; _base_url := _base_url self;
     _model_id := _model_id self;
     _config_folder_name := _config_folder_name self;
     _system_prompt_file := _system_prompt_file self;
     _tools := _tools self;
     _optional_hyper_parameters := _optional_hyper_parameters self;
     _api_key := _api_key self;
     _load_tokenizer_flag := _load_tokenizer_flag self;
     _tokenizer := _tokenizer self;
     _tokenizer_config := Some c;
     _system_prompt := _system_prompt self |}.

Definition set_system_prompt (s : string) (self : InferenceProfile) :=
  {| _engine_name := _engine_name self; _base_url := _base_url self;
     _model_id := _model_id self;
     _config_folder_name := _config_folder_name self;
     _system_prompt_file := _system_prompt_file self;
     _tools := _tools self;
     _optional_hyper_parameters := _optional_hyper_parameters self;
     _api_key := _api_key self;
     _load_tokenizer_flag := _load_tokenizer_flag self;
     _tokenizer := _tokenizer self;
     _tokenizer_config := _tokenizer_config self;
     _system_prompt := Some s |}.

Definition set_tools (ts : list json) (self : InferenceProfile) :=
  {| _engine_name := _engine_name self; _base_url := _base_url self;
     _model_id := _model_id self;
     _config_folder_name := _config_folder_name self;
     _system_prompt_file := _system_prompt_file self;
     _tools := ts;
     _optional_hyper_parameters := _optional_hyper_parameters self;
     _api_key := _api_key self;
     _load_tokenizer_flag := _load_tokenizer_flag self;
     _tokenizer := _tokenizer self;
     _tokenizer_config := _tokenizer_config self;
     _system_prompt := _system_prompt self |}.

(** Truth value of a string and of a list. *)
Definition str_truthy (s : string) : bool := negb (String.eqb s "").
Definition list_truthy {A} (l : list A) : bool :=
  match l with [] => false | _ => true end.

Definition _load_files (self : InferenceProfile) : M InferenceProfile :=
  let* tokenizer_config_path :=
    get_full_resource_path "MODEL_CONFIG_DIR"
      (os_path_join (_config_folder_name self) "tokenizer_config.json") in
  let* tokenizer_path :=
    get_full_resource_path "MODEL_CONFIG_DIR"
      (os_path_join (_config_folder_name self) "tokenizer.json") in
  let* system_prompt_path :=
    if str_truthy (_system_prompt_file self) then
      let* p := get_full_resource_path "SYSTEM_PROMPTS_DIR"
                  (_system_prompt_file self +:+ ".txt") in
      ret (Some p)
    else ret None in
  let* tool_definitions_dir :=
    if list_truthy (_tools self) then
      let* ps := mapM (λ tool, get_full_resource_path "TOOL_DEFINITIONS_DIR"
                                 (py_str tool +:+ ".json"))
                      (_tools self) in
      ret (Some ps)
    else ret None in
  (* Load tokenizer.json if the file is set *)
  let* tokenizer_exists := os_path_exists tokenizer_path in
  let* self :=
    if tokenizer_exists && _load_tokenizer_flag self then
      let* tk := from_pretrained (os_path_dirname tokenizer_path) in
      ret (set_tokenizer tk self)
    else ret self in
  (* Load tokenizer_config.json if the file is set *)
  let* tokenizer_config_exists := os_path_exists tokenizer_config_path in
  let* self :=
    if tokenizer_config_exists then
      let* c := json_load tokenizer_config_path in
      ret (set_tokenizer_config c self)
    else ret self in
  (* Load system prompt if present and the file is set *)
  let* self :=
    match system_prompt_path with
    | Some p =>
        if str_truthy p then
          let* s := read_file p in
          ret (set_system_prompt s self)
        else ret self
    | None => ret self
    end in
  (* Load tools if the list is non-empty *)
  let* self :=
    match tool_definitions_dir with
    | Some ps =>
        if list_truthy ps then
          let* docs := mapM json_load ps in
          ret (set_tools docs self)
        else ret self
    | None => ret self
    end in
  ret self.

Definition __init__
    (engine_name base_url model_id config_folder_name : string)
    (api_key : string) (system_prompt_file : string) (tools : list json)
    (optional_hyper_parameters : pydict) (load_tokenizer_flag : bool)
  : M InferenceProfile :=
  _load_files
    {| _engine_name := engine_name; _base_url := base_url;
       _model_id := model_id; _config_folder_name := config_folder_name;
       _system_prompt_file := system_prompt_file; _tools := tools;
       _optional_hyper_parameters := optional_hyper_parameters;
       _api_key := api_key; _load_tokenizer_flag := load_tokenizer_flag;
       _tokenizer := None; _tokenizer_config := None;
       _system_prompt := None |}.

Definition _to_dict (self : InferenceProfile) : pydict :=
  [ ("engine_name", JStr (_engine_name self));
    ("base_url", JStr (_base_url self));
    ("model_id", JStr (_model_id self));
    ("config_folder_name", JStr (_config_folder_name self));
    ("api_key", JStr (_api_key self));
    ("system_prompt_file", JStr (_system_prompt_file self));
    ("tools", JList (_tools self));
    ("optional_hyper_parameters", JObj (_optional_hyper_parameters self));
    ("load_tokenizer_flag", JBool (_load_tokenizer_flag self)) ].

(** *** The constructor call of [load_profile]

    The decoded document is spread as keyword arguments.  The keyword arguments are matched against the signature of [__init__];
    an argument of another type than the annotated one is refused here
    (the source would fail on it later, or not at all). *)

Definition param_names : list string :=
  [ "engine_name"; "base_url"; "model_id"; "config_folder_name"; "api_key";
    "system_prompt_file"; "tools"; "optional_hyper_parameters";
    "load_tokenizer_flag" ].

Definition kwarg {A} (kwargs : pydict) (name : string)
    (conv : json → option A) (default : option A) : M A :=
  match dict_get kwargs name with
  | Some v =>
      match conv v with
      | Some a => ret a
      | None => raise TypeError name
      end
  | None =>
      match default with
      | Some a => ret a
      | None => raise TypeError ("missing required argument: '" +:+ name +:+ "'")
      end
  end.

Definition as_str (v : json) : option string :=
  match v with JStr s => Some s | _ => None end.
Definition as_list (v : json) : option (list json) :=
  match v with JList l => Some l | _ => None end.
Definition as_dict (v : json) : option pydict :=
  match v with JObj d => Some d | _ => None end.
Definition as_bool (v : json) : option bool :=
  match v with JBool b => Some b | _ => None end.

Definition call_cls (profile_params : json) : M InferenceProfile :=
  match profile_params with
  | JObj kwargs =>
      match filter (λ k, k ∉ param_names) (map fst kwargs) with
      | k :: _ =>
          raise TypeError ("got an unexpected keyword argument '" +:+ k +:+ "'")
      | [] =>
          let* engine_name := kwarg kwargs "engine_name" as_str None in
          let* base_url := kwarg kwargs "base_url" as_str None in
          let* model_id := kwarg kwargs "model_id" as_str None in
          let* config_folder_name :=
            kwarg kwargs "config_folder_name" as_str None in
          let* api_key := kwarg kwargs "api_key" as_str (Some "CHANGE_ME") in
          let* system_prompt_file :=
            kwarg kwargs "system_prompt_file" as_str (Some "") in
          let* tools := kwarg kwargs "tools" as_list (Some []) in
          let* optional_hyper_parameters :=
            kwarg kwargs "optional_hyper_parameters" as_dict (Some []) in
          let* load_tokenizer_flag :=
            kwarg kwargs "load_tokenizer_flag" as_bool (Some false) in
          __init__ engine_name base_url model_id config_folder_name api_key
            system_prompt_file tools optional_hyper_parameters
            load_tokenizer_flag
      end
  | _ => raise TypeError "argument after ** must be a mapping"
  end.

Definition load_profile (profile_name : string) : M InferenceProfile :=
  let* full_profile_path :=
    get_full_resource_path "PROFILES_DIR" (profile_name +:+ ".json") in
  let* profile_params := json_load full_profile_path in
  call_cls profile_params.

(** *** [save_profile] *)

(** The [while os.path.exists(file_path)] loop, entered with the current
    values of its three variables.  [fuel] bounds the number of tests. *)
Fixpoint while_exists (fuel : nat) (profiles_dir profile_name : string)
    (unique_profile_name file_path : string) (counter : nat)
  : M (string * string) :=
  match fuel with
  | 0 => λ w, (Timeout, w)
  | S fuel' =>
      let* e := os_path_exists file_path in
      if e then
        let unique_profile_name := profile_name +:+ "_" +:+ pretty counter in
        let file_path :=
          os_path_join profiles_dir (unique_profile_name +:+ ".json") in
        while_exists fuel' profiles_dir profile_name
          unique_profile_name file_path (counter + 1)
      else ret (unique_profile_name, file_path)
  end.

Global Arguments while_exists : simpl never.

(** The loop is run with a bound of two more tests than the file system has
    entries; [save_profile_no_timeout] shows that the bound is never hit. *)
Definition save_profile (self : InferenceProfile) (profile_name : string)
  : M unit :=
  let* profiles_dir := os_getenv "PROFILES_DIR" in
  match profiles_dir with
  | None | Some "" =>
      raise EnvironmentError
        "Environment variable 'PROFILES_DIR' is not set, please set it."
  | Some profiles_dir =>
      (* Ensure the profiles directory exists *)
      let* _ := os_makedirs profiles_dir in
      (* Create the file path ensuring number uniqueness *)
      let unique_profile_name := profile_name in
      let file_path :=
        os_path_join profiles_dir (unique_profile_name +:+ ".json") in
      let counter := 1 in
      let* w := get_world in
      let* (unique_profile_name, file_path) :=
        while_exists (S (S (size (w_fs w)))) profiles_dir profile_name
          unique_profile_name file_path counter in
      (* Save the profile parameters to the file *)
      let* _ := json_dump (JObj (_to_dict self)) file_path in
      print ("Profile '" +:+ unique_profile_name +:+ "' saved to " +:+ file_path)
  end.

(** *** Token count and message shaping *)

Definition get_token_count (self : InferenceProfile) (text : string) : M nat :=
  if negb (_load_tokenizer_flag self) then
    raise ValueError
      "load_tokenizer_flag is False and tokenizer is not loaded. Set load_tokenizer_flag to True in the Profile's json and reload the profile."
  else
    match _tokenizer self with
    | Some tk => ret (length (tk text))
    | None => raise AttributeError "_tokenizer"
    end.

Definition system_message (prompt : string) : pydict :=
  [ ("role", JStr "system"); ("content", JStr prompt) ].

(** [messages] is a reference to a list object; the same reference is
    returned. *)
Definition format_messages_chat (self : InferenceProfile) (messages : loc)
  : M loc :=
  let* first := list_getitem messages 0 in
  let* role := dict_getitem first "role" in
  let* _ :=
    (* hasattr(self, "_system_prompt"), then "is not None": the attribute
       holds the text returned by read() *)
    match negb (py_eq_str role "system"), _system_prompt self with
    | true, Some prompt => list_insert_front messages (system_message prompt)
    | _, _ => ret tt
    end in
  ret messages.

End InferenceProfile.

(** ** Further methods of [InferenceProfile] *)

(** [d[k] = v]: the value of an existing key is replaced where it stands, a
    new key is appended. *)
Fixpoint dict_set (d : pydict) (k : string) (v : json) : pydict :=
  match d with
  | [] => [(k, v)]
  | (k', v') :: d' =>
      if String.eqb k' k then (k', v) :: d' else (k', v') :: dict_set d' k v
  end.

(** [d.update(other)]. *)
Definition dict_update (d other : pydict) : pydict :=
  fold_left (λ acc kv, dict_set acc kv.1 kv.2) other d.

Definition format_inference_params (self : InferenceProfile) : pydict :=
  let inference_request := [("model", JStr (_model_id self))] in
  dict_update inference_request (_optional_hyper_parameters self).

(** The two setters change an attribute of the instance; the embedding
    returns the instance after the change.  [set_optional_param] updates the
    dictionary of the instance in place. *)
Definition set_optional_param (self : InferenceProfile) (params : pydict)
  : InferenceProfile :=
  {| _engine_name := _engine_name self; _base_url := _base_url self;
     _model_id := _model_id self;
     _config_folder_name := _config_folder_name self;
     _system_prompt_file := _system_prompt_file self;
     _tools := _tools self;
     _optional_hyper_parameters :=
       dict_update (_optional_hyper_parameters self) params;
     _api_key := _api_key self;
     _load_tokenizer_flag := _load_tokenizer_flag self;
     _tokenizer := _tokenizer self;
     _tokenizer_config := _tokenizer_config self;
     _system_prompt := _system_prompt self |}.

Definition set_api_key (self : InferenceProfile) (api_key : string)
  : InferenceProfile :=
  {| _engine_name := _engine_name self; _base_url := _base_url self;
     _model_id := _model_id self;
     _config_folder_name := _config_folder_name self;
     _system_prompt_file := _system_prompt_file self;
     _tools := _tools self;
     _optional_hyper_parameters := _optional_hyper_parameters self;
     _api_key := api_key;
     _load_tokenizer_flag := _load_tokenizer_flag self;
     _tokenizer := _tokenizer self;
     _tokenizer_config := _tokenizer_config self;
     _system_prompt := _system_prompt self |}.

(** [__str__]: the text that [save_profile] writes. *)
Definition __str__ (self : InferenceProfile) : string :=
  json_dumps_indent4 (JObj (_to_dict self)).

(** [n] calls of [save_profile] under the same name. *)
Fixpoint save_profile_times (n : nat) (self : InferenceProfile)
    (profile_name : string) : M unit :=
  match n with
  | 0 => ret tt
  | S n' =>
      let* _ := save_profile self profile_name in
      save_profile_times n' self profile_name
  end.

(** ** Vocabulary of the further statements *)

(** Events that create or change something in the file system. *)
Definition is_write_event (e : event) : bool :=
  match e with
  | EvWrite _ | EvMakedirs _ => true
  | _ => false
  end.

(** The events of the resolver. *)
Definition is_resolver_event (e : event) : bool :=
  match e with
  | EvGetenv _ | EvIsfile _ | EvAccess _ | EvGetsize _ => true
  | _ => false
  end.

(** ** [json.dumps(obj)] with the default separators

    One line: [", "] between items, [": "] after keys. *)

Fixpoint json_encode_compact (v : json) : string :=
  match v with
  | JNull => "null"
  | JBool true => "true"
  | JBool false => "false"
  | JInt z => pretty z
  | JStr s => json_quote s
  | JList l => "[" +:+ str_join ", " (map json_encode_compact l) +:+ "]"
  | JObj kvs =>
      "{" +:+ str_join ", "
                (map (fun kv => json_quote (fst kv) +:+ ": "
                                  +:+ json_encode_compact (snd kv)) kvs)
          +:+ "}"
  end.

Definition json_dumps (v : json) : string := json_encode_compact v.

(** ** Layouts

    Both encoders are instances of one scheme: an opening bracket, white
    space, the items separated by a comma and white space, white space, the
    closing bracket.  The scheme is used in the proofs only. *)

Record layout : Type := Layout {
  lay_open : nat → string;
  lay_sep : nat → string;
  lay_close : nat → string
}.

Definition indent4 : layout :=
  Layout (λ level, newline_indent (S level))
         (λ level, newline_indent (S level))
         (λ level, newline_indent level).

Definition one_line : layout := Layout (λ _, "") (λ _, " ") (λ _, "").

Fixpoint encode_with (lay : layout) (level : nat) (v : json) : string :=
  match v with
  | JNull => "null"
  | JBool true => "true"
  | JBool false => "false"
  | JInt z => pretty z
  | JStr s => json_quote s
  | JList [] => "[]"
  | JList l =>
      "[" +:+ lay_open lay level
          +:+ str_join ("," +:+ lay_sep lay level)
                (map (encode_with lay (S level)) l)
          +:+ lay_close lay level +:+ "]"
  | JObj [] => "{}"
  | JObj kvs =>
      "{" +:+ lay_open lay level
          +:+ str_join ("," +:+ lay_sep lay level)
                (map (fun kv => json_quote (fst kv) +:+ ": "
                                  +:+ encode_with lay (S level) (snd kv)) kvs)
          +:+ lay_close lay level +:+ "}"
  end.

(** The number of calls that the parser needs for a value. *)
Fixpoint json_weight (v : json) : nat :=
  match v with
  | JList l => S (list_sum (map (λ x, S (json_weight x)) l))
  | JObj kvs => S (list_sum (map (λ kv, S (json_weight (snd kv))) kvs))
  | _ => 1
  end.

(** * [generate.py]

    The module talks to a model server and writes a data set.  A reply of
    [ollama.chat] is the decoded JSON document of the HTTP response, a value
    of [json]; Python's [None] is [JNull].  The server is a parameter: what
    it answers may depend on everything that has happened before.  The
    records handed to [logging] are events of the module; the log file
    that [logging] keeps is not a file of the model. *)

(** ** Python operations on text and on decoded values *)

(** [bool(v)]. *)
Definition py_truthy (v : json) : bool :=
  match v with
  | JNull => false
  | JBool b => b
  | JInt z => negb (Z.eqb z 0)
  | JStr s => negb (String.eqb s "")
  | JList l => match l with [] => false | _ => true end
  | JObj d => match d with [] => false | _ => true end
  end.

(** [s.startswith(sub)]. *)
Fixpoint startswith (sub s : string) : bool :=
  match sub with
  | EmptyString => true
  | String a sub' =>
      match s with
      | String b s' => Ascii.eqb a b && startswith sub' s'
      | EmptyString => false
      end
  end.

Fixpoint str_drop (n : nat) (s : string) : string :=
  match n, s with
  | S n', String _ s' => str_drop n' s'
  | _, _ => s
  end.

Fixpoint str_take (n : nat) (s : string) : string :=
  match n, s with
  | S n', String c s' => String c (str_take n' s')
  | _, _ => ""
  end.

(** The first index at which [sub] occurs in [s], where [s] is the part of
    a text that starts at index [i]. *)
Fixpoint find_at (sub s : string) (i : nat) : option nat :=
  if startswith sub s then Some i
  else
    match s with
    | EmptyString => None
    | String _ s' => find_at sub s' (S i)
    end.

(** [s.find(sub, start)] for [start >= 0]; [None] stands for [-1]. *)
Definition str_find (sub s : string) (start : nat) : option nat :=
  if String.length s <? start then None
  else find_at sub (str_drop start s) start.

(** [sub in s]. *)
Definition str_contains (sub s : string) : bool :=
  bool_decide (is_Some (str_find sub s 0)).

(** [s[a:b]] and [s[a:]] for indices that are not negative. *)
Definition str_slice (s : string) (a : nat) (b : option nat) : string :=
  match b with
  | Some b => str_take (b - a) (str_drop a s)
  | None => str_drop a s
  end.

(** [c.isspace()] for the code points below 256. *)
Definition is_space (c : ascii) : bool :=
  let n := nat_of_ascii c in
  ((9 <=? n) && (n <=? 13)) || ((28 <=? n) && (n <=? 32))
  || (n =? 133) || (n =? 160).

Fixpoint str_lstrip (s : string) : string :=
  match s with
  | String c s' => if is_space c then str_lstrip s' else s
  | EmptyString => ""
  end.

Definition str_rev (s : string) : string :=
  String.string_of_list_ascii (rev (String.list_ascii_of_string s)).

(** [s.strip()]. *)
Definition str_strip (s : string) : string :=
  str_rev (str_lstrip (str_rev (str_lstrip s))).

(** ** State, events and the monad of the module *)

Inductive log_level : Type := ERROR | WARNING | INFO.

(** Requests sent to a model server, calls of the Slack client, and records
    handed to [logging]. *)
Inductive gen_event : Type :=
  | GChat (model prompt : string)
  | GCreate (base_url api_key : string) (messages : list pydict)
      (params : pydict)
  | GSlack (method : string) (args : pydict)
  | GLog (level : log_level) (msg : string).

Record gstate : Type := GState {
  g_world : world;
  g_trace : list gen_event
}.

Definition G (A : Type) : Type := gstate → result A * gstate.

Definition gret {A} (a : A) : G A := λ s, (Ok a, s).
Definition graise {A} (c : py_class) (msg : string) : G A :=
  λ s, (Raise (Exn c msg), s).
Definition gbind {A B} (m : G A) (k : A → G B) : G B :=
  λ s, match m s with
       | (Ok a, s') => k a s'
       | (Raise e, s') => (Raise e, s')
       | (Timeout, s') => (Timeout, s')
       end.

Notation "'let+' x := m 'in' k" := (gbind m (λ x, k))
  (at level 10, x pattern, m at level 100, k at level 200).

Definition gtell (e : gen_event) : G unit :=
  λ s, (Ok tt, GState (g_world s) (g_trace s ++ [e])).
Definition gget : G gstate := λ s, (Ok s, s).

(** A computation on the world, run inside the module. *)
Definition lift {A} (m : M A) : G A :=
  λ s, let '(r, w) := m (g_world s) in (r, GState w (g_trace s)).

(** [try: m except Exception as e: handler(e)]. *)
Definition try_except {A} (m : G A) (handler : exn → G A) : G A :=
  λ s, match m s with
       | (Raise e, s') => handler e s'
       | other => other
       end.

Definition logging_error (msg : string) : G unit := gtell (GLog ERROR msg).
Definition logging_warning (msg : string) : G unit := gtell (GLog WARNING msg).
Definition logging_info (msg : string) : G unit := gtell (GLog INFO msg).

(** [v[k]] for a string [k]. *)
Definition py_getitem (v : json) (k : string) : G json :=
  match v with
  | JObj d =>
      match dict_get d k with
      | Some x => gret x
      | None => graise KeyError k
      end
  | JStr _ => graise TypeError "string indices must be integers"
  | JList _ => graise TypeError "list indices must be integers or slices, not str"
  | _ => graise TypeError "object is not subscriptable"
  end.

(** [v[k] = x] for a string [k]; the dictionary after the assignment. *)
Definition py_setitem (v : json) (k : string) (x : json) : G json :=
  match v with
  | JObj d => gret (JObj (dict_set d k x))
  | JList _ => graise TypeError "list indices must be integers or slices, not str"
  | _ => graise TypeError "object does not support item assignment"
  end.

(** [sub in v] for a string [sub]. *)
Definition py_contains (sub : string) (v : json) : G bool :=
  match v with
  | JStr s => gret (str_contains sub s)
  | JList l => gret (existsb (λ x, py_eq_str x sub) l)
  | JObj d => gret (bool_decide (is_Some (dict_get d sub)))
  | _ => graise TypeError "argument is not iterable"
  end.

(** [open(path, "a+")], the writes of the texts, and the close.  The file
    is created when the path is unused; the mode opens for reading as well,
    so a file that cannot be read is refused. *)
Definition append_file (path : string) (texts : list string) : M unit :=
  let* _ := tell (EvWrite path) in
  let* w := get_world in
  match w_fs w !! path with
  | Some Dir => raise IsADirectoryError path
  | Some (File false _) => raise PermissionError path
  | Some (File true c) =>
      λ w, (Ok tt, set_fs (<[path := File true (c +:+ str_join "" texts)]> (w_fs w)) w)
  | None =>
      λ w, (Ok tt, set_fs (<[path := File true (str_join "" texts)]> (w_fs w)) w)
  end.

(** A new list object, its items, and its end. *)
Definition alloc_list (items : list pydict) : M loc :=
  let* w := get_world in
  let l := fresh (dom (w_heap w)) in
  λ w, (Ok l, set_heap (<[l := items]> (w_heap w)) w).

Definition read_list (l : loc) : M (list pydict) :=
  let* w := get_world in
  match w_heap w !! l with
  | Some items => ret items
  | None => raise TypeError "object is not iterable"
  end.

Definition free_list (l : loc) : M unit :=
  λ w, (Ok tt, set_heap (delete l (w_heap w)) w).

Definition MODEL_NAME : string := "mistral-large:latest".
Definition OUTPUT_FILENAME : string := "synthetic_pen_test_data.jsonl".
Definition LOG_FILENAME : string := "pen_test_data_generation.log".

Section Generate.

(** [ollama.chat(model=..., messages=[{"role": "user", "content": prompt}])]
    and [client.chat.completions.create(messages=..., **params)] of a
    client built for a base URL and a key: the reply or the exception,
    given the requests and records so far. *)
Variable ollama_chat : list gen_event → string → string → exn + json.
Variable client_create :
  list gen_event → string → string → list pydict → pydict → exn + json.

(** The text of a [JSONDecodeError] for a document. *)
Variable json_error_text : string → string.

(** The lists of variations and the two templates, each applied to the
    texts that [format] inserts. *)
Variables phases environments types constraints : list string.
Variable user_query_prompt_template_format :
  string → string → string → string → string.
Variable response_prompt_template_format : string → string.

Definition get_ollama_response (user_query model_name : string) : G json :=
  try_except
    (let+ s := gget in
     let+ _ := gtell (GChat model_name user_query) in
     match ollama_chat (g_trace s) model_name user_query with
     | inr response => gret response
     | inl e => λ s, (Raise e, s)
     end)
    (λ e,
       let+ _ := logging_error ("Ollama API call failed: " +:+ exn_msg e) in
       gret JNull).

(** [openai.OpenAI(base_url=..., api_key=...)]: the client is the pair of
    its settings; nothing is sent when it is built. *)
Definition get_client (self : InferenceProfile) : string * string :=
  (_base_url self, _api_key self).

(** The list [messages] is a new object, which nothing refers to once the
    request is made.  A keyword given twice is refused by the call itself. *)
Definition get_inference_profile_response (user_query : json)
    (inference_profile : InferenceProfile) : G json :=
  try_except
    (let client := get_client inference_profile in
     let params := format_inference_params inference_profile in
     let+ messages :=
       lift (alloc_list [[("role", JStr "user"); ("content", user_query)]]) in
     let+ formatted_messages :=
       lift (format_messages_chat inference_profile messages) in
     let+ items := lift (read_list formatted_messages) in
     let+ _ := lift (free_list messages) in
     if bool_decide ("messages" ∈ map fst params) then
       graise TypeError "got multiple values for keyword argument 'messages'"
     else
       let+ s := gget in
       let+ _ := gtell (GCreate (fst client) (snd client) items params) in
       match client_create (g_trace s) (fst client) (snd client) items params with
       | inr response => gret response
       | inl e => λ s, (Raise e, s)
       end)
    (λ e,
       let+ _ := logging_error
                   ("InferenceProfile API call failed: " +:+ exn_msg e) in
       gret JNull).

Definition extract_json_content (response original_user_query : json)
  : G json :=
  if negb (py_truthy response) then gret JNull
  else
    let+ message := py_getitem response "message" in
    let+ raw_content := py_getitem message "content" in
    (* Remove Markdown formatting (if any) *)
    let+ fenced := py_contains "```json" raw_content in
    let+ raw_content :=
      if fenced then
        match raw_content with
        | JStr s =>
            let start_index :=
              match str_find "`json" s 0 with
              | Some i => i + String.length "`json"
              | None => 4
              end in
            let end_index := str_find "```" s start_index in
            gret (JStr (str_strip (str_slice s start_index end_index)))
        | _ => graise AttributeError "find"
        end
      else gret raw_content in
    match raw_content with
    | JStr s =>
        match json_loads s with
        | Some output => gret output
        | None =>
            let+ _ := logging_error
                        ("JSONDecodeError: " +:+ json_error_text s
                           +:+ ". Raw content: " +:+ s) in
            let+ _ := lift (print ("Invalid JSON response received. Check log file '"
                                     +:+ LOG_FILENAME +:+ "' for details.")) in
            gret JNull
        end
    | _ => graise TypeError "the JSON object must be str, bytes or bytearray"
    end.

Definition generate_user_query : G json :=
  let user_query_prompt :=
    user_query_prompt_template_format
      (str_join ", " phases) (str_join ", " environments)
      (str_join ", " types) (str_join ", " constraints) in
  let+ response := get_ollama_response user_query_prompt MODEL_NAME in
  if py_truthy response then
    let+ message := py_getitem response "message" in
    py_getitem message "content"
  else
    let+ _ := logging_warning
                "Failed to generate user query due to failed Ollama API call." in
    gret JNull.

Definition generate_response (user_query : json) : G json :=
  let response_prompt := response_prompt_template_format (py_str user_query) in
  let+ response := get_ollama_response response_prompt MODEL_NAME in
  if py_truthy response then
    let+ output := extract_json_content response user_query in
    if py_truthy output then gret output
    else
      let+ _ := logging_warning "Skipping response due to invalid JSON output." in
      gret JNull
  else
    let+ _ := logging_warning
                "Skipping response due to failed Ollama API call." in
    gret JNull.

Definition generate_penetration_testing_data (user_query : json) : G json :=
  let+ user_query :=
    if negb (py_truthy user_query) then generate_user_query
    else gret user_query in
  if negb (py_truthy user_query) then gret JNull
  else
    let+ response := generate_response user_query in
    if py_truthy response then
      py_setitem response "generated_user_query" user_query
    else gret JNull.

Definition save_dataset_to_jsonl (dataset : list json) (filename : string)
  : G unit :=
  try_except
    (let+ _ := lift (append_file filename
                       (map (λ obj, json_dumps obj +:+ String newline "")
                          dataset)) in
     let+ _ := lift (print ("Dataset saved successfully to '" +:+ filename
                              +:+ "'!")) in
     logging_info ("Dataset saved successfully to '" +:+ filename
                     +:+ "'. Total samples: " +:+ pretty (length dataset)))
    (λ e,
       let+ _ := logging_error ("Error saving dataset to file: " +:+ exn_msg e) in
       lift (print ("Error saving dataset. Check log file '" +:+ LOG_FILENAME
                      +:+ "' for details."))).

(** The loop of the script: [size] attempts, the successful ones kept. *)
Fixpoint generate_dataset (size : nat) (dataset : list json) : G (list json) :=
  match size with
  | 0 => gret dataset
  | S size' =>
      let+ data := generate_penetration_testing_data JNull in
      if py_truthy data then generate_dataset size' (dataset ++ [data])
      else
        let+ _ := logging_warning
                    "Skipping sample due to failed data generation." in
        generate_dataset size' dataset
  end.

(** The script run with [--size size --output output]. *)
Definition main (size : nat) (output : string) : G unit :=
  let+ dataset := generate_dataset size [] in
  if match dataset with [] => false | _ => true end
  then save_dataset_to_jsonl dataset output
  else lift (print "Dataset generation failed. Check log file for errors.").

End Generate.

(** * [slack_bot.py]

    The calls of the Slack client, the callback [ack] and the clock are
    parameters, like the model server; a reply of the client is the decoded
    document, a value of [json].  The pictographs of the messages are
    parameters as well. *)

(** ** The count of the [/query] command *)

Definition is_digit (c : ascii) : bool :=
  let n := nat_of_ascii c in (48 <=? n) && (n <=? 57).

Fixpoint str_take_while (p : ascii → bool) (s : string) : string :=
  match s with
  | String c s' => if p c then String c (str_take_while p s') else ""
  | EmptyString => ""
  end.

(** [int(digits)] for a text of decimal digits. *)
Fixpoint int_of_digits_from (acc : N) (digits : string) : N :=
  match digits with
  | String c r =>
      int_of_digits_from (10 * acc + N.of_nat (nat_of_ascii c - 48)) r
  | EmptyString => acc
  end.

Definition int_of_digits (digits : string) : N := int_of_digits_from 0 digits.

(** The pattern [-c\s+(\d+)] at the start of [s]: the text of the group.
    Both repetitions take all they can, and giving characters back never
    helps, since no character is a white space and a digit. *)
Definition match_count_here (s : string) : option string :=
  match s with
  | String "-" (String "c" r) =>
      let r' := str_lstrip r in
      if String.length r' <? String.length r then
        match str_take_while is_digit r' with
        | EmptyString => None
        | digits => Some digits
        end
      else None
  | _ => None
  end.

(** [re.search(r'-c\s+(\d+)', text)]: the group of the leftmost match. *)
Fixpoint re_search_count (text : string) : option string :=
  match match_count_here text with
  | Some digits => Some digits
  | None =>
      match text with
      | String _ text' => re_search_count text'
      | EmptyString => None
      end
  end.

(** The lines 104 to 111 of [handle_query_command]. *)
Definition query_count (text : string) : nat :=
  let count := 1 in
  match re_search_count text with
  | Some digits =>
      let count := int_of_digits digits in
      N.to_nat (N.min count 5)
  | None => count
  end.

(** ** Iteration and dictionary access *)

(** The items of [for x in v]. *)
Definition py_iter (v : json) : G (list json) :=
  match v with
  | JList l => gret l
  | JObj d => gret (map (λ kv, JStr (fst kv)) d)
  | JStr s =>
      gret (map (λ c, JStr (String c "")) (String.list_ascii_of_string s))
  | _ => graise TypeError "object is not iterable"
  end.

(** [v.get(k, default)]. *)
Definition py_get (v : json) (k : string) (default_value : json) : G json :=
  match v with
  | JObj d => gret (default default_value (dict_get d k))
  | _ => graise AttributeError "get"
  end.

(** [for x in l: body(x)]. *)
Fixpoint gfor {A} (l : list A) (body : A → G unit) : G unit :=
  match l with
  | [] => gret tt
  | x :: l' => let+ _ := body x in gfor l' body
  end.

Section Bot.

Variable slack_api : list gen_event → string → pydict → exn + json.
Variable ollama_chat : list gen_event → string → string → exn + json.
Variables phases environments types constraints : list string.
Variable user_query_prompt_template_format :
  string → string → string → string → string.

(** [str(datetime.now())] and [datetime.now().strftime("%A, %B %d, %Y")]. *)
Variable now_text : list gen_event → string.
Variable today_text : list gen_event → string.

Variable OPENWEBUI_CHAT_URL : string.

(** The pictographs: sun, bullet, magnifying glass, brain, check mark,
    cross mark, warning sign. *)
Variables sun bullet magnifier brain check_mark cross_mark warning_sign : string.

(** A call of a method of the Slack client, or of [ack], with its keyword
    arguments. *)
Definition slack_call (method : string) (args : pydict) : G json :=
  let+ s := gget in
  let+ _ := gtell (GSlack method args) in
  match slack_api (g_trace s) method args with
  | inr response => gret response
  | inl e => λ s, (Raise e, s)
  end.

(** One step of the dictionary comprehension of [get_all_users].  A name
    must be a string to be a key of the embedding. *)
Definition add_active_user (active_users : pydict) (member : json)
  : G pydict :=
  let+ is_bot := py_get member "is_bot" (JBool false) in
  let+ keep :=
    if negb (py_truthy is_bot) then
      let+ id := py_get member "id" JNull in
      if negb (py_eq_str id "USLACKBOT") then
        let+ deleted := py_get member "deleted" (JBool false) in
        gret (negb (py_truthy deleted))
      else gret false
    else gret false in
  if keep : bool then
    let+ name := py_getitem member "name" in
    let+ id := py_getitem member "id" in
    match name with
    | JStr name => gret (dict_set active_users name id)
    | _ => graise TypeError "name"
    end
  else gret active_users.

Fixpoint active_users_of (members : list json) (active_users : pydict)
  : G pydict :=
  match members with
  | [] => gret active_users
  | member :: members' =>
      let+ active_users := add_active_user active_users member in
      active_users_of members' active_users
  end.

(** The dictionary of the active users, or the empty list. *)
Definition get_all_users : G json :=
  try_except
    (let+ response := slack_call "users_list" [] in
     let+ members := py_getitem response "members" in
     let+ members := py_iter members in
     let+ active_users := active_users_of members [] in
     gret (JObj active_users))
    (λ e,
       let+ _ := lift (print ("Error fetching users: " +:+ exn_msg e)) in
       gret (JList [])).

(** [d.values()]. *)
Definition py_values (v : json) : G (list json) :=
  match v with
  | JObj d => gret (map snd d)
  | _ => graise AttributeError "values"
  end.

Definition reminder_text (today : string) : string :=
  sun +:+ " *Good Morning!* | " +:+ today +:+ String newline (String newline "")
    +:+ "*Daily Reminder*: Help curate our command dataset today by using the `/query` command."
    +:+ String newline (String newline "")
    +:+ "*Try these options*:" +:+ String newline ""
    +:+ bullet +:+ " Basic scenario: `/query`" +:+ String newline ""
    +:+ bullet +:+ " Multiple scenarios: `/query -c 3`"
    +:+ String newline (String newline "")
    +:+ "_Generate scenarios and paste them into <" +:+ OPENWEBUI_CHAT_URL
    +:+ "|OpenWebUI Chat> to help grow our high quality dataset!_"
    +:+ String newline (String newline "").

Definition now : G string := let+ s := gget in gret (now_text (g_trace s)).

(** The body of the loop of [send_morning_reminder]. *)
Definition send_reminder (text : string) (user_id : json) : G unit :=
  try_except
    (let+ response := slack_call "conversations_open"
                        [("users", JList [user_id])] in
     let+ channel := py_getitem response "channel" in
     let+ dm_channel := py_getitem channel "id" in
     let+ _ := slack_call "chat_postMessage"
                 [("channel", dm_channel); ("text", JStr text)] in
     let+ t := now in
     lift (print ("[" +:+ t +:+ "] Reminder sent to user " +:+ py_str user_id)))
    (λ e,
       let+ t := now in
       lift (print ("[" +:+ t +:+ "] Error sending reminder to user "
                      +:+ py_str user_id +:+ ": " +:+ exn_msg e))).

Definition send_morning_reminder : G unit :=
  let+ users := get_all_users in
  let+ user_ids_lst := py_values users in
  let+ s := gget in
  let today := today_text (g_trace s) in
  gfor user_ids_lst (send_reminder (reminder_text today)).

(** [formatted_scenarios], for the scenarios numbered from [i]. *)
Fixpoint format_scenarios (i : nat) (scenarios : list json) : string :=
  match scenarios with
  | [] => ""
  | scenario :: rest =>
      ("*Scenario " +:+ pretty i +:+ "*:" +:+ String newline ""
         +:+ "```" +:+ py_str scenario +:+ "```"
         +:+ String newline (String newline ""))
        +:+ format_scenarios (S i) rest
  end.

(** The loop [for i in range(count)], from [i] on. *)
Fixpoint generate_scenarios (thinking_message : json) (count i n : nat)
    (scenarios : list json) : G (list json) :=
  match n with
  | 0 => gret scenarios
  | S n' =>
      let+ _ :=
        if (1 <? count) && (0 <? i) then
          let+ channel := py_getitem thinking_message "channel" in
          let+ ts := py_getitem thinking_message "ts" in
          let+ _ := slack_call "chat_update"
                      [("channel", channel); ("ts", ts);
                       ("text", JStr (brain +:+ " *Analyzing*: Creating scenario "
                                        +:+ pretty (i + 1) +:+ " of "
                                        +:+ pretty count +:+ "..."))] in
          gret tt
        else gret tt in
      let+ user_query :=
        generate_user_query ollama_chat phases environments types constraints
          user_query_prompt_template_format in
      let scenarios :=
        if py_truthy user_query then scenarios ++ [user_query] else scenarios in
      generate_scenarios thinking_message count (S i) n' scenarios
  end.

Definition chat_update (thinking_message : json) (text : string) : G unit :=
  let+ channel := py_getitem thinking_message "channel" in
  let+ ts := py_getitem thinking_message "ts" in
  let+ _ := slack_call "chat_update"
              [("channel", channel); ("ts", ts); ("text", JStr text)] in
  gret tt.

(** [re.search] and [int] need a text. *)
Definition handle_query_command (command : json) : G unit :=
  let+ _ := slack_call "ack"
              [("text", JStr "Request received! Working on your penetration testing scenario...")] in
  let+ text := py_get command "text" (JStr "") in
  let+ count :=
    match text with
    | JStr text => gret (query_count text)
    | _ => graise TypeError "expected string or bytes-like object"
    end in
  let+ user_id := py_getitem command "user_id" in
  let+ response := slack_call "conversations_open"
                     [("users", JList [user_id])] in
  let+ channel := py_getitem response "channel" in
  let+ dm_channel := py_getitem channel "id" in
  let+ thread_ts := py_get command "thread_ts" JNull in
  let+ thinking_message :=
    slack_call "chat_postMessage"
      [("channel", dm_channel);
       ("text", JStr (magnifier +:+ " *Processing Request*: Generating a random contextual penetration testing scenario for you. This might take a moment..."));
       ("thread_ts", thread_ts)] in
  try_except
    (let+ scenarios := generate_scenarios thinking_message count 0 count [] in
     if match scenarios with [] => false | _ => true end then
       let formatted_scenarios := format_scenarios 1 scenarios in
       chat_update thinking_message
         (check_mark +:+ " *Generated " +:+ pretty (length scenarios)
            +:+ " Scenario(s)*:" +:+ String newline (String newline "")
            +:+ formatted_scenarios
            +:+ "_Copy and paste these scenarios to <" +:+ OPENWEBUI_CHAT_URL
            +:+ "|OpenWebUI Chat> to get started!_")
     else
       chat_update thinking_message
         (cross_mark +:+ " *Generation Failed*: Sorry, I couldn't generate any penetration testing scenarios. Please try again or check the system logs for details."))
    (λ e,
       chat_update thinking_message
         (warning_sign +:+ " *Error*: Something went wrong while generating your scenario: "
            +:+ exn_msg e)).

End Bot.


(** ** Vocabulary of the statements *)

(** The world after the events [evs] have been recorded. *)
Definition logs (evs : list event) (w : world) : world :=
  World (w_env w) (w_fs w) (w_heap w) (w_trace w ++ evs).

Definition not_found_msg (p : string) : string :=
  "The file " +:+ p +:+ " could not be found.".
Definition permission_msg (p : string) : string :=
  "Permission denied to read the file " +:+ p.
Definition empty_msg (p : string) : string :=
  "The file " +:+ p +:+ " is empty".
Definition unset_msg (var : string) : string :=
  "Environment variable '" +:+ var +:+ "' is not set, please set it.".

Definition is_file (n : option node) : bool :=
  match n with Some (File _ _) => true | _ => false end.

(** The resource [name] under the directory named by [var] passes the
    resolver: a readable, non-empty regular file. *)
Definition valid_resource (w : world) (var name : string) : Prop :=
  ∃ dir c, w_env w !! var = Some dir
         ∧ w_fs w !! os_path_join dir name = Some (File true c)
         ∧ c ≠ "".

(** A valid resource whose content is a JSON document. *)
Definition valid_json_resource (w : world) (var name : string) : Prop :=
  ∃ dir c, w_env w !! var = Some dir
         ∧ w_fs w !! os_path_join dir name = Some (File true c)
         ∧ c ≠ "" ∧ is_Some (json_loads c).

(** The variable is set but there is no regular file at the joined path. *)
Definition missing_resource (w : world) (var name : string) : Prop :=
  ∃ dir, w_env w !! var = Some dir
       ∧ is_file (w_fs w !! os_path_join dir name) = false.

(** The resolution of one element of [tools] in [_load_files]. *)
Definition tool_path (tool : json) : M string :=
  get_full_resource_path "TOOL_DEFINITIONS_DIR" (py_str tool +:+ ".json").

(** The paths probed by [save_profile]: [name.json], [name_1.json], ... *)
Definition candidate_name (profile_name : string) (k : nat) : string :=
  match k with
  | 0 => profile_name
  | S _ => profile_name +:+ "_" +:+ pretty k
  end.
Definition candidate (profiles_dir profile_name : string) (k : nat) : string :=
  os_path_join profiles_dir (candidate_name profile_name k +:+ ".json").

(** The tests [os.path.exists] of the candidates [j, j+1, ..., j+n-1]. *)
Definition probes (dir name : string) (j n : nat) : list event :=
  map (λ i, EvExists (candidate dir name i)) (seq j n).

(** The line printed by [save_profile] for the candidate [k]. *)
Definition saved_line (dir name : string) (k : nat) : string :=
  "Profile '" +:+ candidate_name name k +:+ "' saved to "
    +:+ candidate dir name k.

(** The file system once [os.makedirs] has succeeded. *)
Definition after_makedirs (dir : string) (fs : gmap string node)
  : gmap string node :=
  match fs !! dir with
  | None => <[dir := Dir]> fs
  | Some _ => fs
  end.

(** The outcome is an exception of class [c]. *)
Definition raises {A} (r : result A) (c : py_class) : Prop :=
  ∃ msg, r = Raise (Exn c msg).

(** The classes of the errors raised by the resolver. *)
Definition resolver_errors : list py_class :=
  [EnvironmentError; FileNotFoundError; PermissionError; ValueError].

(** The computation [m] never reads the environment variable [var]. *)
Definition never_reads (var : string) {A} (m : M A) : Prop :=
  ∀ w r w', m w = (r, w') →
    ∃ evs, w_trace w' = w_trace w ++ evs ∧ EvGetenv var ∉ evs.

(** The resource [name] under the directory named by [var] is a readable
    file with the non-empty text [c]; and the same, with [c] the JSON text of
    the value [v]. *)
Definition resource_text (w : world) (var name c : string) : Prop :=
  ∃ dir, w_env w !! var = Some dir
       ∧ w_fs w !! os_path_join dir name = Some (File true c)
       ∧ c ≠ "".
Definition resource_json (w : world) (var name : string) (v : json) : Prop :=
  ∃ c, resource_text w var name c ∧ json_loads c = Some v.

(** The directory handed to the tokenizer loader by [_load_files]. *)
Definition tokenizer_dir (w : world) (config_folder_name : string)
  : option string :=
  dir ← w_env w !! "MODEL_CONFIG_DIR";
  Some (os_path_dirname
          (os_path_join dir (os_path_join config_folder_name "tokenizer.json"))).

(** The computation [m] leaves the environment, the files and the list
    objects as they are, and records only events that satisfy [P]. *)
Definition emits (P : event → Prop) {A} (m : M A) : Prop :=
  ∀ w r w', m w = (r, w') → ∃ evs, w' = logs evs w ∧ Forall P evs.

Abbreviation no_write := (λ e, is_write_event e = false).
Abbreviation resolver_only := (λ e, is_resolver_event e = true).

(** The parameters of [__init__] that have no default. *)
Definition required_params : list string :=
  [ "engine_name"; "base_url"; "model_id"; "config_folder_name" ].

(** ** Vocabulary of the codec proofs *)

Abbreviation chars := String.list_ascii_of_string.

Definition ws_only (s : string) : Prop := Forall (λ c, is_ws c = true) (chars s).

(** A layout adds white space only. *)
Definition layout_ok (lay : layout) : Prop :=
  ∀ level, ws_only (lay_open lay level) ∧ ws_only (lay_sep lay level)
           ∧ ws_only (lay_close lay level).

Definition number_end (rest : list ascii) : Prop :=
  match rest with
  | [] => True
  | x :: _ =>
      digit_value x = None
      ∧ (Ascii.eqb x "." || Ascii.eqb x "e" || Ascii.eqb x "E") = false
  end.

(** The first character of an encoded value starts a value. *)
Definition value_start (c : ascii) : Prop :=
  is_ws c = false ∧ Ascii.eqb c "]" = false ∧ Ascii.eqb c "}" = false
  ∧ Ascii.eqb c "," = false.

Definition elements_weight (l : list json) : nat :=
  list_sum (map (λ x, S (json_weight x)) l).

Definition members_weight (kvs : list (string * json)) : nat :=
  list_sum (map (λ kv, S (json_weight (snd kv))) kvs).

Abbreviation text_length s := (length (String.list_ascii_of_string s)).

(** The parser reads back the text of [v] in layout [lay], whatever
    follows it. *)
Definition decodes (lay : layout) (v : json) : Prop :=
  ∀ level fuel rest, json_weight v ≤ fuel → number_end rest →
    parse_value fuel (chars (encode_with lay level v) ++ rest) = Some (v, rest).

(** ** Vocabulary of the statements on [generate.py] *)

(** A text without backtick. *)
Definition backtick_free (s : string) : Prop :=
  Forall (λ c, Ascii.eqb c "`" = false) (String.list_ascii_of_string s).

(** The state after the events [evs] of the world and [gevs] of the
    module. *)
Definition glogs (evs : list event) (gevs : list gen_event) (s : gstate)
  : gstate :=
  GState (logs evs (g_world s)) (g_trace s ++ gevs).

(** A reply that carries the text [content] as the content of its message. *)
Definition reply_with (response : json) (content : json) : Prop :=
  ∃ r m, response = JObj r ∧ dict_get r "message" = Some (JObj m)
         ∧ dict_get m "content" = Some content.

(** What is done with the text handed to [json.loads]. *)
Definition decode_outcome (json_error_text : string → string)
    (text : string) (s : gstate) : result json * gstate :=
  match json_loads text with
  | Some output => (Ok output, s)
  | None =>
      (Ok JNull,
       glogs [EvPrint ("Invalid JSON response received. Check log file '"
                         +:+ LOG_FILENAME +:+ "' for details.")]
         [GLog ERROR ("JSONDecodeError: " +:+ json_error_text text
                        +:+ ". Raw content: " +:+ text)] s)
  end.

(** Requests sent to a model server. *)
Definition is_request (e : gen_event) : bool :=
  match e with
  | GChat _ _ | GCreate _ _ _ _ => true
  | GSlack _ _ | GLog _ _ => false
  end.

Definition requests (gevs : list gen_event) : nat :=
  length (List.filter is_request gevs).

(** The classes of the exceptions that leave the functions of the module:
    a reply of an unexpected shape. *)
Definition generate_errors : list py_class :=
  [KeyError; TypeError; AttributeError].

(** The computation [m] returns a value that satisfies [P] or raises one
    of [generate_errors]; it sends at most [n] requests and, the log apart, writes no
    file. *)
Definition gspec {A} (n : nat) (P : A → Prop) (m : G A) : Prop :=
  ∀ s r s', m s = (r, s') →
    match r with
    | Ok a => P a
    | Raise e => exn_class e ∈ generate_errors
    | Timeout => False
    end
    ∧ ∃ evs gevs, s' = glogs evs gevs s ∧ requests gevs ≤ n
                  ∧ Forall (λ e, is_write_event e = false) evs.

(** A sample of the data set: a dictionary whose field
    [generated_user_query] holds the query [q], which is true. *)
Definition sample_of (q : json) (v : json) : Prop :=
  ∃ d, v = JObj d ∧ dict_get d "generated_user_query" = Some q
       ∧ py_truthy q = true.

(** The lines of a text: what reading a file line by line gives, without
    the line ends. *)
Fixpoint lines_of (s : list ascii) : list (list ascii) :=
  match s with
  | [] => []
  | c :: r =>
      if Ascii.eqb c newline then [] :: lines_of r
      else
        match lines_of r with
        | [] => [[c]]
        | l :: ls => (c :: l) :: ls
        end
  end.

Definition str_lines (s : string) : list string :=
  map String.string_of_list_ascii (lines_of (String.list_ascii_of_string s)).

(** A text without line end. *)
Definition newline_free (s : string) : Prop :=
  Forall (λ c, Ascii.eqb c newline = false) (String.list_ascii_of_string s).

(** The text of one sample in the data set file. *)
Definition jsonl_line (obj : json) : string :=
  json_dumps obj +:+ String newline "".

(** The messages of a request: the system prompt of the profile, if it has
    one, then the query. *)
Definition request_messages (self : InferenceProfile) (user_query : json)
  : list pydict :=
  match _system_prompt self with
  | Some prompt =>
      [ system_message prompt;
        [("role", JStr "user"); ("content", user_query)] ]
  | None => [ [("role", JStr "user"); ("content", user_query)] ]
  end.

(** A text without the character [-], and a text of white space. *)
Definition dash_free (s : string) : Prop :=
  Forall (λ c, Ascii.eqb c "-" = false) (String.list_ascii_of_string s).

Definition blank (s : string) : Prop :=
  Forall (λ c, is_space c = true) (String.list_ascii_of_string s).

(** The first character of the text, if any, is no digit. *)
Definition no_digit_ahead (s : string) : Prop :=
  match s with
  | String c _ => is_digit c = false
  | EmptyString => True
  end.

(** The keyword arguments of the calls of one method of the Slack client,
    in order. *)
Definition slack_calls (method : string) (gevs : list gen_event)
  : list pydict :=
  omap (λ e, match e with
             | GSlack m args => if String.eqb m method then Some args else None
             | _ => None
             end) gevs.

(** The computation [m] ends, with a value that satisfies [P] if it
    returns, having sent at most [n] requests to a model server. *)
Definition gbound {A} (n : nat) (P : A → Prop) (m : G A) : Prop :=
  ∀ s r s', m s = (r, s') →
    match r with
    | Ok a => P a
    | Raise _ => True
    | Timeout => False
    end
    ∧ ∃ w' gevs, s' = GState w' (g_trace s ++ gevs) ∧ requests gevs ≤ n.

(** The count that [handle_query_command] reads from a command. *)
Definition command_count (command : json) : nat :=
  match command with
  | JObj c =>
      match default (JStr "") (dict_get c "text") with
      | JStr text => query_count text
      | _ => 0
      end
  | _ => 0
  end.

(** A member of the workspace as the Slack API describes it: a dictionary
    with a name and an identifier, both texts. *)
Definition member_of (name id : string) (member : json) : Prop :=
  ∃ m, member = JObj m ∧ dict_get m "name" = Some (JStr name)
       ∧ dict_get m "id" = Some (JStr id).

(** The test of the comprehension of [get_all_users] on a dictionary. *)
Definition is_active (m : pydict) : bool :=
  negb (py_truthy (default (JBool false) (dict_get m "is_bot")))
  && negb (py_eq_str (default JNull (dict_get m "id")) "USLACKBOT")
  && negb (py_truthy (default (JBool false) (dict_get m "deleted"))).

(** The names and identifiers of the active members, in order. *)
Fixpoint active_pairs (members : list json) : list (string * json) :=
  match members with
  | JObj m :: rest =>
      match is_active m, dict_get m "name", dict_get m "id" with
      | true, Some (JStr name), Some id => (name, id) :: active_pairs rest
      | _, _, _ => active_pairs rest
      end
  | _ :: rest => active_pairs rest
  | [] => []
  end.

(** ** Sample servers *)

Module GenSample.

Definition nl : string := String newline "".

(** A reply of the server with the given content. *)
Definition answer (content : string) : json :=
  JObj [ ("model", JStr MODEL_NAME);
         ("message", JObj [("role", JStr "assistant");
                           ("content", JStr content)]) ].

Definition block : string :=
  nl +:+ "{" +:+ String dquote "command" +:+ String dquote ": 7}" +:+ nl.

Definition fenced_text : string :=
  ("Here is the command:" +:+ nl) +:+ "```json" +:+ block
    +:+ "```" +:+ " Good luck!".

(** A server that always answers with the fenced object, one that answers
    with an array, and one that is down. *)
Definition fenced_server : list gen_event → string → string → exn + json :=
  λ _ _ _, inr (answer fenced_text).
Definition array_server : list gen_event → string → string → exn + json :=
  λ _ _ _, inr (answer "[1, 2]").
Definition down_server : list gen_event → string → string → exn + json :=
  λ _ _ _, inl (Exn OSError "connection refused").

Definition error_text : string → string := λ _, "Expecting value".
Definition query_template : string → string → string → string → string :=
  λ p e t c, "Make a query about " +:+ p.
Definition response_template : string → string :=
  λ q, "Answer in JSON: " +:+ q.

Definition run (server : list gen_event → string → string → exn + json)
    (q : json) : G json :=
  generate_penetration_testing_data server error_text ["Reporting"] [] [] []
    query_template response_template q.

Definition s0 : gstate := GState (World ∅ ∅ ∅ []) [].

(** A workspace of five members, two of them active, and a client that
    answers every call; a client that is down. *)
Definition members : list json :=
  [ JObj [("id", JStr "U1"); ("name", JStr "ann")];
    JObj [("id", JStr "B1"); ("name", JStr "helper"); ("is_bot", JBool true)];
    JObj [("id", JStr "USLACKBOT"); ("name", JStr "slackbot")];
    JObj [("id", JStr "U2"); ("name", JStr "bob"); ("deleted", JBool false)];
    JObj [("id", JStr "U3"); ("name", JStr "cy"); ("deleted", JBool true)] ].

Definition slack_up : list gen_event → string → pydict → exn + json :=
  λ _ method _,
    if String.eqb method "users_list"
    then inr (JObj [("ok", JBool true); ("members", JList members)])
    else if String.eqb method "conversations_open"
    then inr (JObj [("channel", JObj [("id", JStr "D1")])])
    else inr (JObj [("channel", JStr "D1"); ("ts", JStr "1.0")]).

Definition slack_down : list gen_event → string → pydict → exn + json :=
  λ _ _ _, inl (Exn OSError "timeout").

Definition clock : list gen_event → string := λ _, "2025-01-01 09:00:00".

End GenSample.

(** ** A sample installation *)

Module Sample.

(** A byte-level tokenizer, loaded when the directory holds a readable
    [tokenizer.json]. *)
Definition byte_tokenizer : tokenizer :=
  λ text, map (λ c, Z.of_nat (nat_of_ascii c)) (String.list_ascii_of_string text).

Definition load_tokenizer (fs : gmap string node) (dir : string)
  : exn + tokenizer :=
  match fs !! os_path_join dir "tokenizer.json" with
  | Some (File true _) => inr byte_tokenizer
  | _ => inl (Exn OSError dir)
  end.

Definition env : gmap string string :=
  list_to_map [ ("PROFILES_DIR", "/profiles"); ("MODEL_CONFIG_DIR", "/models");
                ("SYSTEM_PROMPTS_DIR", "/prompts");
                ("TOOL_DEFINITIONS_DIR", "/tools") ].

Definition tool_doc : json := JObj [("name", JStr "t")].

Definition config_text : string :=
  json_dumps_indent4 (JObj [("bos_token", JStr "<s>")]).

Definition fs : gmap string node :=
  list_to_map
    [ ("/models/m/tokenizer_config.json", File true config_text);
      ("/models/m/tokenizer.json", File true "{}");
      ("/prompts/sys.txt", File true "S");
      ("/tools/t.json", File true (json_dumps_indent4 tool_doc)) ].

Definition w0 : world := World env fs ∅ [].

(** The same installation without [tokenizer_config.json], and without
    [tokenizer.json]. *)
Definition w_no_config : world :=
  World env (delete "/models/m/tokenizer_config.json" fs) ∅ [].
Definition w_no_tokenizer : world :=
  World env (delete "/models/m/tokenizer.json" fs) ∅ [].

(** The sample installation with [SYSTEM_PROMPTS_DIR] unset. *)
Definition w_no_prompts_dir : world :=
  World (delete "SYSTEM_PROMPTS_DIR" env) fs ∅ [].

(** A profile built without tools and one built with the tool [t]. *)
Definition new_plain : M InferenceProfile :=
  __init__ load_tokenizer "engine" "http://localhost:8000/v1" "model" "m"
    "CHANGE_ME" "" [] [("temperature", JInt 1)] false.
Definition new_with_tool : M InferenceProfile :=
  __init__ load_tokenizer "engine" "http://localhost:8000/v1" "model" "m"
    "CHANGE_ME" "sys" [JStr "t"] [] false.

(** A profiles directory that already holds [p.json]. *)
Definition w_taken : world :=
  World env {[ "/profiles" := Dir; "/profiles/p.json" := File true "old" ]}
    ∅ [].

(** The same directory holding [p.json] and [p_1.json]. *)
Definition w_taken_twice : world :=
  World env {[ "/profiles" := Dir; "/profiles/p.json" := File true "old";
               "/profiles/p_1.json" := File true "older" ]}
    ∅ [].

(** An instance as [_load_files] leaves it, without tools. *)
Definition plain : InferenceProfile :=
  Build_InferenceProfile "engine" "http://localhost:8000/v1" "model" "m" ""
    [] [("temperature", JInt 1)] "CHANGE_ME" false None None None.

(** Construction with the tool [t], then [save_profile("p")], then
    [load_profile("p")]; and the same without tools. *)
Definition save_then_load (new : M InferenceProfile)
  : M (InferenceProfile * InferenceProfile) :=
  let* p := new in
  let* _ := save_profile p "p" in
  let* q := load_profile load_tokenizer "p" in
  ret (p, q).

(** A list object holding one user message. *)
Definition hi : pydict := [("role", JStr "user"); ("content", JStr "hi")].
Definition w_chat : world := World env fs {[ 7 := [hi] ]} [].

End Sample.

(** ** Basic facts on the monad and the resolver *)

Lemma logs_logs evs1 evs2 w : logs evs2 (logs evs1 w) = logs (evs1 ++ evs2) w.
Proof. unfold logs; cbn. by rewrite app_assoc. Qed.

Lemma logs_nil w : logs [] w = w.
Proof. destruct w; unfold logs; cbn. by rewrite app_nil_r. Qed.

Lemma log_logs e w : log e w = logs [e] w.
Proof. reflexivity. Qed.

Lemma bind_ok {A B} (m : M A) (k : A → M B) w b w' :
  bind m k w = (Ok b, w') →
  ∃ a w1, m w = (Ok a, w1) ∧ k a w1 = (Ok b, w').
Proof.
  unfold bind. destruct (m w) as [[a| e |] w1]; [eauto | done | done].
Qed.

Lemma bind_eval_ok {A B} (m : M A) (k : A → M B) w a w1 :
  m w = (Ok a, w1) → bind m k w = k a w1.
Proof. unfold bind. by intros ->. Qed.

Lemma bind_eval_raise {A B} (m : M A) (k : A → M B) w e w1 :
  m w = (Raise e, w1) → bind m k w = (Raise e, w1).
Proof. unfold bind. by intros ->. Qed.

Lemma string_length_zero (c : string) :
  Nat.eqb (String.length c) 0 = bool_decide (c = "").
Proof. by destruct c. Qed.

Lemma file_sanity_check_eval p w :
  file_sanity_check p w =
  match w_fs w !! p with
  | Some (File true c) =>
      if bool_decide (c = "")
      then (Raise (Exn ValueError (empty_msg p)),
            logs [EvIsfile p; EvAccess p; EvGetsize p] w)
      else (Ok tt, logs [EvIsfile p; EvAccess p; EvGetsize p] w)
  | Some (File false _) =>
      (Raise (Exn PermissionError (permission_msg p)),
       logs [EvIsfile p; EvAccess p] w)
  | _ => (Raise (Exn FileNotFoundError (not_found_msg p)), logs [EvIsfile p] w)
  end.
Proof.
  unfold file_sanity_check, os_path_isfile, os_access_R_OK, os_path_getsize,
    bind, tell, get_world, ret, raise; cbn.
  destruct (w_fs w !! p) as [[[] c|]|] eqn:E; do 3 (cbn; rewrite ?E); try done.
  - rewrite string_length_zero.
    case_bool_decide; unfold logs, log; cbn; by rewrite <- !app_assoc.
  - unfold logs, log; cbn; by rewrite <- !app_assoc.
Qed.

Lemma get_full_resource_path_eval var name w :
  get_full_resource_path var name w =
  match w_env w !! var with
  | None => (Raise (Exn EnvironmentError (unset_msg var)), logs [EvGetenv var] w)
  | Some dir =>
      let p := os_path_join dir name in
      match w_fs w !! p with
      | Some (File true c) =>
          if bool_decide (c = "")
          then (Raise (Exn ValueError (empty_msg p)),
                logs [EvGetenv var; EvIsfile p; EvAccess p; EvGetsize p] w)
          else (Ok p, logs [EvGetenv var; EvIsfile p; EvAccess p; EvGetsize p] w)
      | Some (File false _) =>
          (Raise (Exn PermissionError (permission_msg p)),
           logs [EvGetenv var; EvIsfile p; EvAccess p] w)
      | _ => (Raise (Exn FileNotFoundError (not_found_msg p)),
              logs [EvGetenv var; EvIsfile p] w)
      end
  end.
Proof.
  unfold get_full_resource_path, os_getenv.
  unfold bind at 1 2 3; unfold tell, get_world, ret; cbn.
  destruct (w_env w !! var) as [dir|]; [|done].
  unfold bind. rewrite file_sanity_check_eval; cbn.
  destruct (w_fs w !! os_path_join dir name) as [[[] c|]|]; cbn;
    try case_bool_decide; by rewrite ?log_logs, ?logs_logs.
Qed.

Lemma get_full_resource_path_valid w var name :
  valid_resource w var name →
  ∃ p, get_full_resource_path var name w
       = (Ok p, logs [EvGetenv var; EvIsfile p; EvAccess p; EvGetsize p] w)
     ∧ is_Some (w_fs w !! p).
Proof.
  intros (dir & c & Henv & Hfs & Hc).
  exists (os_path_join dir name). rewrite get_full_resource_path_eval, Henv.
  cbn. rewrite Hfs. by rewrite bool_decide_eq_false_2.
Qed.

Lemma get_full_resource_path_missing w var name :
  missing_resource w var name →
  ∃ p, get_full_resource_path var name w
       = (Raise (Exn FileNotFoundError (not_found_msg p)),
          logs [EvGetenv var; EvIsfile p] w).
Proof.
  intros (dir & Henv & Hfs).
  exists (os_path_join dir name). rewrite get_full_resource_path_eval, Henv.
  cbn. by destruct (w_fs w !! os_path_join dir name) as [[[] c|]|].
Qed.

(** The resolver never changes the environment, the files or the lists. *)
Lemma get_full_resource_path_frame var name w r w' :
  get_full_resource_path var name w = (r, w') →
  ∃ evs, w' = logs evs w.
Proof.
  rewrite get_full_resource_path_eval.
  destruct (w_env w !! var); cbn;
    [destruct (w_fs w !! _) as [[[] c|]|]; try case_bool_decide|];
    intros [= <- <-]; eauto.
Qed.

(** ** The resource resolver (claims C3 and C10) *)

(** C3. [get_full_resource_path]: with the variable unset it raises the
    configuration error ([EnvironmentError]) and the only event is the
    read of the environment, so no file-system access has happened.  With
    the variable set to [dir]: no regular file at the joined path gives
    [FileNotFoundError]; an unreadable file gives [PermissionError]; a
    readable file of length zero gives [ValueError] (the empty-resource
    error); otherwise the joined path is returned, the world is unchanged
    but for the trace, and no event reads file content.  The four error
    classes are distinct and any two of them are told apart by some
    handler. *)
Theorem resolver_error_kinds (env_variable resource_name : string) (w : world) :
  let out := get_full_resource_path env_variable resource_name w in
  (w_env w !! env_variable = None →
     raises out.1 EnvironmentError
     ∧ ∃ evs, out.2 = logs evs w ∧ Forall (λ e, is_fs_access e = false) evs)
  ∧ (∀ dir, w_env w !! env_variable = Some dir →
       let p := os_path_join dir resource_name in
       (is_file (w_fs w !! p) = false → raises out.1 FileNotFoundError)
       ∧ (∀ c, w_fs w !! p = Some (File false c) →
            raises out.1 PermissionError)
       ∧ (w_fs w !! p = Some (File true "") → raises out.1 ValueError)
       ∧ (∀ c, w_fs w !! p = Some (File true c) → c ≠ "" →
            out.1 = Ok p
            ∧ ∃ evs, out.2 = logs evs w
                   ∧ Forall (λ e, is_content_read e = false) evs))
  ∧ NoDup resolver_errors
  ∧ (∀ c1 c2 m1 m2, c1 ∈ resolver_errors → c2 ∈ resolver_errors → c1 ≠ c2 →
       distinguishable (Exn c1 m1) (Exn c2 m2)).
Proof.
  cbn zeta. rewrite get_full_resource_path_eval.
  split; [|split; [|split]].
  - intros ->. split; [by eexists|].
    eexists. split; [done|]. by repeat constructor.
  - intros dir ->. cbn. split; [|split; [|split]].
    + destruct (w_fs w !! _) as [[[] c|]|]; try done; by eexists.
    + intros c ->. by eexists.
    + intros ->. by eexists.
    + intros c -> Hc. rewrite bool_decide_eq_false_2 by done.
      split; [done|]. eexists. split; [done|]. by repeat constructor.
  - apply (bool_decide_unpack _). by vm_compute.
  - intros c1 c2 m1 m2 H1 H2 Hne. unfold distinguishable, isinstance; cbn.
    destruct c1, c2; try done;
      first [ by exists OSError | by exists FileNotFoundError
            | by exists PermissionError | by exists ValueError
            | exfalso; revert H1; apply (bool_decide_unpack _); by vm_compute
            | exfalso; revert H2; apply (bool_decide_unpack _); by vm_compute ].
Qed.

(** The resolver on the sample installation: a present resource, a missing
    one, and an unset variable. *)
Lemma resolver_error_kinds_witness :
  (get_full_resource_path "MODEL_CONFIG_DIR" "m/tokenizer.json" Sample.w0).1
    = Ok "/models/m/tokenizer.json"
  ∧ raises (get_full_resource_path "MODEL_CONFIG_DIR" "x.json" Sample.w0).1
      FileNotFoundError
  ∧ raises (get_full_resource_path "HOME" "x.json" Sample.w0).1
      EnvironmentError.
Proof.
  split; [|split].
  - pose proof (resolver_error_kinds "MODEL_CONFIG_DIR" "m/tokenizer.json"
                  Sample.w0) as (_ & H & _).
    destruct (H "/models" eq_refl) as (_ & _ & _ & Hok).
    exact (proj1 (Hok "{}" eq_refl ltac:(discriminate))).
  - pose proof (resolver_error_kinds "MODEL_CONFIG_DIR" "x.json" Sample.w0)
      as (_ & H & _).
    destruct (H "/models" eq_refl) as (Hnf & _).
    exact (Hnf eq_refl).
  - pose proof (resolver_error_kinds "HOME" "x.json" Sample.w0) as (H & _).
    exact (proj1 (H eq_refl)).
Defined.

(** C10. The two checks of [PROFILES_DIR] differ on a variable set to the
    empty string.  [save_profile] raises the configuration error when the
    variable is unset and when it is empty, before any file-system access.
    The resolver raises it when the variable is unset, and raises nothing
    of class [EnvironmentError] when the variable is set; with the empty
    string it goes on to the file checks on the resource name itself. *)
Theorem profiles_dir_checks_disagree
    (self : InferenceProfile) (profile_name resource_name : string) (w : world) :
  (w_env w !! "PROFILES_DIR" = None ∨ w_env w !! "PROFILES_DIR" = Some "" →
     save_profile self profile_name w
     = (Raise (Exn EnvironmentError (unset_msg "PROFILES_DIR")),
        logs [EvGetenv "PROFILES_DIR"] w))
  ∧ (w_env w !! "PROFILES_DIR" = None →
       get_full_resource_path "PROFILES_DIR" resource_name w
       = (Raise (Exn EnvironmentError (unset_msg "PROFILES_DIR")),
          logs [EvGetenv "PROFILES_DIR"] w))
  ∧ (is_Some (w_env w !! "PROFILES_DIR") →
       ∀ e w', get_full_resource_path "PROFILES_DIR" resource_name w
               = (Raise e, w') →
               exn_class e ≠ EnvironmentError)
  ∧ (w_env w !! "PROFILES_DIR" = Some "" →
       get_full_resource_path "PROFILES_DIR" resource_name w
       = (let* _ := file_sanity_check resource_name in ret resource_name)
           (logs [EvGetenv "PROFILES_DIR"] w)
       ∧ (∀ e w', get_full_resource_path "PROFILES_DIR" resource_name w
                  = (Raise e, w') →
                  exn_class e ≠ EnvironmentError
                  ∧ ∃ evs, w_trace w'
                           = w_trace w ++ EvGetenv "PROFILES_DIR"
                               :: EvIsfile resource_name :: evs)).
Proof.
  split; [|split; [|split]].
  - unfold save_profile, os_getenv.
    unfold bind at 1 2 3; unfold tell, get_world, ret; cbn.
    by intros [-> | ->].
  - intros H. by rewrite get_full_resource_path_eval, H.
  - intros [dir H] e w'. rewrite get_full_resource_path_eval, H; cbn.
    destruct (w_fs w !! _) as [[[] c|]|];
      try case_bool_decide; by intros [= <- <-].
  - intros H.
    assert (os_path_join "" resource_name = resource_name) as Hjoin.
    { unfold os_path_join. by destruct (startswith_sep resource_name). }
    split.
    + unfold get_full_resource_path, os_getenv.
      unfold bind at 1 2 3; unfold tell, get_world, ret; cbn.
      by rewrite H, Hjoin.
    + intros e w'. rewrite get_full_resource_path_eval, H; cbn.
      rewrite Hjoin.
      destruct (w_fs w !! resource_name) as [[[] c|]|];
        try case_bool_decide; intros [= <- <-]; (split; [done|]);
        cbn; eauto.
Qed.

Lemma profiles_dir_checks_disagree_witness :
  let w := World {[ "PROFILES_DIR" := "" ]} ∅ ∅ [] in
  save_profile (Build_InferenceProfile "e" "u" "m" "f" "" [] [] "k" false
                  None None None) "p" w
  = (Raise (Exn EnvironmentError (unset_msg "PROFILES_DIR")),
     logs [EvGetenv "PROFILES_DIR"] w)
  ∧ get_full_resource_path "PROFILES_DIR" "p.json" w
    = (Raise (Exn FileNotFoundError (not_found_msg "p.json")),
       logs [EvGetenv "PROFILES_DIR"; EvIsfile "p.json"] w).
Proof.
  intros w. split.
  - apply (profiles_dir_checks_disagree _ "p" "p.json" w). by right.
  - destruct (profiles_dir_checks_disagree
                (Build_InferenceProfile "e" "u" "m" "f" "" [] [] "k" false
                   None None None) "p" "p.json" w) as (_ & _ & _ & H).
    rewrite (proj1 (H eq_refl)). reflexivity.
Defined.

(** ** Message shaping (claims C5, C6 and C9) *)

Lemma format_messages_chat_eval self messages first rest role w :
  w_heap w !! messages = Some (first :: rest) →
  dict_get first "role" = Some role →
  format_messages_chat self messages w =
  match negb (py_eq_str role "system"), _system_prompt self with
  | true, Some prompt =>
      (Ok messages,
       set_heap (<[messages := system_message prompt :: first :: rest]>
                   (w_heap w)) w)
  | _, _ => (Ok messages, w)
  end.
Proof.
  intros Hh Hr.
  unfold format_messages_chat, list_getitem, dict_getitem, list_insert_front.
  unfold bind at 1 2; unfold get_world; cbn. rewrite Hh; cbn. rewrite Hr.
  unfold bind, ret, get_world; cbn.
  destruct (negb _), (_system_prompt self); cbn; rewrite ?Hh; done.
Qed.

Lemma format_messages_chat_no_role self messages first rest w :
  w_heap w !! messages = Some (first :: rest) →
  dict_get first "role" = None →
  format_messages_chat self messages w = (Raise (Exn KeyError "role"), w).
Proof.
  intros Hh Hr.
  unfold format_messages_chat, list_getitem, dict_getitem.
  unfold bind at 1 2; unfold get_world; cbn. rewrite Hh; cbn. by rewrite Hr.
Qed.





(** C9. On the empty list [format_messages_chat] raises [IndexError],
    whatever the profile; the list object and the rest of the world are
    left as they were. *)
Theorem format_messages_chat_empty
    (self : InferenceProfile) (messages : loc) (w : world) :
  w_heap w !! messages = Some [] →
  format_messages_chat self messages w
  = (Raise (Exn IndexError "list index out of range"), w).
Proof.
  intros Hh. unfold format_messages_chat, list_getitem.
  unfold bind at 1 2; unfold get_world; cbn. by rewrite Hh.
Qed.

Lemma format_messages_chat_empty_witness :
  let self := Build_InferenceProfile "e" "u" "m" "f" "sys" [] [] "k" false
                None None (Some "S") in
  let w := World ∅ ∅ {[ 3 := [] ]} [] in
  format_messages_chat self 3 w
  = (Raise (Exn IndexError "list index out of range"), w).
Proof.
  intros self w. exact (format_messages_chat_empty self 3 w eq_refl).
Defined.

(** ** Construction (claims C1, C7 and C8) *)

Lemma valid_resource_logs evs w var name :
  valid_resource (logs evs w) var name ↔ valid_resource w var name.
Proof. done. Qed.

Lemma missing_resource_logs evs w var name :
  missing_resource (logs evs w) var name ↔ missing_resource w var name.
Proof. done. Qed.

Lemma ret_ok {A} (a b : A) w w' : ret a w = (Ok b, w') → a = b ∧ w = w'.
Proof. by intros [= -> ->]. Qed.

(** Inversion of a successful run, one [bind] at a time. *)
Ltac invert_ok :=
  repeat match goal with
    | H : bind _ _ _ = (Ok _, _) |- _ =>
        let a := fresh "a" in
        let w := fresh "w" in
        let Ha := fresh "Ha" in
        apply bind_ok in H as (a & w & Ha & H)
    | H : ret _ _ = (Ok _, _) |- _ => apply ret_ok in H as [? ?]; subst
    | H : (if ?c then _ else _) _ = (Ok _, _) |- _ => destruct c eqn:?
    | H : match ?x with Some _ => _ | None => _ end _ = (Ok _, _) |- _ =>
        destruct x eqn:?
    end.

Section Construction.

Variable loader : gmap string node → string → exn + tokenizer.

(** What a successful [_load_files] leaves of the instance it was given. *)
Lemma _load_files_ok self w p w' :
  _load_files loader self w = (Ok p, w') →
  _engine_name p = _engine_name self
  ∧ _base_url p = _base_url self
  ∧ _model_id p = _model_id self
  ∧ _config_folder_name p = _config_folder_name self
  ∧ _api_key p = _api_key self
  ∧ _system_prompt_file p = _system_prompt_file self
  ∧ _optional_hyper_parameters p = _optional_hyper_parameters self
  ∧ _load_tokenizer_flag p = _load_tokenizer_flag self
  ∧ (_load_tokenizer_flag self = false → _tokenizer p = _tokenizer self)
  ∧ (_system_prompt_file self = "" → _system_prompt p = _system_prompt self)
  ∧ (_tools self = [] → _tools p = []).
Proof.
  intros H. unfold _load_files in H. invert_ok; cbn;
    repeat split; try done; intros Hx; rewrite ?Hx in *;
    cbn in *; try done.
  all: try (rewrite andb_false_r in *; done).
Qed.

(** C8. A profile constructed with [load_tokenizer_flag=False] has no
    tokenizer, and [get_token_count] on it raises the [ValueError] of the
    unmet precondition for every text: the outcome is the same exception
    whatever the text, and the world is untouched. *)
Theorem get_token_count_without_tokenizer
    (engine_name base_url model_id config_folder_name api_key : string)
    (system_prompt_file : string) (tools : list json)
    (optional_hyper_parameters : pydict)
    (w w' : world) (self : InferenceProfile) :
  __init__ loader engine_name base_url model_id config_folder_name api_key
    system_prompt_file tools optional_hyper_parameters false w
  = (Ok self, w') →
  _tokenizer self = None
  ∧ ∃ e, exn_class e = ValueError
       ∧ ∀ text w2, get_token_count self text w2 = (Raise e, w2).
Proof.
  intros H. unfold __init__ in H. apply _load_files_ok in H; cbn in H.
  destruct H as (_ & _ & _ & _ & _ & _ & _ & Hflag & Htk & _).
  split; [by apply Htk|].
  eexists. split; [|intros text w2; unfold get_token_count; by rewrite Hflag].
  done.
Qed.

End Construction.

Lemma get_token_count_without_tokenizer_witness :
  ∃ self w', Sample.new_plain Sample.w0 = (Ok self, w')
    ∧ _tokenizer self = None
    ∧ ∃ e, exn_class e = ValueError
         ∧ ∀ text w2, get_token_count self text w2 = (Raise e, w2).
Proof.
  destruct (Sample.new_plain Sample.w0) as [[self| |] w'] eqn:E;
    [|by vm_compute in E..].
  exists self, w'. split; [done|].
  exact (get_token_count_without_tokenizer Sample.load_tokenizer _ _ _ _ _ _ _
           _ _ _ _ E).
Defined.

(** *** Computations that never read a given environment variable *)

Lemma no_event var (w : world) :
  ∃ evs, w_trace w = w_trace w ++ evs ∧ EvGetenv var ∉ evs.
Proof. exists []. split; [by rewrite app_nil_r | apply not_elem_of_nil]. Qed.

Lemma never_reads_ret var {A} (a : A) : never_reads var (ret a).
Proof. intros w r w' [= <- <-]. apply no_event. Qed.

Lemma never_reads_raise var {A} c msg : never_reads var (@raise A c msg).
Proof. intros w r w' [= <- <-]. apply no_event. Qed.

Lemma never_reads_get_world var : never_reads var get_world.
Proof. intros w r w' [= <- <-]. apply no_event. Qed.

Lemma never_reads_tell var e : e ≠ EvGetenv var → never_reads var (tell e).
Proof.
  intros He w r w' [= <- <-]. exists [e]. split; [done|].
  intros [?|[]%elem_of_nil]%elem_of_cons. congruence.
Qed.

Lemma never_reads_bind var {A B} (m : M A) (k : A → M B) :
  never_reads var m → (∀ a, never_reads var (k a)) →
  never_reads var (bind m k).
Proof.
  intros Hm Hk w r w'. unfold bind.
  destruct (m w) as [r1 w1] eqn:E1.
  destruct (Hm _ _ _ E1) as (evs1 & Ht1 & Hn1).
  destruct r1 as [a| e |].
  - intros E2. destruct (Hk a _ _ _ E2) as (evs2 & Ht2 & Hn2).
    exists (evs1 ++ evs2). rewrite Ht2, Ht1, app_assoc. split; [done|].
    rewrite elem_of_app. tauto.
  - intros [= <- <-]. eauto.
  - intros [= <- <-]. eauto.
Qed.

Lemma never_reads_mapM var {A B} (f : A → M B) l :
  (∀ a, never_reads var (f a)) → never_reads var (mapM f l).
Proof.
  intros Hf. induction l as [|x l IH]; cbn.
  - apply never_reads_ret.
  - apply never_reads_bind; [done|]. intros y.
    apply never_reads_bind; [done|]. intros ys. apply never_reads_ret.
Qed.

Ltac never_reads_step :=
  first
    [ apply never_reads_bind; [|intros ?]
    | apply never_reads_ret
    | apply never_reads_raise
    | apply never_reads_get_world
    | apply never_reads_tell; discriminate
    | match goal with
      | |- never_reads _ (match ?x with _ => _ end) => destruct x
      end ].

Lemma never_reads_read_file var p : never_reads var (read_file p).
Proof. unfold read_file. repeat never_reads_step. Qed.

Lemma never_reads_json_load var p : never_reads var (json_load p).
Proof.
  unfold json_load. apply never_reads_bind; [apply never_reads_read_file|].
  intros text. repeat never_reads_step.
Qed.

Lemma never_reads_exists var p : never_reads var (os_path_exists p).
Proof. unfold os_path_exists. repeat never_reads_step. Qed.

Lemma never_reads_file_sanity_check var p :
  never_reads var (file_sanity_check p).
Proof.
  unfold file_sanity_check, os_path_isfile, os_access_R_OK, os_path_getsize.
  repeat never_reads_step.
Qed.

Lemma never_reads_resolver var var' name :
  var' ≠ var → never_reads var (get_full_resource_path var' name).
Proof.
  intros Hne. unfold get_full_resource_path, os_getenv.
  apply never_reads_bind.
  { apply never_reads_bind; [apply never_reads_tell; congruence|].
    intros _. repeat never_reads_step. }
  intros [dir|]; [|apply never_reads_raise].
  apply never_reads_bind; [apply never_reads_file_sanity_check|].
  intros _. apply never_reads_ret.
Qed.

Lemma never_reads_from_pretrained loader var dir :
  never_reads var (from_pretrained loader dir).
Proof.
  unfold from_pretrained. apply never_reads_bind; [never_reads_step|].
  intros _. apply never_reads_bind; [never_reads_step|]. intros w0.
  destruct (loader _ _); [|apply never_reads_ret].
  intros w r w' [= <- <-]. apply no_event.
Qed.

(** With an empty [system_prompt_file], [_load_files] does not read
    [SYSTEM_PROMPTS_DIR]. *)
Lemma _load_files_no_system_prompt loader self :
  _system_prompt_file self = "" →
  never_reads "SYSTEM_PROMPTS_DIR" (_load_files loader self).
Proof.
  intros Hf. unfold _load_files. rewrite Hf; cbn.
  apply never_reads_bind; [by apply never_reads_resolver|]. intros cp.
  apply never_reads_bind; [by apply never_reads_resolver|]. intros tp.
  apply never_reads_bind; [apply never_reads_ret|]. intros sp.
  apply never_reads_bind.
  { destruct (list_truthy _); [|apply never_reads_ret].
    apply never_reads_bind; [|intros; apply never_reads_ret].
    apply never_reads_mapM. intros tool. by apply never_reads_resolver. }
  intros tools.
  apply never_reads_bind; [apply never_reads_exists|]. intros e1.
  apply never_reads_bind.
  { destruct (_ && _); [|apply never_reads_ret].
    apply never_reads_bind; [apply never_reads_from_pretrained|].
    intros; apply never_reads_ret. }
  intros self1.
  apply never_reads_bind; [apply never_reads_exists|]. intros e2.
  apply never_reads_bind.
  { destruct e2; [|apply never_reads_ret].
    apply never_reads_bind; [apply never_reads_json_load|].
    intros; apply never_reads_ret. }
  intros self2.
  apply never_reads_bind.
  { destruct sp as [p|]; [destruct (str_truthy p)|]; try apply never_reads_ret.
    apply never_reads_bind; [apply never_reads_read_file|].
    intros; apply never_reads_ret. }
  intros self3.
  apply never_reads_bind; [|intros; apply never_reads_ret].
  destruct tools as [ps|]; [destruct (list_truthy ps)|];
    try apply never_reads_ret.
  apply never_reads_bind; [|intros; apply never_reads_ret].
  apply never_reads_mapM. intros; apply never_reads_json_load.
Qed.

(** *** Fatal and optional resources *)

Lemma resolver_cases var name w :
  (∃ p evs, get_full_resource_path var name w = (Ok p, logs evs w))
  ∨ (∃ e evs, get_full_resource_path var name w = (Raise e, logs evs w)).
Proof.
  rewrite get_full_resource_path_eval.
  destruct (w_env w !! var); cbn;
    [destruct (w_fs w !! _) as [[[] c|]|]; try case_bool_decide|];
    eauto.
Qed.

Lemma mapM_tool_path_fatal tools tool w :
  tool ∈ tools →
  missing_resource w "TOOL_DEFINITIONS_DIR" (py_str tool +:+ ".json") →
  ∃ e evs, mapM tool_path tools w = (Raise e, logs evs w).
Proof.
  intros Hin Hmiss. revert w Hmiss.
  induction tools as [|x l IH]; intros w Hmiss; [by apply elem_of_nil in Hin|].
  cbn [mapM].
  destruct (resolver_cases "TOOL_DEFINITIONS_DIR" (py_str x +:+ ".json") w)
    as [(p & evs & E)|(e & evs & E)].
  - rewrite (bind_eval_ok _ _ _ _ _ E).
    apply elem_of_cons in Hin as [->|Hin].
    + destruct (get_full_resource_path_missing _ _ _ Hmiss) as (p' & E').
      unfold tool_path in E. congruence.
    + destruct (IH Hin (logs evs w)) as (e & evs' & E'); [done|].
      rewrite (bind_eval_raise _ _ _ _ _ E'), logs_logs. eauto.
  - rewrite (bind_eval_raise _ _ _ _ _ E). eauto.
Qed.

Lemma mapM_tool_path_not_found tools tool w :
  tool ∈ tools →
  missing_resource w "TOOL_DEFINITIONS_DIR" (py_str tool +:+ ".json") →
  (∀ t, t ∈ tools →
     valid_resource w "TOOL_DEFINITIONS_DIR" (py_str t +:+ ".json")
     ∨ missing_resource w "TOOL_DEFINITIONS_DIR" (py_str t +:+ ".json")) →
  ∃ msg evs,
    mapM tool_path tools w = (Raise (Exn FileNotFoundError msg), logs evs w).
Proof.
  intros Hin Hmiss Hall. revert w Hmiss Hall.
  induction tools as [|x l IH]; intros w Hmiss Hall;
    [by apply elem_of_nil in Hin|].
  cbn [mapM].
  destruct (Hall x) as [Hv|Hm]; [by left| |].
  - destruct (get_full_resource_path_valid _ _ _ Hv) as (p & E & _).
    rewrite (bind_eval_ok _ _ _ _ _ E).
    apply elem_of_cons in Hin as [->|Hin].
    + destruct (get_full_resource_path_missing _ _ _ Hmiss) as (p' & E').
      congruence.
    + destruct (IH Hin (logs [EvGetenv "TOOL_DEFINITIONS_DIR"; EvIsfile p;
                               EvAccess p; EvGetsize p] w))
        as (msg & evs' & E'); [done| |].
      { intros t Ht. apply Hall. by right. }
      rewrite (bind_eval_raise _ _ _ _ _ E'), logs_logs. eauto.
  - destruct (get_full_resource_path_missing _ _ _ Hm) as (p & E).
    rewrite (bind_eval_raise _ _ _ _ _ E). eauto.
Qed.

Lemma os_path_exists_eval p w :
  os_path_exists p w
  = (Ok (bool_decide (is_Some (w_fs w !! p))), logs [EvExists p] w).
Proof. reflexivity. Qed.

Lemma json_load_eval p c v w :
  w_fs w !! p = Some (File true c) → json_loads c = Some v →
  json_load p w = (Ok v, logs [EvRead p] w).
Proof.
  intros Hfs Hv. unfold json_load, read_file.
  unfold bind, tell, get_world; cbn. rewrite Hfs; cbn. by rewrite Hv.
Qed.

Section Resources.

Variable loader : gmap string node → string → exn + tokenizer.

Variables engine_name base_url model_id config_folder_name api_key : string.
Variable system_prompt_file : string.
Variable tools : list json.
Variable optional_hyper_parameters : pydict.
Variable load_tokenizer_flag : bool.

Let new : M InferenceProfile :=
  __init__ loader engine_name base_url model_id config_folder_name api_key
    system_prompt_file tools optional_hyper_parameters load_tokenizer_flag.
Let config_json := os_path_join config_folder_name "tokenizer_config.json".
Let tokenizer_json := os_path_join config_folder_name "tokenizer.json".

(** A missing tokenizer configuration, or a missing tokenizer file, makes
    the construction fail with [FileNotFoundError]. *)
Lemma init_missing_tokenizer_config w :
  missing_resource w "MODEL_CONFIG_DIR" config_json →
  raises (new w).1 FileNotFoundError.
Proof.
  intros Hm. destruct (get_full_resource_path_missing _ _ _ Hm) as (p & E).
  unfold new, __init__, _load_files.
  rewrite (bind_eval_raise _ _ _ _ _ E). by eexists.
Qed.

Lemma init_missing_tokenizer w :
  valid_resource w "MODEL_CONFIG_DIR" config_json →
  missing_resource w "MODEL_CONFIG_DIR" tokenizer_json →
  raises (new w).1 FileNotFoundError.
Proof.
  intros Hv Hm. destruct (get_full_resource_path_valid _ _ _ Hv) as (p & E & _).
  unfold new, __init__, _load_files. rewrite (bind_eval_ok _ _ _ _ _ E).
  apply (missing_resource_logs [EvGetenv "MODEL_CONFIG_DIR"; EvIsfile p;
                                 EvAccess p; EvGetsize p]) in Hm.
  destruct (get_full_resource_path_missing _ _ _ Hm) as (p' & E').
  rewrite (bind_eval_raise _ _ _ _ _ E'). by eexists.
Qed.

Lemma init_system_prompt_fatal w :
  system_prompt_file ≠ "" →
  missing_resource w "SYSTEM_PROMPTS_DIR" (system_prompt_file +:+ ".txt") →
  ∃ e w', new w = (Raise e, w').
Proof.
  intros Hne Hm. unfold new, __init__, _load_files; cbn.
  destruct (resolver_cases "MODEL_CONFIG_DIR" config_json w)
    as [(p1 & evs1 & E1)|(e & evs & E)];
    [|rewrite (bind_eval_raise _ _ _ _ _ E); eauto].
  rewrite (bind_eval_ok _ _ _ _ _ E1).
  destruct (resolver_cases "MODEL_CONFIG_DIR" tokenizer_json (logs evs1 w))
    as [(p2 & evs2 & E2)|(e & evs & E)];
    [|rewrite (bind_eval_raise _ _ _ _ _ E); eauto].
  rewrite (bind_eval_ok _ _ _ _ _ E2).
  assert (str_truthy system_prompt_file = true) as ->.
  { unfold str_truthy. apply negb_true_iff, String.eqb_neq. done. }
  apply (missing_resource_logs evs1), (missing_resource_logs evs2) in Hm.
  destruct (get_full_resource_path_missing _ _ _ Hm) as (p & E).
  erewrite bind_eval_raise; [eauto|].
  by apply bind_eval_raise.
Qed.

Lemma init_system_prompt_not_found w :
  system_prompt_file ≠ "" →
  missing_resource w "SYSTEM_PROMPTS_DIR" (system_prompt_file +:+ ".txt") →
  valid_resource w "MODEL_CONFIG_DIR" config_json →
  valid_resource w "MODEL_CONFIG_DIR" tokenizer_json →
  raises (new w).1 FileNotFoundError.
Proof.
  intros Hne Hm Hv1 Hv2. unfold new, __init__, _load_files; cbn.
  destruct (get_full_resource_path_valid _ _ _ Hv1) as (p1 & E1 & _).
  rewrite (bind_eval_ok _ _ _ _ _ E1).
  eapply valid_resource_logs in Hv2.
  destruct (get_full_resource_path_valid _ _ _ Hv2) as (p2 & E2 & _).
  rewrite (bind_eval_ok _ _ _ _ _ E2).
  assert (str_truthy system_prompt_file = true) as ->.
  { unfold str_truthy. apply negb_true_iff, String.eqb_neq. done. }
  do 2 eapply missing_resource_logs in Hm.
  destruct (get_full_resource_path_missing _ _ _ Hm) as (p & E).
  erewrite bind_eval_raise; [by eexists|].
  by apply bind_eval_raise.
Qed.

(** The run of [_load_files] up to the resolution of the tools. *)
Lemma init_prefix_cases w :
  (∃ e w', new w = (Raise e, w'))
  ∨ ∃ evs (k : option (list string) → M InferenceProfile),
      new w =
      (let* tool_definitions_dir :=
         if list_truthy tools then
           let* ps := mapM tool_path tools in ret (Some ps)
         else ret None in
       k tool_definitions_dir) (logs evs w).
Proof.
  unfold new, __init__, _load_files; cbn.
  destruct (resolver_cases "MODEL_CONFIG_DIR" config_json w)
    as [(p1 & evs1 & E1)|(e & evs & E)];
    [|rewrite (bind_eval_raise _ _ _ _ _ E); eauto].
  rewrite (bind_eval_ok _ _ _ _ _ E1).
  destruct (resolver_cases "MODEL_CONFIG_DIR" tokenizer_json (logs evs1 w))
    as [(p2 & evs2 & E2)|(e & evs & E)];
    [|rewrite (bind_eval_raise _ _ _ _ _ E); eauto].
  rewrite (bind_eval_ok _ _ _ _ _ E2), logs_logs.
  destruct (str_truthy system_prompt_file).
  - destruct (resolver_cases "SYSTEM_PROMPTS_DIR"
                (system_prompt_file +:+ ".txt") (logs (evs1 ++ evs2) w))
      as [(p3 & evs3 & E3)|(e & evs & E)].
    + right. eexists _, _. erewrite bind_eval_ok; [|by erewrite bind_eval_ok].
      rewrite logs_logs. reflexivity.
    + left. erewrite bind_eval_raise; [eauto|]. by apply bind_eval_raise.
  - right. eexists _, _. erewrite bind_eval_ok; [|done]. reflexivity.
Qed.

Lemma init_tool_fatal w tool :
  tool ∈ tools →
  missing_resource w "TOOL_DEFINITIONS_DIR" (py_str tool +:+ ".json") →
  ∃ e w', new w = (Raise e, w').
Proof.
  intros Hin Hm.
  destruct (init_prefix_cases w) as [?|(evs & k & ->)]; [done|].
  assert (list_truthy tools = true) as ->.
  { destruct tools; [by apply elem_of_nil in Hin|done]. }
  eapply missing_resource_logs in Hm.
  destruct (mapM_tool_path_fatal _ _ _ Hin Hm) as (e & evs' & E).
  erewrite bind_eval_raise; [eauto|]. by apply bind_eval_raise.
Qed.

Lemma init_tool_not_found w tool :
  tool ∈ tools →
  missing_resource w "TOOL_DEFINITIONS_DIR" (py_str tool +:+ ".json") →
  (∀ t, t ∈ tools →
     valid_resource w "TOOL_DEFINITIONS_DIR" (py_str t +:+ ".json")
     ∨ missing_resource w "TOOL_DEFINITIONS_DIR" (py_str t +:+ ".json")) →
  valid_resource w "MODEL_CONFIG_DIR" config_json →
  valid_resource w "MODEL_CONFIG_DIR" tokenizer_json →
  system_prompt_file = ""
  ∨ valid_resource w "SYSTEM_PROMPTS_DIR" (system_prompt_file +:+ ".txt") →
  raises (new w).1 FileNotFoundError.
Proof.
  intros Hin Hm Hall Hv1 Hv2 Hsp. unfold new, __init__, _load_files; cbn.
  destruct (get_full_resource_path_valid _ _ _ Hv1) as (p1 & E1 & _).
  rewrite (bind_eval_ok _ _ _ _ _ E1).
  eapply valid_resource_logs in Hv2.
  destruct (get_full_resource_path_valid _ _ _ Hv2) as (p2 & E2 & _).
  rewrite (bind_eval_ok _ _ _ _ _ E2), logs_logs.
  assert (list_truthy tools = true) as Htools.
  { destruct tools; [by apply elem_of_nil in Hin|done]. }
  assert (∀ evs, raises
            ((let* ps := mapM tool_path tools in ret (Some ps)) (logs evs w)).1
            FileNotFoundError) as Htool.
  { intros evs.
    destruct (mapM_tool_path_not_found tools tool (logs evs w))
      as (msg & evs' & E); [done..|].
    rewrite (bind_eval_raise _ _ _ _ _ E). by eexists. }
  destruct (str_truthy system_prompt_file) eqn:Htruthy.
  - destruct Hsp as [->|Hv3]; [done|].
    eapply valid_resource_logs in Hv3.
    destruct (get_full_resource_path_valid _ _ _ Hv3) as (p3 & E3 & _).
    erewrite bind_eval_ok; [|by erewrite bind_eval_ok].
    rewrite logs_logs, Htools.
    match goal with |- context [logs ?evs w] => specialize (Htool evs) end.
    destruct Htool as (msg & Hr).
    unfold bind at 1. unfold tool_path in Hr.
    destruct ((let* ps := mapM _ tools in ret (Some ps)) (logs _ w))
      as [r w'] eqn:E.
    cbn in Hr. subst r. by eexists.
  - erewrite bind_eval_ok; [|done]. rewrite Htools.
    specialize (Htool ([EvGetenv "MODEL_CONFIG_DIR"; EvIsfile p1; EvAccess p1;
                         EvGetsize p1]
                       ++ [EvGetenv "MODEL_CONFIG_DIR"; EvIsfile p2; EvAccess p2;
                           EvGetsize p2])).
    destruct Htool as (msg & Hr).
    unfold bind at 1. unfold tool_path in Hr.
    destruct ((let* ps := mapM _ tools in ret (Some ps)) (logs _ w))
      as [r w'] eqn:E.
    cbn in Hr. subst r. by eexists.
Qed.

(** Without a system prompt file, without tools and without tokenizer
    loading, the two tokenizer resources are all that a construction
    needs. *)
Lemma init_without_system_prompt w :
  system_prompt_file = "" → tools = [] → load_tokenizer_flag = false →
  valid_json_resource w "MODEL_CONFIG_DIR" config_json →
  valid_resource w "MODEL_CONFIG_DIR" tokenizer_json →
  ∃ p w', new w = (Ok p, w') ∧ _system_prompt p = None.
Proof.
  intros Hf Ht Hl (dir & c & Henv & Hfs & Hc & [v Hv])
    (dir' & c' & Henv' & Hfs' & Hc').
  rewrite Henv in Henv'. injection Henv' as <-.
  unfold config_json, tokenizer_json in *.
  unfold new, __init__, _load_files; cbn. rewrite Hf, Ht, Hl; cbn.
  erewrite bind_eval_ok;
    [|rewrite get_full_resource_path_eval, Henv; cbn;
      by rewrite Hfs, bool_decide_eq_false_2].
  erewrite bind_eval_ok;
    [|rewrite get_full_resource_path_eval; cbn; rewrite Henv; cbn;
      by rewrite Hfs', bool_decide_eq_false_2].
  erewrite bind_eval_ok; [|done].
  erewrite bind_eval_ok; [|done].
  erewrite bind_eval_ok; [|apply os_path_exists_eval].
  rewrite andb_false_r.
  erewrite bind_eval_ok; [|done].
  erewrite bind_eval_ok; [|apply os_path_exists_eval].
  cbn. rewrite Hfs. rewrite bool_decide_eq_true_2 by eauto.
  erewrite bind_eval_ok;
    [|erewrite bind_eval_ok; [done|]; by eapply json_load_eval].
  cbn. eauto.
Qed.

End Resources.

(** C1 (the code departs from the claim).  On the sample installation
    without [tokenizer_config.json], and on the one without
    [tokenizer.json], with [MODEL_CONFIG_DIR] set, the construction does
    not succeed: it raises [FileNotFoundError] for the absent file, even
    though [load_tokenizer_flag] is [False]. *)
Theorem missing_tokenizer_files_are_fatal :
  (Sample.new_plain Sample.w_no_config).1
  = Raise (Exn FileNotFoundError
             "The file /models/m/tokenizer_config.json could not be found.")
  ∧ (Sample.new_plain Sample.w_no_tokenizer).1
    = Raise (Exn FileNotFoundError
               "The file /models/m/tokenizer.json could not be found.").
Proof. split; by vm_compute. Qed.

(** C7. Construction and the fatal resources.
    - With an empty [system_prompt_file] the construction never reads
      [SYSTEM_PROMPTS_DIR], a successful one leaves [_system_prompt] unset,
      and (without tools and tokenizer loading) it succeeds as soon as the
      two tokenizer resources are valid.
    - With a non-empty [system_prompt_file] whose resource is missing the
      construction fails; the failure is the resolver's
      [FileNotFoundError] when the two tokenizer resources are valid.
    - A missing definition of a listed tool makes the construction fail;
      the failure is [FileNotFoundError] when the resources resolved
      before it are valid and every listed tool is valid or missing. *)
Theorem system_prompt_and_tools_resolution
    (loader : gmap string node → string → exn + tokenizer)
    (engine_name base_url model_id config_folder_name api_key : string)
    (system_prompt_file : string) (tools : list json)
    (optional_hyper_parameters : pydict) (load_tokenizer_flag : bool)
    (w : world) :
  let new :=
    __init__ loader engine_name base_url model_id config_folder_name api_key
      system_prompt_file tools optional_hyper_parameters load_tokenizer_flag in
  let config_json := os_path_join config_folder_name "tokenizer_config.json" in
  let tokenizer_json := os_path_join config_folder_name "tokenizer.json" in
  (system_prompt_file = "" →
     (∀ r w', new w = (r, w') →
        (∃ evs, w_trace w' = w_trace w ++ evs
              ∧ EvGetenv "SYSTEM_PROMPTS_DIR" ∉ evs)
        ∧ ∀ p, r = Ok p → _system_prompt p = None)
     ∧ (tools = [] → load_tokenizer_flag = false →
        valid_json_resource w "MODEL_CONFIG_DIR" config_json →
        valid_resource w "MODEL_CONFIG_DIR" tokenizer_json →
        ∃ p w', new w = (Ok p, w')))
  ∧ (system_prompt_file ≠ "" →
     missing_resource w "SYSTEM_PROMPTS_DIR" (system_prompt_file +:+ ".txt") →
     (∃ e w', new w = (Raise e, w'))
     ∧ (valid_resource w "MODEL_CONFIG_DIR" config_json →
        valid_resource w "MODEL_CONFIG_DIR" tokenizer_json →
        raises (new w).1 FileNotFoundError))
  ∧ (∀ tool, tool ∈ tools →
     missing_resource w "TOOL_DEFINITIONS_DIR" (py_str tool +:+ ".json") →
     (∃ e w', new w = (Raise e, w'))
     ∧ ((∀ t, t ∈ tools →
           valid_resource w "TOOL_DEFINITIONS_DIR" (py_str t +:+ ".json")
           ∨ missing_resource w "TOOL_DEFINITIONS_DIR" (py_str t +:+ ".json")) →
        valid_resource w "MODEL_CONFIG_DIR" config_json →
        valid_resource w "MODEL_CONFIG_DIR" tokenizer_json →
        system_prompt_file = ""
        ∨ valid_resource w "SYSTEM_PROMPTS_DIR" (system_prompt_file +:+ ".txt") →
        raises (new w).1 FileNotFoundError)).
Proof.
  intros new config_json tokenizer_json. split; [|split].
  - intros Hf. split.
    + intros r w' E. split.
      * eapply (_load_files_no_system_prompt loader); [|exact E]. done.
      * intros p ->. apply _load_files_ok in E.
        destruct E as (_ & _ & _ & _ & _ & _ & _ & _ & _ & Hsp & _).
        by apply Hsp.
    + intros Ht Hl Hv1 Hv2.
      destruct (init_without_system_prompt loader engine_name base_url
                  model_id config_folder_name api_key system_prompt_file
                  tools optional_hyper_parameters load_tokenizer_flag w
                  Hf Ht Hl Hv1 Hv2) as (p & w' & E & _).
      eauto.
  - intros Hne Hm. split.
    + by apply init_system_prompt_fatal.
    + intros Hv1 Hv2. by apply init_system_prompt_not_found.
  - intros tool Hin Hm. split.
    + by eapply init_tool_fatal.
    + intros Hall Hv1 Hv2 Hsp. by eapply init_tool_not_found.
Qed.

Lemma sample_config_valid :
  valid_json_resource Sample.w0 "MODEL_CONFIG_DIR"
    (os_path_join "m" "tokenizer_config.json").
Proof.
  exists "/models", Sample.config_text.
  split; [done|]. split; [by vm_compute|]. split; [by vm_compute|].
  vm_compute. eauto.
Qed.

Lemma sample_tokenizer_valid :
  valid_resource Sample.w0 "MODEL_CONFIG_DIR" (os_path_join "m" "tokenizer.json").
Proof. exists "/models", "{}". split; [done|]. split; by vm_compute. Qed.

Lemma valid_json_resource_valid w var name :
  valid_json_resource w var name → valid_resource w var name.
Proof. intros (dir & c & ? & ? & ? & _). by exists dir, c. Qed.

(** On the sample installation: a construction without system prompt
    succeeds although [SYSTEM_PROMPTS_DIR] is unset; a construction naming
    the absent prompt [nope], or the absent tool [nope], raises
    [FileNotFoundError]. *)
Lemma system_prompt_and_tools_resolution_witness :
  (∃ p w', Sample.new_plain Sample.w_no_prompts_dir = (Ok p, w'))
  ∧ raises (__init__ Sample.load_tokenizer "engine" "url" "model" "m" "key"
              "nope" [] [] false Sample.w0).1 FileNotFoundError
  ∧ raises (__init__ Sample.load_tokenizer "engine" "url" "model" "m" "key"
              "" [JStr "t"; JStr "nope"] [] false Sample.w0).1
      FileNotFoundError.
Proof.
  split; [|split].
  - refine (proj2 (proj1 (system_prompt_and_tools_resolution
             Sample.load_tokenizer "engine" "http://localhost:8000/v1" "model"
             "m" "CHANGE_ME" "" [] [("temperature", JInt 1)] false
             Sample.w_no_prompts_dir) eq_refl) eq_refl eq_refl _ _).
    + exact sample_config_valid.
    + exact sample_tokenizer_valid.
  - refine (proj2 (proj1 (proj2 (system_prompt_and_tools_resolution
             Sample.load_tokenizer "engine" "url" "model" "m" "key" "nope" []
             [] false Sample.w0)) _ _) _ _).
    + discriminate.
    + exists "/prompts". split; by vm_compute.
    + exact (valid_json_resource_valid _ _ _ sample_config_valid).
    + exact sample_tokenizer_valid.
  - refine (proj2 (proj2 (proj2 (system_prompt_and_tools_resolution
             Sample.load_tokenizer "engine" "url" "model" "m" "key" ""
             [JStr "t"; JStr "nope"] [] false Sample.w0)) (JStr "nope") _ _)
             _ _ _ _).
    + apply elem_of_cons. right. apply elem_of_cons. by left.
    + exists "/tools". split; by vm_compute.
    + intros t [->|[->|[]%elem_of_nil]%elem_of_cons]%elem_of_cons.
      * left. exists "/tools", (json_dumps_indent4 Sample.tool_doc).
        split; [done|]. split; by vm_compute.
      * right. exists "/tools". split; by vm_compute.
    + exact (valid_json_resource_valid _ _ _ sample_config_valid).
    + exact sample_tokenizer_valid.
    + by left.
Defined.

(** ** The profile store (claims C4 and C2) *)

Lemma string_app_cons a (s t : string) : String a s +:+ t = String a (s +:+ t).
Proof. reflexivity. Qed.

Lemma string_app_length (s t : string) :
  String.length (s +:+ t) = String.length s + String.length t.
Proof.
  induction s as [|a s IH]; [done|].
  rewrite string_app_cons; cbn. by rewrite IH.
Qed.

Lemma string_app_inj_r (s1 s2 t : string) : s1 +:+ t = s2 +:+ t → s1 = s2.
Proof.
  revert s2. induction s1 as [|a s1 IH]; intros [|b s2] H; [done| | |].
  - apply (f_equal String.length) in H.
    rewrite !string_app_length in H; cbn in H. lia.
  - apply (f_equal String.length) in H.
    rewrite !string_app_length in H; cbn in H. lia.
  - rewrite !string_app_cons in H. injection H as -> H.
    f_equal. by apply IH.
Qed.

Lemma os_path_join_inj dir x y :
  startswith_sep x = startswith_sep y →
  os_path_join dir x = os_path_join dir y → x = y.
Proof.
  unfold os_path_join. intros ->.
  destruct (startswith_sep y); [done|].
  destruct (_ || _); intros H.
  - by apply (inj (String.app dir)) in H.
  - apply (inj (String.app dir)) in H. by apply (inj (String.app "/")) in H.
Qed.

Lemma candidate_inj dir name j k :
  candidate dir name (S j) = candidate dir name (S k) → j = k.
Proof.
  unfold candidate, candidate_name. intros H.
  apply os_path_join_inj in H; [|by destruct name].
  apply string_app_inj_r in H.
  apply (inj (String.app name)) in H.
  apply (inj (String.app "_")) in H.
  apply (inj pretty) in H. lia.
Qed.

(** Among the candidates [1 .. size fs + 1] one is not in the file system. *)
Lemma free_candidate_exists (fs : gmap string node) dir name :
  ∃ i, 1 ≤ i < 2 + size fs ∧ fs !! candidate dir name i = None.
Proof.
  set (f := λ i, candidate dir name (S i)).
  set (l := f <$> seq 0 (S (size fs))).
  destruct (decide (Forall (λ p, is_Some (fs !! p)) l)) as [Hall|Hex].
  - exfalso.
    assert (NoDup l) as Hnd.
    { apply NoDup_fmap_2; [|apply NoDup_seq].
      intros i j Hij. by apply candidate_inj in Hij. }
    assert (list_to_set l ⊆ dom fs) as Hsub.
    { intros p Hp. apply elem_of_list_to_set in Hp.
      apply elem_of_dom. by eapply Forall_forall in Hall. }
    apply subseteq_size in Hsub.
    rewrite size_list_to_set, size_dom in Hsub by done.
    unfold l in Hsub. rewrite length_fmap, length_seq in Hsub. lia.
  - apply not_Forall_Exists in Hex; [|apply _].
    apply Exists_exists in Hex as (p & Hp & Hfree).
    apply list_elem_of_fmap in Hp as (i & -> & Hi).
    apply elem_of_seq in Hi.
    exists (S i). split; [lia|]. by apply eq_None_not_Some.
Qed.

Lemma while_exists_step fuel dir name unique path counter :
  while_exists (S fuel) dir name unique path counter
  = (let* e := os_path_exists path in
     if e then
       while_exists fuel dir name (name +:+ "_" +:+ pretty counter)
         (os_path_join dir ((name +:+ "_" +:+ pretty counter) +:+ ".json"))
         (counter + 1)
     else ret (unique, path)).
Proof. reflexivity. Qed.

Lemma while_exists_spec fuel dir name j w :
  (∃ i, j ≤ i < j + fuel ∧ w_fs w !! candidate dir name i = None) →
  ∃ k, j ≤ k
     ∧ (∀ i, j ≤ i < k → is_Some (w_fs w !! candidate dir name i))
     ∧ w_fs w !! candidate dir name k = None
     ∧ while_exists fuel dir name (candidate_name name j)
         (candidate dir name j) (j + 1) w
       = (Ok (candidate_name name k, candidate dir name k),
          logs (probes dir name j (S (k - j))) w).
Proof.
  revert j w. induction fuel as [|fuel IH]; intros j w (i & Hi & Hfree); [lia|].
  rewrite while_exists_step.
  rewrite (bind_eval_ok _ _ _ _ _ (os_path_exists_eval _ _)).
  destruct (w_fs w !! candidate dir name j) as [n|] eqn:Hj.
  - rewrite bool_decide_eq_true_2 by eauto.
    destruct (IH (S j) (logs [EvExists (candidate dir name j)] w))
      as (k & Hk & Hbusy & Hk_free & Hrun).
    { exists i. split; [|done].
      assert (i ≠ j) by (intros ->; congruence). lia. }
    exists k. split; [lia|]. split; [|split; [done|]].
    + intros i' Hi'. destruct (decide (i' = j)) as [->|]; [by rewrite Hj|].
      apply Hbusy. lia.
    + replace (j + 1) with (S j) by lia.
      refine (eq_trans Hrun _). rewrite logs_logs. do 2 f_equal.
      replace (S (k - j)) with (S (S (k - S j))) by lia. done.
  - rewrite bool_decide_eq_false_2 by (by intros [? ?]).
    exists j. split; [done|]. split; [intros; lia|]. split; [done|].
    by rewrite Nat.sub_diag.
Qed.

Lemma os_makedirs_eval dir w :
  (∀ r c, w_fs w !! dir ≠ Some (File r c)) →
  os_makedirs dir w
  = (Ok tt, set_fs (after_makedirs dir (w_fs w)) (logs [EvMakedirs dir] w)).
Proof.
  intros Hdir. unfold os_makedirs, after_makedirs.
  unfold bind, tell, get_world; cbn.
  destruct (w_fs w !! dir) as [[r c|]|] eqn:E; [by destruct (Hdir r c)|..];
    by destruct w.
Qed.

Lemma after_makedirs_preserves dir (fs : gmap string node) p n :
  fs !! p = Some n → after_makedirs dir fs !! p = Some n.
Proof.
  intros Hp. unfold after_makedirs.
  destruct (fs !! dir) eqn:E; [done|].
  rewrite lookup_insert_ne; [done|]. intros ->. congruence.
Qed.

(** The bound of the loop is never reached: [save_profile] returns or
    raises. *)
Lemma save_profile_no_timeout self profile_name w :
  (save_profile self profile_name w).1 ≠ Timeout.
Proof.
  unfold save_profile, os_getenv.
  unfold bind at 1 2 3; unfold tell, get_world, ret; cbn.
  destruct (w_env w !! "PROFILES_DIR") as [[|c dir']|]; [done| |done].
  set (dir := String c dir'). set (w0 := log _ w).
  assert ((∃ r0 c0, w_fs w !! dir = Some (File r0 c0))
          ∨ ¬ (∃ r0 c0, w_fs w !! dir = Some (File r0 c0)))
    as [(r0 & c0 & Hdir)|Hdir].
  { destruct (w_fs w !! dir) as [[r0 c0|]|]; [by eauto|right..];
      by intros (? & ? & ?). }
  - unfold bind at 1, os_makedirs.
    unfold bind, tell, get_world; cbn. fold dir. by rewrite Hdir.
  - assert (∀ r0 c0, w_fs w0 !! dir ≠ Some (File r0 c0)) as Hnf
      by (intros r0 c0 E; apply Hdir; eauto).
    rewrite (bind_eval_ok _ _ _ _ _ (os_makedirs_eval dir w0 Hnf)).
    unfold bind at 1; cbn.
    set (w1 := set_fs _ _).
    destruct (free_candidate_exists (w_fs w1) dir profile_name)
      as (i & Hi & Hfree).
    destruct (while_exists_spec (S (S (size (w_fs w1)))) dir profile_name 0 w1)
      as (k & _ & _ & Hk & Hrun); [exists i; split; [lia|done]|].
    erewrite bind_eval_ok; [|exact Hrun].
    unfold json_dump, write_file, print.
    unfold bind, tell, get_world; cbn. fold dir.
    change (after_makedirs dir (w_fs w)) with (w_fs w1). by rewrite Hk.
Qed.



(** Three saves under the same name create [p.json], [p_1.json] and
    [p_2.json]. *)
Example save_profile_three_times :
  let run := (let* _ := save_profile Sample.plain "p" in
              let* _ := save_profile Sample.plain "p" in
              save_profile Sample.plain "p") in
  filter (λ e, negb (is_fs_access e))
    (w_trace (run (World Sample.env ∅ ∅ [])).2)
  = [ EvGetenv "PROFILES_DIR";
      EvPrint "Profile 'p' saved to /profiles/p.json";
      EvGetenv "PROFILES_DIR";
      EvPrint "Profile 'p_1' saved to /profiles/p_1.json";
      EvGetenv "PROFILES_DIR";
      EvPrint "Profile 'p_2' saved to /profiles/p_2.json" ].
Proof. vm_compute. reflexivity. Qed.

(** C2 (the code departs from the claim).  On the sample installation a
    profile is constructed with the tool [t]: its [_tools] then holds the
    loaded document.  [save_profile("p")] succeeds and writes the documents
    under the key [tools]; [load_profile("p")] passes them to the
    constructor as tool names, resolves [{'name': 't'}.json] and raises
    [FileNotFoundError]: no profile is reconstructed. *)
Theorem save_then_load_with_tools_fails :
  (Sample.new_with_tool Sample.w0).1
  = Ok (Build_InferenceProfile "engine" "http://localhost:8000/v1" "model" "m"
          "sys" [Sample.tool_doc] [] "CHANGE_ME" false None
          (Some (JObj [("bos_token", JStr "<s>")])) (Some "S"))
  ∧ ((let* p := Sample.new_with_tool in save_profile p "p") Sample.w0).1
    = Ok tt
  ∧ (Sample.save_then_load Sample.new_with_tool Sample.w0).1
    = Raise (Exn FileNotFoundError
               "The file /tools/{'name': 't'}.json could not be found.").
Proof. repeat split; vm_compute; reflexivity. Qed.

(** Without tools the same round trip gives back the field mapping. *)
Example save_then_load_without_tools :
  match (Sample.save_then_load Sample.new_plain Sample.w0).1 with
  | Ok (p, q) => _to_dict q = _to_dict p
  | _ => False
  end.
Proof. vm_compute. reflexivity. Qed.


(** * Further properties of the code *)

(** ** Dictionaries, request parameters and setters *)

Lemma dict_get_set d k v k' :
  dict_get (dict_set d k v) k' = if String.eqb k k' then Some v else dict_get d k'.
Proof.
  induction d as [|[k0 v0] d IH]; cbn.
  - done.
  - destruct (String.eqb k0 k) eqn:E0; cbn.
    + apply String.eqb_eq in E0 as ->. by destruct (String.eqb k k').
    + rewrite IH. destruct (String.eqb k0 k') eqn:E1; [|done].
      apply String.eqb_eq in E1 as ->.
      by rewrite (proj2 (String.eqb_neq k k'))
        by (apply String.eqb_neq in E0; congruence).
Qed.

Lemma dict_set_keys d k v :
  map fst (dict_set d k v)
  = if bool_decide (k ∈ map fst d) then map fst d else map fst d ++ [k].
Proof.
  induction d as [|[k0 v0] d IH]; cbn; [done|].
  destruct (String.eqb k0 k) eqn:E0; cbn.
  - apply String.eqb_eq in E0 as ->.
    rewrite bool_decide_eq_true_2; [done|]. apply elem_of_cons. by left.
  - apply String.eqb_neq in E0. rewrite IH.
    destruct (decide (k ∈ map fst d)) as [Hin|Hin].
    + rewrite !bool_decide_eq_true_2; [done| |done].
      apply elem_of_cons. by right.
    + rewrite !bool_decide_eq_false_2; [done| |done].
      intros [?|?]%elem_of_cons; [congruence|done].
Qed.

Lemma dict_set_NoDup d k v :
  NoDup (map fst d) → NoDup (map fst (dict_set d k v)).
Proof.
  intros Hd. rewrite dict_set_keys. case_bool_decide; [done|].
  apply NoDup_app. split; [done|]. split; [|apply NoDup_singleton].
  intros x Hx [->|[]%elem_of_nil]%elem_of_cons. done.
Qed.

Lemma dict_update_NoDup d other :
  NoDup (map fst d) → NoDup (map fst (dict_update d other)).
Proof.
  unfold dict_update. revert d.
  induction other as [|[k v] o IH]; intros d Hd; cbn; [done|].
  by apply IH, dict_set_NoDup.
Qed.

Lemma dict_get_None d k : dict_get d k = None ↔ k ∉ map fst d.
Proof.
  induction d as [|[k0 v0] d IH]; cbn.
  - split; [intros _; apply not_elem_of_nil|done].
  - destruct (String.eqb k0 k) eqn:E.
    + apply String.eqb_eq in E as ->. split; [done|].
      intros []. apply elem_of_cons. by left.
    + apply String.eqb_neq in E. rewrite IH. split.
      * intros Hn [?|?]%elem_of_cons; [congruence|done].
      * intros Hn Hin. apply Hn, elem_of_cons. by right.
Qed.

(** Lookup after [d.update(other)], for a dictionary [other] (its keys are
    pairwise distinct): the value of [other] where it has the key, the old
    value elsewhere. *)
Lemma dict_get_update d other k :
  NoDup (map fst other) →
  dict_get (dict_update d other) k
  = match dict_get other k with
    | Some v => Some v
    | None => dict_get d k
    end.
Proof.
  unfold dict_update. revert d.
  induction other as [|[k0 v0] o IH]; intros d Hnd; cbn; [done|].
  apply NoDup_cons in Hnd as [Hk0 Hnd]. rewrite IH by done.
  cbn in Hk0. destruct (String.eqb k0 k) eqn:E.
  - apply String.eqb_eq in E as ->.
    apply dict_get_None in Hk0. rewrite Hk0, dict_get_set.
    by rewrite String.eqb_refl.
  - destruct (dict_get o k); [done|]. by rewrite dict_get_set, E.
Qed.

Lemma dict_update_keys_prefix d other :
  ∃ new, map fst (dict_update d other) = map fst d ++ new.
Proof.
  unfold dict_update. revert d.
  induction other as [|[k v] o IH]; intros d; cbn.
  - exists []. by rewrite app_nil_r.
  - destruct (IH (dict_set d k v)) as [new Hnew]. rewrite Hnew, dict_set_keys.
    case_bool_decide; [by eexists|]. rewrite <- app_assoc. by eexists.
Qed.

(** X1. [format_inference_params]: the request is a dictionary whose first
    key is ["model"]; every hyperparameter is in it with its value, a
    hyperparameter named ["model"] replacing the profile's model id; and it
    has no key besides ["model"] and the hyperparameters. *)
Theorem format_inference_params_lookup (self : InferenceProfile) (k : string) :
  NoDup (map fst (_optional_hyper_parameters self)) →
  dict_get (format_inference_params self) k
  = match dict_get (_optional_hyper_parameters self) k with
    | Some v => Some v
    | None => if String.eqb "model" k then Some (JStr (_model_id self)) else None
    end
  ∧ NoDup (map fst (format_inference_params self))
  ∧ head (map fst (format_inference_params self)) = Some "model".
Proof.
  intros Hnd. unfold format_inference_params. split; [|split].
  - rewrite dict_get_update by done. cbn. done.
  - apply dict_update_NoDup. cbn. apply NoDup_singleton.
  - destruct (dict_update_keys_prefix [("model", JStr (_model_id self))]
                (_optional_hyper_parameters self)) as [new ->]. done.
Qed.

Lemma format_inference_params_lookup_witness :
  let self := Build_InferenceProfile "e" "u" "m1" "f" "" []
                [("temperature", JInt 1); ("model", JStr "m2")] "k" false
                None None None in
  dict_get (format_inference_params self) "model" = Some (JStr "m2")
  ∧ dict_get (format_inference_params self) "temperature" = Some (JInt 1)
  ∧ dict_get (format_inference_params self) "seed" = None.
Proof.
  intros self.
  assert (NoDup (map fst (_optional_hyper_parameters self))) as Hnd.
  { apply (bool_decide_unpack _). vm_compute. exact I. }
  split; [|split].
  - rewrite (proj1 (format_inference_params_lookup self "model" Hnd)).
    reflexivity.
  - rewrite (proj1 (format_inference_params_lookup self "temperature" Hnd)).
    reflexivity.
  - rewrite (proj1 (format_inference_params_lookup self "seed" Hnd)).
    reflexivity.
Defined.

(** X2. [set_optional_param] merges: afterwards a key of [params] has the
    value given in [params], every other key keeps its value, the keys that
    were there keep their places, and no other attribute has changed; the
    next request built by [format_inference_params] carries the new
    values. *)
Theorem set_optional_param_merges
    (self : InferenceProfile) (params : pydict) (k : string) :
  NoDup (map fst (_optional_hyper_parameters self)) →
  NoDup (map fst params) →
  let self' := set_optional_param self params in
  dict_get (_optional_hyper_parameters self') k
  = match dict_get params k with
    | Some v => Some v
    | None => dict_get (_optional_hyper_parameters self) k
    end
  ∧ NoDup (map fst (_optional_hyper_parameters self'))
  ∧ (∃ new, map fst (_optional_hyper_parameters self')
            = map fst (_optional_hyper_parameters self) ++ new)
  ∧ (∀ field, field ≠ "optional_hyper_parameters" →
       dict_get (_to_dict self') field = dict_get (_to_dict self) field)
  ∧ (∀ v, dict_get params k = Some v →
          dict_get (format_inference_params self') k = Some v).
Proof.
  intros Hnd Hp self'. subst self'. unfold format_inference_params.
  cbn [set_optional_param _optional_hyper_parameters _model_id].
  split; [|split; [|split; [|split]]].
  - by apply dict_get_update.
  - by apply dict_update_NoDup.
  - apply dict_update_keys_prefix.
  - intros field Hf. unfold _to_dict; cbn -[String.eqb].
    repeat match goal with
      | |- context [String.eqb ?a field] =>
          destruct (String.eqb a field) eqn:?; try done
      end;
      match goal with
      | H : String.eqb "optional_hyper_parameters" _ = true |- _ =>
          by apply String.eqb_eq in H
      end.
  - intros v Hv.
    rewrite dict_get_update by (by apply dict_update_NoDup).
    rewrite dict_get_update by done. by rewrite Hv.
Qed.

Lemma set_optional_param_merges_witness :
  let self := Build_InferenceProfile "e" "u" "m1" "f" "" []
                [("temperature", JInt 1); ("seed", JInt 7)] "k" false
                None None None in
  let self' := set_optional_param self [("seed", JInt 9); ("top_k", JInt 40)] in
  dict_get (_optional_hyper_parameters self') "seed" = Some (JInt 9)
  ∧ dict_get (format_inference_params self') "seed" = Some (JInt 9).
Proof.
  intros self self'.
  assert (NoDup (map fst (_optional_hyper_parameters self))) as Hnd
    by (apply (bool_decide_unpack _); vm_compute; exact I).
  assert (NoDup (map fst [("seed", JInt 9); ("top_k", JInt 40)])) as Hp
    by (apply (bool_decide_unpack _); vm_compute; exact I).
  destruct (set_optional_param_merges self
              [("seed", JInt 9); ("top_k", JInt 40)] "seed" Hnd Hp)
    as (Hget & _ & _ & _ & Hreq).
  split; [exact Hget|]. by apply Hreq.
Defined.

(** ** The constructor call of [load_profile] *)


(** ** What a construction reads and what it leaves *)

Lemma read_file_eval p c w :
  w_fs w !! p = Some (File true c) → read_file p w = (Ok c, logs [EvRead p] w).
Proof.
  intros Hfs. unfold read_file, bind, tell, get_world; cbn. by rewrite Hfs.
Qed.

Lemma read_file_ok p c w w' :
  read_file p w = (Ok c, w') →
  w_fs w !! p = Some (File true c) ∧ w' = logs [EvRead p] w.
Proof.
  unfold read_file, bind, tell, get_world; cbn.
  destruct (w_fs w !! p) as [[[] c0|]|]; cbn; intros [= <- <-] || intros [=].
  done.
Qed.

Lemma json_load_ok p v w w' :
  json_load p w = (Ok v, w') →
  ∃ c, w_fs w !! p = Some (File true c) ∧ json_loads c = Some v
     ∧ w' = logs [EvRead p] w.
Proof.
  unfold json_load. intros H. apply bind_ok in H as (c & w1 & Hr & H).
  apply read_file_ok in Hr as [Hfs ->].
  destruct (json_loads c) as [v0|] eqn:Hv; [|done].
  injection H as <- <-. eauto.
Qed.

Lemma get_full_resource_path_ok var name w p w' :
  get_full_resource_path var name w = (Ok p, w') →
  ∃ dir c, w_env w !! var = Some dir ∧ p = os_path_join dir name
         ∧ w_fs w !! p = Some (File true c) ∧ c ≠ ""
         ∧ w' = logs [EvGetenv var; EvIsfile p; EvAccess p; EvGetsize p] w.
Proof.
  rewrite get_full_resource_path_eval.
  destruct (w_env w !! var) as [dir|]; [|done]. cbn.
  destruct (w_fs w !! os_path_join dir name) as [[[] c|]|] eqn:Hfs; try done.
  case_bool_decide; [done|]. intros [= <- <-]. by exists dir, c.
Qed.

Lemma get_full_resource_path_text var name c w :
  resource_text w var name c →
  ∃ p, get_full_resource_path var name w
       = (Ok p, logs [EvGetenv var; EvIsfile p; EvAccess p; EvGetsize p] w)
     ∧ w_fs w !! p = Some (File true c).
Proof.
  intros (dir & Henv & Hfs & Hc). exists (os_path_join dir name).
  rewrite get_full_resource_path_eval, Henv; cbn.
  by rewrite Hfs, bool_decide_eq_false_2.
Qed.

Lemma from_pretrained_eval loader dir w :
  from_pretrained loader dir w
  = (match loader (w_fs w) dir with
     | inr tk => Ok tk
     | inl e => Raise e
     end, logs [EvFromPretrained dir] w).
Proof.
  unfold from_pretrained, bind, tell, get_world; cbn.
  by destruct (loader (w_fs w) dir).
Qed.

Lemma os_path_join_nonempty a b : b ≠ "" → os_path_join a b ≠ "".
Proof.
  intros Hb. unfold os_path_join.
  destruct (startswith_sep b); [done|].
  destruct (_ || _); intros H; apply (f_equal String.length) in H;
    rewrite !string_app_length in H; destruct b; cbn in H; done || lia.
Qed.

Lemma str_truthy_true s : str_truthy s = true ↔ s ≠ "".
Proof.
  unfold str_truthy. rewrite negb_true_iff. apply String.eqb_neq.
Qed.

Lemma mapM_tool_path_ok tools ps w w' :
  mapM tool_path tools w = (Ok ps, w') →
  Forall2 (λ tool p, ∃ c, resource_text w "TOOL_DEFINITIONS_DIR"
                            (py_str tool +:+ ".json") c
                        ∧ w_fs w !! p = Some (File true c)) tools ps
  ∧ ∃ evs, w' = logs evs w ∧ Forall (λ e, is_resolver_event e = true) evs.
Proof.
  revert ps w w'. induction tools as [|t l IH]; intros ps w w' H; cbn in H.
  - injection H as <- <-. split; [constructor|].
    exists []. by rewrite logs_nil.
  - apply bind_ok in H as (p & w1 & Hp & H).
    apply bind_ok in H as (ps' & w2 & Hps & H). injection H as <- <-.
    apply get_full_resource_path_ok in Hp as (dir & c & Henv & -> & Hfs & Hc & ->).
    apply IH in Hps as (Hall & evs & -> & Hevs). split.
    + constructor; [|done]. exists c. split; [|done]. by exists dir.
    + eexists. rewrite logs_logs. split; [done|].
      apply Forall_app. split; [by repeat constructor|done].
Qed.

Lemma mapM_json_load_ok ps docs w w' :
  mapM json_load ps w = (Ok docs, w') →
  Forall2 (λ p doc, ∃ c, w_fs w !! p = Some (File true c)
                       ∧ json_loads c = Some doc) ps docs
  ∧ ∃ evs, w' = logs evs w.
Proof.
  revert docs w w'. induction ps as [|p l IH]; intros docs w w' H; cbn in H.
  - injection H as <- <-. split; [constructor|].
    exists []. by rewrite logs_nil.
  - apply bind_ok in H as (d & w1 & Hd & H).
    apply bind_ok in H as (ds & w2 & Hds & H). injection H as <- <-.
    apply json_load_ok in Hd as (c & Hfs & Hv & ->).
    apply IH in Hds as (Hall & evs & ->). split.
    + constructor; [eauto|done].
    + eexists. by rewrite logs_logs.
Qed.

Lemma mapM_tool_path_eval tools w :
  Forall (λ tool, ∃ doc, resource_json w "TOOL_DEFINITIONS_DIR"
                           (py_str tool +:+ ".json") doc) tools →
  ∃ ps evs, mapM tool_path tools w = (Ok ps, logs evs w)
          ∧ Forall (λ p, ∃ c v, w_fs w !! p = Some (File true c)
                              ∧ json_loads c = Some v) ps
          ∧ length ps = length tools.
Proof.
  revert w. induction tools as [|t l IH]; intros w Hall; cbn.
  - exists [], []. by rewrite logs_nil.
  - apply Forall_cons in Hall as [(doc & c & Hc & Hdoc) Hall].
    destruct (get_full_resource_path_text _ _ _ _ Hc) as (p & Hp & Hfs).
    unfold tool_path at 1. rewrite (bind_eval_ok _ _ _ _ _ Hp).
    destruct (IH (logs [EvGetenv "TOOL_DEFINITIONS_DIR"; EvIsfile p;
                         EvAccess p; EvGetsize p] w))
      as (ps & evs & Hps & Hall' & Hlen); [done|].
    rewrite (bind_eval_ok _ _ _ _ _ Hps), logs_logs.
    eexists (p :: ps), _. split; [done|]. split.
    + constructor; [eauto|done].
    + cbn. by rewrite Hlen.
Qed.

Lemma mapM_json_load_eval ps w :
  Forall (λ p, ∃ c v, w_fs w !! p = Some (File true c)
                    ∧ json_loads c = Some v) ps →
  ∃ docs evs, mapM json_load ps w = (Ok docs, logs evs w).
Proof.
  revert w. induction ps as [|p l IH]; intros w Hall; cbn.
  - exists [], []. by rewrite logs_nil.
  - apply Forall_cons in Hall as [(c & v & Hfs & Hv) Hall].
    rewrite (bind_eval_ok _ _ _ _ _ (json_load_eval _ _ _ _ Hfs Hv)).
    destruct (IH (logs [EvRead p] w)) as (docs & evs & Hdocs); [done|].
    rewrite (bind_eval_ok _ _ _ _ _ Hdocs), logs_logs. by eexists _, _.
Qed.

Section ConstructionOutcome.

Variable loader : gmap string node → string → exn + tokenizer.

Variables engine_name base_url model_id config_folder_name api_key : string.
Variable system_prompt_file : string.
Variable tools : list json.
Variable optional_hyper_parameters : pydict.
Variable load_tokenizer_flag : bool.

Let new : M InferenceProfile :=
  __init__ loader engine_name base_url model_id config_folder_name api_key
    system_prompt_file tools optional_hyper_parameters load_tokenizer_flag.
Let config_json := os_path_join config_folder_name "tokenizer_config.json".
Let tokenizer_json := os_path_join config_folder_name "tokenizer.json".

(** What a successful construction has done. *)
Lemma init_ok_inversion (w w' : world) (self : InferenceProfile) :
  new w = (Ok self, w') →
  (_engine_name self = engine_name ∧ _base_url self = base_url
   ∧ _model_id self = model_id
   ∧ _config_folder_name self = config_folder_name
   ∧ _api_key self = api_key
   ∧ _system_prompt_file self = system_prompt_file
   ∧ _optional_hyper_parameters self = optional_hyper_parameters
   ∧ _load_tokenizer_flag self = load_tokenizer_flag)
  ∧ (∃ cfg, resource_json w "MODEL_CONFIG_DIR" config_json cfg
          ∧ _tokenizer_config self = Some cfg)
  ∧ (∃ c, resource_text w "MODEL_CONFIG_DIR" tokenizer_json c)
  ∧ (if load_tokenizer_flag
     then ∃ dir tk, tokenizer_dir w config_folder_name = Some dir
                  ∧ loader (w_fs w) dir = inr tk ∧ _tokenizer self = Some tk
     else _tokenizer self = None)
  ∧ (if bool_decide (system_prompt_file = "")
     then _system_prompt self = None
     else ∃ s, resource_text w "SYSTEM_PROMPTS_DIR"
                 (system_prompt_file +:+ ".txt") s
             ∧ _system_prompt self = Some s)
  ∧ Forall2 (λ tool doc, resource_json w "TOOL_DEFINITIONS_DIR"
                           (py_str tool +:+ ".json") doc)
      tools (_tools self)
  ∧ ∃ evs, w' = logs evs w.
Proof.
  intros H. remember (bool_decide (system_prompt_file = "")) as b eqn:Hb.
  symmetry in Hb.
  unfold new, __init__, _load_files in H; cbn in H.
  apply bind_ok in H as (p1 & w1 & H1 & H).
  apply get_full_resource_path_ok in H1 as (dir & c1 & Henv & -> & Hfs1 & Hc1 & ->).
  apply bind_ok in H as (p2 & w2 & H2 & H).
  apply get_full_resource_path_ok in H2 as (dir' & c2 & Henv' & -> & Hfs2 & Hc2 & ->).
  cbn in Henv', Hfs2. rewrite Henv in Henv'. injection Henv' as <-.
  apply bind_ok in H as (sp & w3 & H3 & H).
  apply bind_ok in H as (td & w4 & H4 & H).
  apply bind_ok in H as (e1 & w5 & H5 & H).
  rewrite os_path_exists_eval in H5. injection H5 as <- <-.
  apply bind_ok in H as (self1 & w6 & H6 & H).
  apply bind_ok in H as (e2 & w7 & H7 & H).
  rewrite os_path_exists_eval in H7. injection H7 as <- <-.
  apply bind_ok in H as (self2 & w8 & H8 & H).
  apply bind_ok in H as (self3 & w9 & H9 & H).
  apply bind_ok in H as (self4 & w10 & H10 & H).
  injection H as <- <-.
  (* the system prompt path *)
  assert (∃ evs3, w3 = logs evs3 w
          ∧ if b then sp = None
            else ∃ p s, sp = Some p ∧ p ≠ ""
                      ∧ resource_text w "SYSTEM_PROMPTS_DIR"
                          (system_prompt_file +:+ ".txt") s
                      ∧ w_fs w !! p = Some (File true s))
    as (evs3 & -> & Hsp).
  { destruct b.
    - apply bool_decide_eq_true in Hb. rewrite Hb in H3. cbn in H3.
      injection H3 as <- <-. rewrite logs_logs. eauto.
    - apply bool_decide_eq_false in Hb.
      apply str_truthy_true in Hb as Ht. rewrite Ht in H3.
      apply bind_ok in H3 as (p & w3' & Hp & H3). injection H3 as <- <-.
      apply get_full_resource_path_ok in Hp
        as (dir3 & s & Henv3 & -> & Hfs3 & Hs & ->).
      rewrite !logs_logs. eexists. split; [done|].
      eexists _, s. split; [done|].
      split; [apply os_path_join_nonempty; intros E;
              apply (f_equal String.length) in E;
              rewrite string_app_length in E; cbn in E; lia|].
      split; [by exists dir3|done]. }
  (* the tool paths *)
  assert (∃ evs4, w4 = logs evs4 w
          ∧ match tools with
            | [] => td = None
            | _ => ∃ ps, td = Some ps
                ∧ Forall2 (λ tool p, ∃ c, resource_text w "TOOL_DEFINITIONS_DIR"
                                            (py_str tool +:+ ".json") c
                                        ∧ w_fs w !! p = Some (File true c))
                    tools ps
            end) as (evs4 & -> & Htd).
  { destruct tools as [|t l] eqn:Ht.
    - cbn in H4. injection H4 as <- <-. eauto.
    - cbn [list_truthy] in H4.
      apply bind_ok in H4 as (ps & w4' & Hps & H4). injection H4 as <- <-.
      apply mapM_tool_path_ok in Hps as (Hall & evs & -> & _).
      rewrite logs_logs. eauto. }
  cbn in H6, H8, H9, H10.
  (* the tokenizer *)
  rewrite Hfs2 in H6. rewrite bool_decide_eq_true_2 in H6 by eauto.
  cbn [andb] in H6.
  set (self0 := Build_InferenceProfile _ _ _ _ _ _ _ _ _ _ _ _) in *.
  assert (∃ evs6, w6 = logs evs6 w
          ∧ if load_tokenizer_flag
            then ∃ d tk, tokenizer_dir w config_folder_name = Some d
                       ∧ loader (w_fs w) d = inr tk
                       ∧ self1 = set_tokenizer tk self0
            else self1 = self0) as (evs6 & -> & Htk).
  { destruct load_tokenizer_flag eqn:Hfl.
    - apply bind_ok in H6 as (tk & w6' & Htk & H6). injection H6 as <- <-.
      rewrite from_pretrained_eval in Htk. cbn in Htk.
      destruct (loader (w_fs w) _) as [e|tk'] eqn:Hl; [done|].
      injection Htk as <- <-. rewrite !logs_logs. eexists. split; [done|].
      eexists _, tk'.
      split; [unfold tokenizer_dir; by rewrite Henv|]. done.
    - injection H6 as <- <-. rewrite !logs_logs. by eexists. }
  (* the tokenizer configuration *)
  cbn in H8. rewrite Hfs1 in H8. rewrite bool_decide_eq_true_2 in H8 by eauto.
  apply bind_ok in H8 as (cfg & w8' & Hcfg & H8). injection H8 as <- <-.
  apply json_load_ok in Hcfg as (c1' & Hfs1' & Hcfg & ->).
  cbn in Hfs1'. rewrite Hfs1 in Hfs1'. injection Hfs1' as <-.
  (* the system prompt *)
  assert (∃ evs9, w9 = logs evs9 w
          ∧ if b
            then self3 = set_tokenizer_config cfg self1
            else ∃ s, resource_text w "SYSTEM_PROMPTS_DIR"
                        (system_prompt_file +:+ ".txt") s
                    ∧ self3 = set_system_prompt s (set_tokenizer_config cfg self1))
    as (evs9 & -> & Hprompt).
  { destruct b.
    - subst sp. injection H9 as <- <-. rewrite !logs_logs. eauto.
    - destruct Hsp as (p & s & -> & Hp & Hres & Hfs).
      apply str_truthy_true in Hp. rewrite Hp in H9.
      apply bind_ok in H9 as (s' & w9' & Hs' & H9). injection H9 as <- <-.
      apply read_file_ok in Hs' as [Hfs' ->]. cbn in Hfs'.
      rewrite Hfs in Hfs'. injection Hfs' as <-.
      rewrite !logs_logs. eauto. }
  (* the tools *)
  assert (∃ evs10, w10 = logs evs10 w
          ∧ ∃ docs, Forall2 (λ tool doc, resource_json w "TOOL_DEFINITIONS_DIR"
                                           (py_str tool +:+ ".json") doc)
                      tools docs
                  ∧ _tools self4 = docs
                  ∧ (self4 = self3 ∨ self4 = set_tools docs self3))
    as (evs10 & -> & docs & Hdocs & Htools & Hself4).
  { destruct tools as [|t l] eqn:Ht.
    - subst td. injection H10 as <- <-. eexists. split; [done|].
      exists []. split; [constructor|]. split; [|by left].
      destruct b; [subst self3|destruct Hprompt as (s & _ & ->)];
        destruct load_tokenizer_flag eqn:Hfl;
        try destruct Htk as (d & tk & _ & _ & ->); subst; done.
    - destruct Htd as (ps & -> & Hps).
      assert (list_truthy ps = true) as Hlt
        by (apply Forall2_length in Hps; by destruct ps).
      rewrite Hlt in H10.
      apply bind_ok in H10 as (docs & w10' & Hd & H10). injection H10 as <- <-.
      apply mapM_json_load_ok in Hd as (Hd & evs & ->). rewrite logs_logs.
      eexists. split; [done|]. exists docs. split; [|split; [done|by right]].
      clear -Hps Hd. revert docs Hd.
      induction Hps as [|tool p l' ps' (c & Hres & Hfs) Hrest IH];
        intros docs Hd; inversion Hd as [|? doc ? docs' (c' & Hfs' & Hv)]; subst.
      + constructor.
      + constructor; [|by apply IH]. cbn in Hfs'.
        rewrite Hfs in Hfs'. injection Hfs' as <-. by exists c. }
  (* assembling *)
  split.
  { destruct Hself4 as [->| ->];
      (destruct b; [subst self3|destruct Hprompt as (s & _ & ->)]);
      (destruct load_tokenizer_flag eqn:Hfl;
       [destruct Htk as (d & tk & _ & _ & ->)|subst self1]);
      done. }
  split.
  { exists cfg. split; [exists c1; split; [by exists dir|done]|].
    destruct Hself4 as [->| ->];
      (destruct b; [subst self3|destruct Hprompt as (s & _ & ->)]);
      done. }
  split; [exists c2; by exists dir|].
  split.
  { destruct load_tokenizer_flag eqn:Hfl.
    - destruct Htk as (d & tk & Hd & Hl & ->). exists d, tk.
      split; [done|]. split; [done|].
      destruct Hself4 as [->| ->];
        (destruct b; [subst self3|destruct Hprompt as (s & _ & ->)]);
        done.
    - subst self1.
      destruct Hself4 as [->| ->];
        (destruct b; [subst self3|destruct Hprompt as (s & _ & ->)]);
        done. }
  split.
  { destruct b.
    - subst self3.
      destruct load_tokenizer_flag eqn:Hfl;
        [destruct Htk as (d & tk & _ & _ & ->)|subst self1];
        by destruct Hself4 as [->| ->].
    - destruct Hprompt as (s & Hres & ->). exists s. split; [done|].
      by destruct Hself4 as [->| ->]. }
  split; [by rewrite Htools|]. eauto.
Qed.

(** Valid resources are enough for the construction to succeed. *)
Lemma init_valid_resources_ok w :
  (∃ cfg, resource_json w "MODEL_CONFIG_DIR" config_json cfg) →
  (∃ c, resource_text w "MODEL_CONFIG_DIR" tokenizer_json c) →
  (load_tokenizer_flag = true →
     ∃ dir tk, tokenizer_dir w config_folder_name = Some dir
             ∧ loader (w_fs w) dir = inr tk) →
  (system_prompt_file ≠ "" →
     ∃ s, resource_text w "SYSTEM_PROMPTS_DIR"
            (system_prompt_file +:+ ".txt") s) →
  Forall (λ tool, ∃ doc, resource_json w "TOOL_DEFINITIONS_DIR"
                           (py_str tool +:+ ".json") doc) tools →
  ∃ self evs, new w = (Ok self, logs evs w).
Proof.
  intros (cfg & c1 & Hc1 & Hcfg) (c2 & Hc2) Hloader Hprompt Htools.
  unfold new, __init__, _load_files; cbn.
  unfold config_json, tokenizer_json in *.
  destruct (get_full_resource_path_text _ _ _ _ Hc1) as (p1 & E1 & Hfs1).
  rewrite (bind_eval_ok _ _ _ _ _ E1).
  destruct (get_full_resource_path_text _ _ _
              (logs [EvGetenv "MODEL_CONFIG_DIR"; EvIsfile p1; EvAccess p1;
                     EvGetsize p1] w) Hc2) as (p2 & E2 & Hfs2).
  cbn [w_fs logs] in Hfs2.
  rewrite (bind_eval_ok _ _ _ _ _ E2), logs_logs.
  assert (p2 = os_path_join (default "" (w_env w !! "MODEL_CONFIG_DIR"))
                 (os_path_join config_folder_name "tokenizer.json")) as Hp2.
  { pose proof E2 as E2'.
    apply get_full_resource_path_ok in E2' as (d & c & Hd & -> & _).
    cbn in Hd. by rewrite Hd. }
  (* the system prompt path *)
  assert (∃ sp evs3,
            (if str_truthy system_prompt_file
             then let* p := get_full_resource_path "SYSTEM_PROMPTS_DIR"
                               (system_prompt_file +:+ ".txt") in ret (Some p)
             else ret None)
              (logs ([EvGetenv "MODEL_CONFIG_DIR"; EvIsfile p1; EvAccess p1;
                      EvGetsize p1]
                     ++ [EvGetenv "MODEL_CONFIG_DIR"; EvIsfile p2; EvAccess p2;
                         EvGetsize p2]) w)
            = (Ok sp, logs evs3 w)
          ∧ match sp with
            | Some p => ∃ s, w_fs w !! p = Some (File true s)
            | None => True
            end) as (sp & evs3 & E3 & Hsp).
  { destruct (str_truthy system_prompt_file) eqn:Ht.
    - apply str_truthy_true in Ht. destruct (Hprompt Ht) as (s & Hs).
      destruct (get_full_resource_path_text _ _ _
                  (logs ([EvGetenv "MODEL_CONFIG_DIR"; EvIsfile p1; EvAccess p1;
                          EvGetsize p1]
                         ++ [EvGetenv "MODEL_CONFIG_DIR"; EvIsfile p2;
                             EvAccess p2; EvGetsize p2]) w) Hs)
        as (p & E & Hfs).
      rewrite (bind_eval_ok _ _ _ _ _ E), logs_logs.
      eexists (Some p), _. split; [done|]. eauto.
    - by eexists None, _. }
  rewrite (bind_eval_ok _ _ _ _ _ E3).
  (* the tool paths *)
  assert (∃ td evs4,
            (if list_truthy tools
             then let* ps := mapM tool_path tools in ret (Some ps)
             else ret None) (logs evs3 w)
            = (Ok td, logs evs4 w)
          ∧ match td with
            | Some ps => Forall (λ p, ∃ c v, w_fs w !! p = Some (File true c)
                                           ∧ json_loads c = Some v) ps
            | None => True
            end) as (td & evs4 & E4 & Htd).
  { destruct (list_truthy tools).
    - destruct (mapM_tool_path_eval tools (logs evs3 w) Htools)
        as (ps & evs & E & Hps & _).
      rewrite (bind_eval_ok _ _ _ _ _ E), logs_logs.
      by eexists (Some ps), _.
    - by eexists None, _. }
  unfold tool_path in E4. rewrite (bind_eval_ok _ _ _ _ _ E4).
 
  (* the tokenizer *)
  rewrite (bind_eval_ok _ _ _ _ _ (os_path_exists_eval _ _)). cbn [w_fs logs].
  rewrite Hfs2, bool_decide_eq_true_2 by eauto. cbn [andb].
  set (self0 := Build_InferenceProfile _ _ _ _ _ _ _ _ _ _ _ _).
  assert (∃ self1 evs6,
            (if load_tokenizer_flag
             then let* tk := from_pretrained loader (os_path_dirname p2) in
                  ret (set_tokenizer tk self0)
             else ret self0) (logs [EvExists p2] (logs evs4 w))
            = (Ok self1, logs evs6 w)) as (self1 & evs6 & E6).
  { destruct load_tokenizer_flag eqn:Hfl.
    - destruct (Hloader eq_refl) as (d & tk & Hd & Hl).
      unfold tokenizer_dir in Hd.
      destruct (w_env w !! "MODEL_CONFIG_DIR") as [d0|] eqn:Henv; [|done].
      cbn in Hd, Hp2. injection Hd as <-. rewrite <- Hp2 in Hl.
      erewrite bind_eval_ok;
        [|rewrite from_pretrained_eval; cbn [w_fs logs]; by rewrite Hl].
      rewrite !logs_logs. by eexists _, _.
    - rewrite logs_logs. by eexists _, _. }
  cbn [_load_tokenizer_flag self0].
  rewrite (bind_eval_ok _ _ _ _ _ E6).
  (* the tokenizer configuration *)
  rewrite (bind_eval_ok _ _ _ _ _ (os_path_exists_eval _ _)). cbn [w_fs logs].
  rewrite Hfs1, bool_decide_eq_true_2 by eauto.
  erewrite bind_eval_ok;
    [|erewrite bind_eval_ok; [done|]; by eapply json_load_eval].
  rewrite !logs_logs.
  (* the system prompt *)
  set (self2 := set_tokenizer_config cfg self1).
  match goal with |- context [logs ?evs w] => set (evs8 := evs) end.
  assert (∃ self3 evs9,
            match sp with
            | Some p =>
                if str_truthy p
                then let* s := read_file p in ret (set_system_prompt s self2)
                else ret self2
            | None => ret self2
            end (logs evs8 w) = (Ok self3, logs evs9 w))
    as (self3 & evs9 & E9).
  { destruct sp as [p|]; [|by eexists _, _].
    destruct (str_truthy p); [|by eexists _, _].
    destruct Hsp as (s & Hs).
    erewrite bind_eval_ok; [|by apply read_file_eval].
    rewrite logs_logs. by eexists _, _. }
  rewrite (bind_eval_ok _ _ _ _ _ E9).
  (* the tools *)
  assert (∃ self4 evs10,
            match td with
            | Some ps =>
                if list_truthy ps
                then let* docs := mapM json_load ps in ret (set_tools docs self3)
                else ret self3
            | None => ret self3
            end (logs evs9 w) = (Ok self4, logs evs10 w))
    as (self4 & evs10 & E10).
  { destruct td as [ps|]; [|by eexists _, _].
    destruct (list_truthy ps); [|by eexists _, _].
    destruct (mapM_json_load_eval ps (logs evs9 w) Htd) as (docs & evs & E).
    rewrite (bind_eval_ok _ _ _ _ _ E), logs_logs. by eexists _, _. }
  rewrite (bind_eval_ok _ _ _ _ _ E10). by eexists _, _.
Qed.



(** X6. A profile constructed with [load_tokenizer_flag=True] has a
    tokenizer: [get_token_count] returns the number of [input_ids] of the
    text and never raises. *)
Theorem get_token_count_with_tokenizer
    (w w' : world) (self : InferenceProfile) :
  load_tokenizer_flag = true →
  new w = (Ok self, w') →
  ∃ tk, _tokenizer self = Some tk
      ∧ ∀ text w2, get_token_count self text w2 = (Ok (length (tk text)), w2).
Proof.
  intros Hfl H. apply init_ok_inversion in H
    as ((_ & _ & _ & _ & _ & _ & _ & Hflag) & _ & _ & Htk & _).
  rewrite Hfl in Htk, Hflag. destruct Htk as (dir & tk & _ & _ & Htk).
  exists tk. split; [done|]. intros text w2.
  unfold get_token_count. by rewrite Hflag, Htk.
Qed.

End ConstructionOutcome.



Lemma get_token_count_with_tokenizer_witness :
  let new := __init__ Sample.load_tokenizer "engine" "url" "model" "m" "key" ""
               [] [] true in
  ∃ self w', new Sample.w0 = (Ok self, w')
    ∧ get_token_count self "abc" w' = (Ok 3, w').
Proof.
  intros new.
  destruct (new Sample.w0) as [[self| |] w'] eqn:E;
    [|vm_compute in E; discriminate E..].
  exists self, w'. split; [done|].
  destruct (get_token_count_with_tokenizer _ _ _ _ _ _ _ _ _ _ _ _ _
              eq_refl E) as (tk & Htk & Hcount).
  rewrite Hcount. do 2 f_equal.
  apply (f_equal (λ r, match r.1 with
                       | Ok p => (λ f : tokenizer, length (f "abc")) <$> _tokenizer p
                       | _ => None
                       end)) in E.
  cbn [fst] in E. rewrite Htk in E. cbn in E.
  vm_compute in E. by injection E.
Defined.

(** ** Construction and loading are read-only, and resolve before they read *)

Lemma emits_ret P {A} (a : A) : emits P (ret a).
Proof. intros w r w' [= <- <-]. exists []. by rewrite logs_nil. Qed.

Lemma emits_raise P {A} c msg : emits P (@raise A c msg).
Proof. intros w r w' [= <- <-]. exists []. by rewrite logs_nil. Qed.

Lemma emits_get_world P : emits P get_world.
Proof. intros w r w' [= <- <-]. exists []. by rewrite logs_nil. Qed.

Lemma emits_tell (P : event → Prop) e : P e → emits P (tell e).
Proof. intros He w r w' [= <- <-]. exists [e]. split; [done|]. by constructor. Qed.

Lemma emits_bind P {A B} (m : M A) (k : A → M B) :
  emits P m → (∀ a, emits P (k a)) → emits P (bind m k).
Proof.
  intros Hm Hk w r w'. unfold bind.
  destruct (m w) as [r1 w1] eqn:E1.
  destruct (Hm _ _ _ E1) as (evs1 & -> & Hn1).
  destruct r1 as [a| e |].
  - intros E2. destruct (Hk a _ _ _ E2) as (evs2 & -> & Hn2).
    exists (evs1 ++ evs2). rewrite logs_logs. split; [done|].
    by apply Forall_app.
  - intros [= <- <-]. eauto.
  - intros [= <- <-]. eauto.
Qed.

Lemma emits_mapM P {A B} (f : A → M B) l :
  (∀ a, emits P (f a)) → emits P (mapM f l).
Proof.
  intros Hf. induction l as [|x l IH]; cbn.
  - apply emits_ret.
  - apply emits_bind; [done|]. intros y.
    apply emits_bind; [done|]. intros ys. apply emits_ret.
Qed.

Ltac emits_step :=
  first
    [ apply emits_bind; [|intros ?]
    | apply emits_ret
    | apply emits_raise
    | apply emits_get_world
    | apply emits_tell; reflexivity
    | match goal with
      | |- emits _ (match ?x with _ => _ end) => destruct x
      end ].

Lemma emits_resolver var name : emits no_write (get_full_resource_path var name).
Proof.
  unfold get_full_resource_path, os_getenv, file_sanity_check, os_path_isfile,
    os_access_R_OK, os_path_getsize.
  repeat emits_step.
Qed.

Lemma emits_read_file p : emits no_write (read_file p).
Proof. unfold read_file. repeat emits_step. Qed.

Lemma emits_json_load p : emits no_write (json_load p).
Proof.
  unfold json_load. apply emits_bind; [apply emits_read_file|].
  intros text. repeat emits_step.
Qed.

Lemma emits_exists p : emits no_write (os_path_exists p).
Proof. unfold os_path_exists. repeat emits_step. Qed.

Lemma emits_from_pretrained loader dir :
  emits no_write (from_pretrained loader dir).
Proof.
  unfold from_pretrained. apply emits_bind; [emits_step|].
  intros _. apply emits_bind; [emits_step|]. intros w0.
  destruct (loader _ _); [|apply emits_ret].
  intros w r w' [= <- <-]. exists []. by rewrite logs_nil.
Qed.

Lemma emits_load_files loader self : emits no_write (_load_files loader self).
Proof.
  unfold _load_files.
  apply emits_bind; [apply emits_resolver|]. intros cp.
  apply emits_bind; [apply emits_resolver|]. intros tp.
  apply emits_bind.
  { destruct (str_truthy _); [|apply emits_ret].
    apply emits_bind; [apply emits_resolver|]. intros; apply emits_ret. }
  intros sp.
  apply emits_bind.
  { destruct (list_truthy _); [|apply emits_ret].
    apply emits_bind; [|intros; apply emits_ret].
    apply emits_mapM. intros tool. apply emits_resolver. }
  intros tools.
  apply emits_bind; [apply emits_exists|]. intros e1.
  apply emits_bind.
  { destruct (_ && _); [|apply emits_ret].
    apply emits_bind; [apply emits_from_pretrained|].
    intros; apply emits_ret. }
  intros self1.
  apply emits_bind; [apply emits_exists|]. intros e2.
  apply emits_bind.
  { destruct e2; [|apply emits_ret].
    apply emits_bind; [apply emits_json_load|]. intros; apply emits_ret. }
  intros self2.
  apply emits_bind.
  { destruct sp as [p|]; [destruct (str_truthy p)|]; try apply emits_ret.
    apply emits_bind; [apply emits_read_file|]. intros; apply emits_ret. }
  intros self3.
  apply emits_bind; [|intros; apply emits_ret].
  destruct tools as [ps|]; [destruct (list_truthy ps)|]; try apply emits_ret.
  apply emits_bind; [|intros; apply emits_ret].
  apply emits_mapM. intros; apply emits_json_load.
Qed.

Lemma emits_kwarg {A} kwargs name (conv : json → option A) default :
  emits no_write (kwarg kwargs name conv default).
Proof. unfold kwarg. repeat emits_step. Qed.

Lemma emits_call_cls loader doc : emits no_write (call_cls loader doc).
Proof.
  unfold call_cls. destruct doc; try apply emits_raise.
  destruct (filter _ _); [|apply emits_raise].
  repeat (apply emits_bind; [apply emits_kwarg|intros ?]).
  apply emits_load_files.
Qed.

(** X7. Constructing a profile and loading one are read-only: whatever the
    outcome, the environment, the file system and the list objects are as
    before, and the trace has grown by events that create or write
    nothing. *)
Theorem construction_is_read_only
    (loader : gmap string node → string → exn + tokenizer)
    (engine_name base_url model_id config_folder_name api_key : string)
    (system_prompt_file : string) (tools : list json)
    (optional_hyper_parameters : pydict) (load_tokenizer_flag : bool)
    (profile_name : string) :
  emits (λ e, is_write_event e = false)
    (__init__ loader engine_name base_url model_id config_folder_name api_key
       system_prompt_file tools optional_hyper_parameters load_tokenizer_flag)
  ∧ emits (λ e, is_write_event e = false) (load_profile loader profile_name).
Proof.
  split.
  - apply emits_load_files.
  - unfold load_profile.
    apply emits_bind; [apply emits_resolver|]. intros p.
    apply emits_bind; [apply emits_json_load|]. intros doc.
    apply emits_call_cls.
Qed.

Lemma resolver_cases_events var name w :
  (∃ p evs, get_full_resource_path var name w = (Ok p, logs evs w)
          ∧ Forall resolver_only evs ∧ valid_resource w var name)
  ∨ (∃ e evs, get_full_resource_path var name w = (Raise e, logs evs w)
            ∧ Forall resolver_only evs).
Proof.
  rewrite get_full_resource_path_eval.
  destruct (w_env w !! var) as [dir|] eqn:Henv; cbn.
  - destruct (w_fs w !! _) as [[[] c|]|] eqn:Hfs; try case_bool_decide;
      try (right; eexists _, _; split; [done|]; by repeat constructor).
    left. eexists _, _. split; [done|]. split; [by repeat constructor|].
    by exists dir, c.
  - right. eexists _, _. split; [done|]. by repeat constructor.
Qed.

Lemma mapM_tool_path_cases tools w :
  (∃ ps evs, mapM tool_path tools w = (Ok ps, logs evs w)
           ∧ Forall resolver_only evs
           ∧ Forall (λ tool, valid_resource w "TOOL_DEFINITIONS_DIR"
                               (py_str tool +:+ ".json")) tools)
  ∨ (∃ e evs, mapM tool_path tools w = (Raise e, logs evs w)
            ∧ Forall resolver_only evs).
Proof.
  revert w. induction tools as [|t l IH]; intros w; cbn [mapM].
  - left. exists [], []. rewrite logs_nil. by repeat split.
  - destruct (resolver_cases_events "TOOL_DEFINITIONS_DIR"
                (py_str t +:+ ".json") w)
      as [(p & evs & E & Hevs & Hv)|(e & evs & E & Hevs)].
    + rewrite (bind_eval_ok (tool_path t) _ _ _ _ E).
      destruct (IH (logs evs w))
        as [(ps & evs' & E' & Hevs' & Hall)|(e & evs' & E' & Hevs')].
      * left. rewrite (bind_eval_ok _ _ _ _ _ E'), logs_logs.
        eexists _, _. split; [done|]. split; [by apply Forall_app|].
        by constructor.
      * right. rewrite (bind_eval_raise _ _ _ _ _ E'), logs_logs.
        eexists _, _. split; [done|]. by apply Forall_app.
    + right. rewrite (bind_eval_raise (tool_path t) _ _ _ _ E).
      by eexists _, _.
Qed.

(** X8. Resolution comes before any loading.  Either every requested
    resource is valid (both tokenizer files, the prompt file if one is
    named, the definition of every listed tool), or the construction
    raises, and all it has done by then are checks of the resolver: the
    environment was read and files were tested and measured, but no file
    was opened and no tokenizer was loaded. *)
Theorem init_resolves_before_loading
    (loader : gmap string node → string → exn + tokenizer)
    (engine_name base_url model_id config_folder_name api_key : string)
    (system_prompt_file : string) (tools : list json)
    (optional_hyper_parameters : pydict) (load_tokenizer_flag : bool)
    (w : world) :
  (valid_resource w "MODEL_CONFIG_DIR"
     (os_path_join config_folder_name "tokenizer_config.json")
   ∧ valid_resource w "MODEL_CONFIG_DIR"
       (os_path_join config_folder_name "tokenizer.json")
   ∧ (system_prompt_file = ""
      ∨ valid_resource w "SYSTEM_PROMPTS_DIR" (system_prompt_file +:+ ".txt"))
   ∧ Forall (λ tool, valid_resource w "TOOL_DEFINITIONS_DIR"
                       (py_str tool +:+ ".json")) tools)
  ∨ ∃ e evs,
      __init__ loader engine_name base_url model_id config_folder_name api_key
        system_prompt_file tools optional_hyper_parameters load_tokenizer_flag
        w
      = (Raise e, logs evs w)
      ∧ Forall (λ ev, is_resolver_event ev = true) evs.
Proof.
  unfold __init__, _load_files; cbn.
  destruct (resolver_cases_events "MODEL_CONFIG_DIR"
              (os_path_join config_folder_name "tokenizer_config.json") w)
    as [(p1 & evs1 & E1 & Hevs1 & Hv1)|(e & evs & E & Hevs)];
    [|right; rewrite (bind_eval_raise _ _ _ _ _ E); eauto].
  rewrite (bind_eval_ok _ _ _ _ _ E1).
  destruct (resolver_cases_events "MODEL_CONFIG_DIR"
              (os_path_join config_folder_name "tokenizer.json") (logs evs1 w))
    as [(p2 & evs2 & E2 & Hevs2 & Hv2)|(e & evs & E & Hevs)];
    [|right; rewrite (bind_eval_raise _ _ _ _ _ E), logs_logs;
      eexists _, _; split; [done|]; by apply Forall_app].
  rewrite (bind_eval_ok _ _ _ _ _ E2), logs_logs.
  assert (Forall resolver_only (evs1 ++ evs2)) as Hevs12 by (by apply Forall_app).
  destruct (str_truthy system_prompt_file) eqn:Ht.
  - destruct (resolver_cases_events "SYSTEM_PROMPTS_DIR"
                (system_prompt_file +:+ ".txt") (logs (evs1 ++ evs2) w))
      as [(p3 & evs3 & E3 & Hevs3 & Hv3)|(e & evs & E & Hevs)].
    + erewrite bind_eval_ok; [|by erewrite bind_eval_ok]. rewrite logs_logs.
      destruct (list_truthy tools) eqn:Hlt.
      * destruct (mapM_tool_path_cases tools (logs ((evs1 ++ evs2) ++ evs3) w))
          as [(ps & evs4 & E4 & Hevs4 & Hall)|(e & evs & E & Hevs)].
        -- left. split; [done|]. split; [done|]. split; [by right|done].
        -- right. erewrite bind_eval_raise; [|by apply bind_eval_raise].
           rewrite logs_logs. eexists _, _. split; [done|].
           repeat (apply Forall_app; split); done.
      * left. split; [done|]. split; [done|]. split; [by right|].
        destruct tools; [constructor|done].
    + right. erewrite bind_eval_raise; [|by apply bind_eval_raise].
      rewrite logs_logs. eexists _, _. split; [done|]. by apply Forall_app.
  - assert (system_prompt_file = "") as Hf.
    { unfold str_truthy in Ht. apply negb_false_iff in Ht.
      by apply String.eqb_eq in Ht. }
    erewrite bind_eval_ok; [|done].
    destruct (list_truthy tools) eqn:Hlt.
    + destruct (mapM_tool_path_cases tools (logs (evs1 ++ evs2) w))
        as [(ps & evs4 & E4 & Hevs4 & Hall)|(e & evs & E & Hevs)].
      * left. split; [done|]. split; [done|]. split; [by left|done].
      * right. erewrite bind_eval_raise; [|by apply bind_eval_raise].
        rewrite logs_logs. eexists _, _. split; [done|]. by apply Forall_app.
    + left. split; [done|]. split; [done|]. split; [by left|].
      destruct tools; [constructor|done].
Qed.

(** ** [load_profile] rejects a bad document before it constructs *)

Lemma kwarg_cases {A} kwargs name (conv : json → option A) default w :
  (∃ a, kwarg kwargs name conv default w = (Ok a, w))
  ∨ (∃ msg, kwarg kwargs name conv default w = (Raise (Exn TypeError msg), w)).
Proof.
  unfold kwarg. destruct (dict_get kwargs name) as [v|].
  - destruct (conv v); [left|right]; by eexists.
  - destruct default; [left|right]; by eexists.
Qed.

Lemma kwarg_missing {A} kwargs name (conv : json → option A) w :
  dict_get kwargs name = None →
  ∃ msg, kwarg kwargs name conv None w = (Raise (Exn TypeError msg), w).
Proof. intros H. unfold kwarg. rewrite H. by eexists. Qed.

Lemma call_cls_missing_required loader kwargs k w :
  k ∈ required_params → dict_get kwargs k = None →
  ∃ msg, call_cls loader (JObj kwargs) w = (Raise (Exn TypeError msg), w).
Proof.
  intros Hk Hmiss. unfold call_cls.
  destruct (filter _ _); [|by eexists].
  unfold required_params in Hk.
  destruct (kwarg_cases kwargs "engine_name" as_str None w)
    as [(a1 & E1)|(m & E)]; [|rewrite (bind_eval_raise _ _ _ _ _ E); eauto].
  destruct (kwarg_cases kwargs "base_url" as_str None w)
    as [(a2 & E2)|(m & E2)].
  2: { rewrite (bind_eval_ok _ _ _ _ _ E1), (bind_eval_raise _ _ _ _ _ E2).
       eauto. }
  destruct (kwarg_cases kwargs "model_id" as_str None w)
    as [(a3 & E3)|(m & E3)].
  2: { rewrite (bind_eval_ok _ _ _ _ _ E1), (bind_eval_ok _ _ _ _ _ E2),
         (bind_eval_raise _ _ _ _ _ E3). eauto. }
  destruct (kwarg_cases kwargs "config_folder_name" as_str None w)
    as [(a4 & E4)|(m & E4)].
  2: { rewrite (bind_eval_ok _ _ _ _ _ E1), (bind_eval_ok _ _ _ _ _ E2),
         (bind_eval_ok _ _ _ _ _ E3), (bind_eval_raise _ _ _ _ _ E4). eauto. }
  exfalso.
  repeat (apply elem_of_cons in Hk as [->|Hk]);
    [| | | |by apply elem_of_nil in Hk];
    match goal with
    | E : kwarg kwargs _ _ _ _ = (Ok _, _) |- _ =>
        destruct (kwarg_missing kwargs _ as_str w Hmiss) as [m Em];
        rewrite Em in E; discriminate E
    end.
Qed.

Lemma call_cls_unknown_key loader kwargs k w :
  k ∈ map fst kwargs → k ∉ param_names →
  ∃ msg, call_cls loader (JObj kwargs) w = (Raise (Exn TypeError msg), w).
Proof.
  intros Hin Hk. unfold call_cls.
  destruct (filter _ _) as [|k' l] eqn:Hf; [|by eexists].
  exfalso. assert (k ∈ filter (λ k, k ∉ param_names) (map fst kwargs)) as Hkf
    by (by apply list_elem_of_filter).
  rewrite Hf in Hkf. by apply elem_of_nil in Hkf.
Qed.



(** ** Repeated saves *)

Lemma candidate_inj_all dir name i j :
  candidate dir name i = candidate dir name j → i = j.
Proof.
  assert (∀ k, candidate dir name 0 ≠ candidate dir name (S k)) as H0.
  { intros k H. unfold candidate, candidate_name in H.
    apply os_path_join_inj in H; [|by destruct name].
    apply string_app_inj_r in H.
    apply (f_equal String.length) in H.
    rewrite !string_app_length in H. cbn in H. lia. }
  destruct i as [|i], j as [|j]; intros H.
  - done.
  - by destruct (H0 j).
  - by destruct (H0 i).
  - f_equal. by eapply candidate_inj.
Qed.

(** One call of [save_profile] when the first unused candidate is
    known. *)
Lemma save_profile_eval self name dir k w :
  w_env w !! "PROFILES_DIR" = Some dir → dir ≠ "" →
  w_fs w !! dir = Some Dir →
  (∀ i, i < k → is_Some (w_fs w !! candidate dir name i)) →
  w_fs w !! candidate dir name k = None →
  ∃ evs, save_profile self name w
         = (Ok tt,
            World (w_env w)
              (<[candidate dir name k := File true (__str__ self)]> (w_fs w))
              (w_heap w) (w_trace w ++ evs)).
Proof.
  intros Henv Hdir Hd Hbusy Hfree.
  unfold save_profile, os_getenv.
  unfold bind at 1 2 3; unfold tell, get_world, ret; cbn.
  rewrite Henv. destruct dir as [|c dir']; [done|].
  set (dir := String c dir') in *.
  assert (os_makedirs dir (log (EvGetenv "PROFILES_DIR") w)
          = (Ok tt, logs [EvMakedirs dir] (log (EvGetenv "PROFILES_DIR") w)))
    as Hmk.
  { unfold os_makedirs, bind, tell, get_world; cbn. by rewrite Hd. }
  rewrite (bind_eval_ok _ _ _ _ _ Hmk). unfold bind at 1; cbn.
  set (w1 := logs [EvMakedirs dir] (log (EvGetenv "PROFILES_DIR") w)).
  destruct (free_candidate_exists (w_fs w1) dir name) as (i & Hi & Hfree').
  destruct (while_exists_spec (S (S (size (w_fs w1)))) dir name 0 w1)
    as (k' & _ & Hbusy' & Hk' & Hrun); [exists i; split; [lia|done]|].
  change (w_fs w1) with (w_fs w) in *.
  assert (k' = k) as ->.
  { destruct (Nat.lt_trichotomy k' k) as [Hlt|[->|Hlt]]; [|done|].
    - destruct (Hbusy k' Hlt) as [n Hn]. congruence.
    - destruct (Hbusy' k ltac:(lia)) as [n Hn]. congruence. }
  erewrite bind_eval_ok; [|exact Hrun].
  unfold json_dump, write_file, print.
  unfold bind, tell, get_world; cbn. rewrite Hk'; cbn.
  unfold logs, log, set_fs; cbn. rewrite <- !app_assoc. by eexists.
Qed.



(** * The JSON codec: decoding what the encoders write *)

Lemma chars_app (a b : string) : chars (a +:+ b) = chars a ++ chars b.
Proof. induction a as [|c a IH]; [done|]. simpl. f_equal. exact IH. Qed.

Lemma chars_length (a : string) : length (chars a) = String.length a.
Proof. induction a as [|c a IH]; [done|]. simpl. f_equal. exact IH. Qed.

(** ** White space *)

Lemma skip_ws_app (s : string) (rest : list ascii) :
  ws_only s → skip_ws (chars s ++ rest) = skip_ws rest.
Proof.
  unfold ws_only. induction (chars s) as [|c l IH]; intros H; [done|].
  inversion H as [|? ? Hc Hl]; subst. cbn. rewrite Hc. by apply IH.
Qed.

Lemma skip_ws_stop (c : ascii) (rest : list ascii) :
  is_ws c = false → skip_ws (c :: rest) = c :: rest.
Proof. intros H. cbn. by rewrite H. Qed.

Lemma ws_only_spaces (n : nat) : ws_only (spaces n).
Proof. unfold ws_only. induction n as [|n IH]; cbn; by constructor. Qed.

Lemma ws_only_newline_indent (level : nat) : ws_only (newline_indent level).
Proof. unfold ws_only, newline_indent. cbn. constructor; [done|]. apply ws_only_spaces. Qed.

Lemma layout_ok_indent4 : layout_ok indent4.
Proof. intros level. cbn. repeat split; apply ws_only_newline_indent. Qed.

Lemma layout_ok_one_line : layout_ok one_line.
Proof.
  intros level. unfold ws_only. cbn.
  split; [constructor|]. split; [|constructor]. by repeat constructor.
Qed.

(** ** Strings *)

Lemma all_ascii (P : ascii → Prop) :
  (∀ b0 b1 b2 b3 b4 b5 b6 b7 : bool, P (Ascii b0 b1 b2 b3 b4 b5 b6 b7)) → ∀ c, P c.
Proof. intros H [b0 b1 b2 b3 b4 b5 b6 b7]. apply H. Qed.

Lemma parse_string_body_escape_char (c : ascii) (tl : list ascii) :
  parse_string_body (chars (escape_char c) ++ tl)
  = '(str, rest) ← parse_string_body tl; Some (String c str, rest).
Proof.
  revert c. apply all_ascii.
  intros [] [] [] [] [] [] [] []; reflexivity.
Qed.

Lemma parse_string_body_escape (s : string) (rest : list ascii) :
  parse_string_body (chars (escape s) ++ dquote :: rest) = Some (s, rest).
Proof.
  induction s as [|c s IH]; [done|].
  cbn [escape]. rewrite chars_app, <- app_assoc, parse_string_body_escape_char, IH.
  done.
Qed.

Lemma chars_json_quote (s : string) :
  chars (json_quote s) = dquote :: chars (escape s) ++ [dquote].
Proof. unfold json_quote. cbn. by rewrite chars_app. Qed.

(** ** Numbers *)

Lemma digit_value_pretty_N_char (d : N) :
  (d < 10)%N → digit_value (pretty_N_char d) = Some d.
Proof.
  intros H.
  assert (d = 0 ∨ d = 1 ∨ d = 2 ∨ d = 3 ∨ d = 4 ∨ d = 5 ∨ d = 6 ∨ d = 7
          ∨ d = 8 ∨ d = 9)%N as Hd by lia.
  repeat (destruct Hd as [->|Hd]; [reflexivity|]). by subst.
Qed.

Lemma parse_digits_stop (acc : N) (rest : list ascii) :
  number_end rest → parse_digits acc rest = (acc, rest).
Proof. destruct rest as [|x rest]; [done|]. intros [H _]. cbn. by rewrite H. Qed.

Lemma parse_digits_pretty_N_go (x : N) :
  ∃ m : N, ∀ acc s rest,
    parse_digits acc (chars (pretty_N_go x s) ++ rest)
    = parse_digits (acc * m + x) (chars s ++ rest).
Proof.
  induction (N.lt_wf_0 x) as [x _ IH].
  assert (x = 0 ∨ 0 < x)%N as [->|Hx] by lia.
  - exists 1%N. intros acc s rest. rewrite pretty_N_go_0. f_equal. lia.
  - destruct (IH (x `div` 10)%N) as [m Hm]; [by apply N.div_lt|].
    exists (10 * m)%N. intros acc s rest.
    rewrite pretty_N_go_step, Hm by done. cbn [String.list_ascii_of_string app parse_digits].
    rewrite digit_value_pretty_N_char by (apply N.mod_lt; lia).
    f_equal. pose proof (N.div_mod x 10). lia.
Qed.

Lemma pretty_N_go_head (x : N) (s : string) :
  (0 < x)%N →
  ∃ c tl d, pretty_N_go x s = String c tl ∧ digit_value c = Some d ∧ d ≠ 0%N.
Proof.
  revert s. induction (N.lt_wf_0 x) as [x _ IH]; intros s Hx.
  rewrite pretty_N_go_step by done.
  assert (x < 10 ∨ 10 ≤ x)%N as [Hs|Hl] by lia.
  - rewrite N.div_small, pretty_N_go_0 by done. rewrite N.mod_small by done.
    exists (pretty_N_char x), s, x. split; [done|].
    split; [by apply digit_value_pretty_N_char | lia].
  - apply IH; [by apply N.div_lt|]. apply N.div_str_pos. lia.
Qed.

Lemma parse_nat_literal_pretty (n : N) (rest : list ascii) :
  number_end rest →
  parse_nat_literal (chars (pretty n) ++ rest) = Some (n, rest)
  ∧ ∃ c tl d, chars (pretty n) = c :: tl ∧ digit_value c = Some d.
Proof.
  intros Hend. unfold pretty, pretty_N. case_decide as Hn.
  - subst n. split; [|by exists "0"%char, [], 0%N].
    cbn [String.list_ascii_of_string app parse_nat_literal].
    change (digit_value "0") with (Some 0%N). cbn [mbind option_bind].
    rewrite parse_digits_stop by done.
    destruct rest as [|x rest]; [done|]. destruct Hend as [Hd Hf].
    rewrite Hf, Hd. cbn. by rewrite andb_false_r.
  - destruct (pretty_N_go_head n "") as (c & tl & d & Ego & Hc & Hd); [lia|].
    split; [|exists c, (chars tl), d; by rewrite Ego].
    destruct (parse_digits_pretty_N_go n) as [m Hm].
    specialize (Hm 0%N "" rest). rewrite Ego in Hm |- *.
    cbn [String.list_ascii_of_string app parse_digits] in Hm.
    rewrite Hc in Hm. cbn [String.list_ascii_of_string app parse_nat_literal].
    rewrite Hc. cbn [mbind option_bind].
    replace (10 * 0 + d)%N with d in Hm by lia. rewrite Hm.
    replace (0 * m + n)%N with n by lia. rewrite parse_digits_stop by done.
    assert ((match rest with
             | [] => false
             | x :: _ => Ascii.eqb x "." || Ascii.eqb x "e" || Ascii.eqb x "E"
             end) = false) as ->.
    { destruct rest; [done|]. by destruct Hend. }
    assert ((match chars tl ++ rest with
             | [] => false
             | x :: _ => bool_decide (d = 0%N) && bool_decide (is_Some (digit_value x))
             end) = false) as ->; [|done].
    destruct (chars tl ++ rest); [done|]. by rewrite bool_decide_eq_false_2.
Qed.

Lemma digit_not_dash (c : ascii) (d : N) :
  digit_value c = Some d → Ascii.eqb c "-" = false.
Proof.
  revert c. refine (all_ascii _ _).
  intros [] [] [] [] [] [] [] [] H;
    solve [reflexivity | vm_compute in H; discriminate H].
Qed.

Lemma parse_number_pretty (z : Z) (rest : list ascii) :
  number_end rest →
  parse_number (chars (pretty z) ++ rest) = Some (JInt z, rest).
Proof.
  intros Hend. destruct z as [|p|p]; unfold pretty, pretty_Z.
  - destruct (parse_nat_literal_pretty 0 rest Hend) as [H _].
    change (pretty 0%N) with "0" in H. cbn [String.list_ascii_of_string app] in *.
    unfold parse_number. change (Ascii.eqb "0" "-") with false. cbn iota.
    by rewrite H.
  - destruct (parse_nat_literal_pretty (N.pos p) rest Hend) as [H (c & tl & d & E & Hc)].
    change (pretty p) with (pretty (N.pos p)). rewrite E in H |- *.
    cbn [app] in *. unfold parse_number. rewrite (digit_not_dash _ _ Hc), H. done.
  - destruct (parse_nat_literal_pretty (N.pos p) rest Hend) as [H _].
    change (pretty p) with (pretty (N.pos p)). rewrite chars_app.
    cbn [String.list_ascii_of_string app]. unfold parse_number.
    change (Ascii.eqb "-" "-") with true. cbn iota. by rewrite H.
Qed.

Lemma pretty_Z_head (z : Z) :
  ∃ c tl, chars (pretty z) = c :: tl
          ∧ (c = "-"%char ∨ is_Some (digit_value c)).
Proof.
  destruct z as [|p|p]; unfold pretty, pretty_Z.
  - exists "0"%char, []. split; [done|]. right. by eexists.
  - destruct (parse_nat_literal_pretty (N.pos p) [] I) as [_ (c & tl & d & E & Hc)].
    exists c, tl. split; [done|]. right. by eexists.
  - rewrite chars_app. exists "-"%char, (chars (pretty p)). split; [done|]. by left.
Qed.

(** ** Values *)

Lemma json_ind' (P : json → Prop) :
  P JNull → (∀ b, P (JBool b)) → (∀ z, P (JInt z)) → (∀ s, P (JStr s)) →
  (∀ l, Forall P l → P (JList l)) →
  (∀ kvs, Forall (λ kv, P kv.2) kvs → P (JObj kvs)) →
  ∀ v, P v.
Proof.
  intros Hnull Hbool Hint Hstr Hlist Hobj. fix IH 1. intros [|b|z|s|l|kvs].
  - exact Hnull.
  - apply Hbool.
  - apply Hint.
  - apply Hstr.
  - apply Hlist. revert l. fix IHl 1. intros [|x l]; constructor.
    + apply IH.
    + apply IHl.
  - apply Hobj. revert kvs. fix IHl 1. intros [|[k x] l]; constructor.
    + apply IH.
    + apply IHl.
Qed.

Lemma number_end_ws (s : string) (c : ascii) (rest : list ascii) :
  ws_only s → number_end (c :: rest) → number_end (chars s ++ c :: rest).
Proof.
  unfold ws_only. destruct (chars s) as [|x l]; [done|].
  intros H _. inversion H as [|? ? Hx _]; subst. clear H. cbn. revert x Hx.
  refine (all_ascii _ _).
  intros [] [] [] [] [] [] [] [] Hx;
    solve [ vm_compute in Hx; discriminate Hx | split; reflexivity ].
Qed.

Lemma parse_value_ws (fuel : nat) (pre : string) (s : list ascii) :
  ws_only pre → parse_value fuel (chars pre ++ s) = parse_value fuel s.
Proof. intros H. destruct fuel; [done|]. cbn [parse_value]. by rewrite skip_ws_app. Qed.

Lemma parse_value_space (fuel : nat) (s : list ascii) :
  parse_value fuel (" "%char :: s) = parse_value fuel s.
Proof. apply (parse_value_ws fuel " " s). by repeat constructor. Qed.

Lemma number_start_char (c : ascii) :
  c = "-"%char ∨ is_Some (digit_value c) →
  value_start c
  ∧ Ascii.eqb c dquote = false ∧ Ascii.eqb c "[" = false
  ∧ Ascii.eqb c "{" = false ∧ Ascii.eqb c "n" = false
  ∧ Ascii.eqb c "t" = false ∧ Ascii.eqb c "f" = false.
Proof.
  revert c. refine (all_ascii _ _).
  intros [] [] [] [] [] [] [] [] [H|[d H]];
    solve [ discriminate H | vm_compute in H; discriminate H
          | repeat split; reflexivity ].
Qed.

Lemma encode_with_head (lay : layout) (level : nat) (v : json) :
  ∃ c tl, chars (encode_with lay level v) = c :: tl ∧ value_start c.
Proof.
  destruct v as [|[]|z|s|[|x l]|[|kv kvs]];
    try (cbn; eexists _, _; split; [reflexivity|by repeat split]).
  destruct (pretty_Z_head z) as (c & tl & E & Hc).
  exists c, tl. split; [exact E|]. by apply number_start_char.
Qed.

Lemma chars_json_quote_app (s : string) (rest : list ascii) :
  chars (json_quote s) ++ rest = dquote :: chars (escape s) ++ dquote :: rest.
Proof. rewrite chars_json_quote. cbn. by rewrite <- app_assoc. Qed.

Lemma expect_app (lit : string) (rest : list ascii) :
  expect lit (chars lit ++ rest) = Some rest.
Proof.
  unfold expect. rewrite take_app_length, drop_app_length.
  by rewrite bool_decide_eq_true_2.
Qed.

Section Decode.
Variable lay : layout.
Hypothesis Hlay : layout_ok lay.

Lemma parse_elements_encode (l : list json) (level : nat) :
  Forall (decodes lay) l → l ≠ [] →
  ∀ fuel pre close rest,
    elements_weight l ≤ fuel → ws_only pre → ws_only close →
    parse_elements fuel
      (chars pre
         ++ chars (str_join ("," +:+ lay_sep lay level)
                     (map (encode_with lay (S level)) l))
         ++ chars close ++ "]"%char :: rest)
    = Some (l, rest).
Proof.
  induction l as [|x l IH]; [done|].
  intros Hall _ fuel pre close rest Hf Hpre Hclose.
  inversion Hall as [|? ? Hx Hl]; subst.
  unfold elements_weight in Hf. simpl in Hf.
  destruct fuel as [|f]; [lia|].
  cbn [parse_elements]. rewrite parse_value_ws by done.
  destruct l as [|y l].
  - cbn [map str_join].
    rewrite (Hx (S level) f (chars close ++ "]"%char :: rest));
      [|cbn in Hf; lia|by apply number_end_ws].
    cbn [mbind option_bind]. rewrite skip_ws_app by done. done.
  - change (str_join ?s (map ?f (x :: y :: l)))
      with (f x +:+ s +:+ str_join s (map f (y :: l))).
    rewrite !chars_app, <- !app_assoc.
    rewrite (Hx (S level) f); [|lia|done].
    cbn [mbind option_bind String.list_ascii_of_string app skip_ws].
    change (is_ws ",") with false. cbn iota.
    change (Ascii.eqb "," ",") with true. cbn iota.
    rewrite (IH Hl); [done|done| |apply Hlay|done].
    unfold elements_weight. lia.
Qed.

Lemma parse_members_encode (kvs : list (string * json)) (level : nat) :
  Forall (λ kv, decodes lay kv.2) kvs → kvs ≠ [] →
  ∀ fuel pre close rest,
    members_weight kvs ≤ fuel → ws_only pre → ws_only close →
    parse_members fuel
      (chars pre
         ++ chars (str_join ("," +:+ lay_sep lay level)
                     (map (fun kv => json_quote (fst kv) +:+ ": "
                                       +:+ encode_with lay (S level) (snd kv))
                          kvs))
         ++ chars close ++ "}"%char :: rest)
    = Some (kvs, rest).
Proof.
  induction kvs as [|[k x] l IH]; [done|].
  intros Hall _ fuel pre close rest Hf Hpre Hclose.
  inversion Hall as [|? ? Hx Hl]; subst. cbn [snd] in Hx.
  unfold members_weight in Hf. simpl in Hf.
  destruct fuel as [|f]; [lia|].
  cbn [parse_members]. rewrite skip_ws_app by done.
  destruct l as [|y l].
  - cbn [map str_join fst snd].
    rewrite !chars_app, <- !app_assoc, chars_json_quote_app.
    cbn [app skip_ws]. change (is_ws dquote) with false. cbn iota.
    change (Ascii.eqb dquote dquote) with true. cbn iota.
    rewrite parse_string_body_escape.
    cbn [mbind option_bind String.list_ascii_of_string app skip_ws].
    change (is_ws ":") with false. cbn iota.
    change (Ascii.eqb ":" ":") with true. cbn iota.
    rewrite parse_value_space.
    rewrite (Hx (S level) f (chars close ++ "}"%char :: rest));
      [|cbn in Hf; lia|by apply number_end_ws].
    cbn [mbind option_bind]. rewrite skip_ws_app by done. done.
  - change (str_join ?s (map ?f ((k, x) :: y :: l)))
      with (f (k, x) +:+ s +:+ str_join s (map f (y :: l))).
    cbn [fst snd].
    rewrite !chars_app, <- !app_assoc, chars_json_quote_app.
    cbn [app skip_ws]. change (is_ws dquote) with false. cbn iota.
    change (Ascii.eqb dquote dquote) with true. cbn iota.
    rewrite parse_string_body_escape.
    cbn [mbind option_bind String.list_ascii_of_string app skip_ws].
    change (is_ws ":") with false. cbn iota.
    change (Ascii.eqb ":" ":") with true. cbn iota.
    rewrite parse_value_space.
    rewrite (Hx (S level) f); [|lia|done].
    cbn [mbind option_bind String.list_ascii_of_string app skip_ws].
    change (is_ws ",") with false. cbn iota.
    change (Ascii.eqb "," ",") with true. cbn iota.
    rewrite (IH Hl); [done|done| |apply Hlay|done].
    unfold members_weight. lia.
Qed.

Lemma skip_ws_encode (pre : string) (level : nat) (v : json) (rest : list ascii) :
  ws_only pre →
  ∃ c tl, skip_ws (chars pre ++ chars (encode_with lay level v) ++ rest) = c :: tl
          ∧ Ascii.eqb c "]" = false ∧ Ascii.eqb c "}" = false.
Proof.
  intros Hpre. rewrite skip_ws_app by done.
  destruct (encode_with_head lay level v) as (c & tl & E & Hws & H1 & H2 & _).
  rewrite E. exists c, (tl ++ rest). cbn. by rewrite Hws.
Qed.

Lemma skip_ws_join (pre sep : string) (level : nat) (x : json) (l : list json)
    (rest : list ascii) :
  ws_only pre →
  ∃ c tl,
    skip_ws (chars pre
               ++ chars (str_join sep (map (encode_with lay level) (x :: l)))
               ++ rest) = c :: tl
    ∧ Ascii.eqb c "]" = false ∧ Ascii.eqb c "}" = false.
Proof.
  intros Hpre. destruct l as [|y l].
  - apply skip_ws_encode, Hpre.
  - change (str_join sep (map ?f (x :: y :: l)))
      with (f x +:+ sep +:+ str_join sep (map f (y :: l))).
    rewrite chars_app, <- app_assoc. apply skip_ws_encode, Hpre.
Qed.

Lemma parse_value_encode (v : json) : decodes lay v.
Proof.
  induction v as [|b|z|s|l IH|kvs IH] using json_ind';
    intros level fuel rest Hf Hend; (destruct fuel as [|f]; [cbn in Hf; lia|]).
  - cbn [encode_with]. cbn [parse_value String.list_ascii_of_string app skip_ws].
    change (is_ws "n") with false. cbn iota.
    change (Ascii.eqb "n" dquote) with false.
    change (Ascii.eqb "n" "[") with false. change (Ascii.eqb "n" "{") with false.
    change (Ascii.eqb "n" "n") with true. cbn iota.
    pose proof (expect_app "ull" rest) as E.
      cbn [String.list_ascii_of_string app] in E. by rewrite E.
  - destruct b; cbn [encode_with];
      cbn [parse_value String.list_ascii_of_string app skip_ws].
    + change (is_ws "t") with false. cbn iota.
      change (Ascii.eqb "t" dquote) with false.
      change (Ascii.eqb "t" "[") with false. change (Ascii.eqb "t" "{") with false.
      change (Ascii.eqb "t" "n") with false. change (Ascii.eqb "t" "t") with true.
      cbn iota. pose proof (expect_app "rue" rest) as E.
      cbn [String.list_ascii_of_string app] in E. by rewrite E.
    + change (is_ws "f") with false. cbn iota.
      change (Ascii.eqb "f" dquote) with false.
      change (Ascii.eqb "f" "[") with false. change (Ascii.eqb "f" "{") with false.
      change (Ascii.eqb "f" "n") with false. change (Ascii.eqb "f" "t") with false.
      change (Ascii.eqb "f" "f") with true.
      cbn iota. pose proof (expect_app "alse" rest) as E.
      cbn [String.list_ascii_of_string app] in E. by rewrite E.
  - cbn [encode_with].
    destruct (pretty_Z_head z) as (c & tl & E & Hc).
    pose proof (parse_number_pretty z rest Hend) as Hnum.
    rewrite E in Hnum |- *.
    destruct (number_start_char c Hc) as ((Hws & _) & H1 & H2 & H3 & H4 & H5 & H6).
    cbn [parse_value app skip_ws]. rewrite Hws, H1, H2, H3, H4, H5, H6. exact Hnum.
  - cbn [encode_with]. rewrite chars_json_quote_app.
    cbn [parse_value app skip_ws]. change (is_ws dquote) with false. cbn iota.
    change (Ascii.eqb dquote dquote) with true. cbn iota.
    by rewrite parse_string_body_escape.
  - destruct l as [|x l].
    { cbn [encode_with parse_value String.list_ascii_of_string app skip_ws].
      change (is_ws "[") with false. cbn iota.
      change (Ascii.eqb "[" dquote) with false. change (Ascii.eqb "[" "[") with true.
      cbn iota. change (is_ws "]") with false. cbn iota.
      by change (Ascii.eqb "]" "]") with true. }
    cbn [encode_with]. rewrite !chars_app, <- !app_assoc.
    cbn [parse_value String.list_ascii_of_string app skip_ws].
    change (is_ws "[") with false. cbn iota.
    change (Ascii.eqb "[" dquote) with false. change (Ascii.eqb "[" "[") with true.
    cbn iota.
    destruct (skip_ws_join (lay_open lay level) ("," +:+ lay_sep lay level)
                (S level) x l
                (chars (lay_close lay level) ++ "]"%char :: rest))
      as (c & tl & E & H1 & _); [apply Hlay|].
    rewrite E, H1.
    rewrite parse_elements_encode;
      [done|done|done|cbn in Hf; unfold elements_weight; cbn; lia
      |apply Hlay|apply Hlay].
  - destruct kvs as [|kv kvs].
    { cbn [encode_with parse_value String.list_ascii_of_string app skip_ws].
      change (is_ws "{") with false. cbn iota.
      change (Ascii.eqb "{" dquote) with false. change (Ascii.eqb "{" "[") with false.
      change (Ascii.eqb "{" "{") with true.
      cbn iota. change (is_ws "}") with false. cbn iota.
      by change (Ascii.eqb "}" "}") with true. }
    cbn [encode_with]. rewrite !chars_app, <- !app_assoc.
    cbn [parse_value String.list_ascii_of_string app skip_ws].
    change (is_ws "{") with false. cbn iota.
    change (Ascii.eqb "{" dquote) with false. change (Ascii.eqb "{" "[") with false.
    change (Ascii.eqb "{" "{") with true. cbn iota.
    rewrite parse_members_encode;
      [|done|done|cbn in Hf; unfold members_weight; cbn; lia|apply Hlay|apply Hlay].
    rewrite skip_ws_app by apply Hlay.
    destruct kv as [k x]. destruct kvs as [|kv' kvs]; cbn [map str_join fst snd];
      rewrite !chars_app, <- !app_assoc, chars_json_quote_app; cbn [app skip_ws];
      change (is_ws dquote) with false; cbn iota;
      change (Ascii.eqb dquote "}") with false; done.
Qed.
End Decode.

Lemma json_encode_layout (v : json) :
  ∀ level, json_encode level v = encode_with indent4 level v.
Proof.
  induction v as [|b|z|s|l IH|kvs IH] using json_ind'; intros level; try done.
  - destruct l as [|x l]; [done|]. cbn [json_encode encode_with indent4 lay_open lay_sep lay_close].
    do 3 f_equal. f_equal. apply map_ext_Forall. eapply Forall_impl; [exact IH|].
    intros y Hy. apply Hy.
  - destruct kvs as [|kv kvs]; [done|]. cbn [json_encode encode_with indent4 lay_open lay_sep lay_close].
    do 3 f_equal. f_equal. apply map_ext_Forall. eapply Forall_impl; [exact IH|].
    intros y Hy. cbn beta. by rewrite <- (Hy (S level)).
Qed.

Lemma json_encode_compact_layout (v : json) :
  ∀ level, json_encode_compact v = encode_with one_line level v.
Proof.
  induction v as [|b|z|s|l IH|kvs IH] using json_ind'; intros level; try done.
  - destruct l as [|x l]; [done|].
    cbn [json_encode_compact encode_with one_line lay_open lay_sep lay_close].
    change ("" +:+ ?x) with x. change ("," +:+ " ") with ", ".
    do 2 f_equal. f_equal. apply map_ext_Forall. eapply Forall_impl; [exact IH|].
    intros y Hy. apply Hy.
  - destruct kvs as [|kv kvs]; [done|].
    cbn [json_encode_compact encode_with one_line lay_open lay_sep lay_close].
    change ("" +:+ ?x) with x. change ("," +:+ " ") with ", ".
    do 2 f_equal. f_equal. apply map_ext_Forall. eapply Forall_impl; [exact IH|].
    intros y Hy. cbn beta. by rewrite <- (Hy (S level)).
Qed.

Lemma elements_weight_bound (sep : string) (f : json → string) (l : list json) :
  Forall (λ x, json_weight x ≤ 2 * text_length (f x)) l →
  elements_weight l ≤ 2 * text_length (str_join ("," +:+ sep) (map f l)) + 1.
Proof.
  induction l as [|x l IH]; intros H; [cbn; lia|].
  inversion H as [|? ? Hx Hl]; subst. specialize (IH Hl).
  unfold elements_weight in *. simpl list_sum.
  destruct l as [|y l].
  - cbn [map str_join]. simpl list_sum. lia.
  - change (str_join ?s (map f (x :: y :: l)))
      with (f x +:+ s +:+ str_join s (map f (y :: l))).
    rewrite !chars_app, !length_app. cbn [String.list_ascii_of_string length].
    simpl list_sum in IH. simpl list_sum. lia.
Qed.

Lemma members_weight_bound (sep : string) (f : json → string)
    (kvs : list (string * json)) :
  Forall (λ kv, json_weight kv.2 ≤ 2 * text_length (f kv.2)) kvs →
  members_weight kvs
  ≤ 2 * text_length
          (str_join ("," +:+ sep)
             (map (λ kv, json_quote (fst kv) +:+ ": " +:+ f (snd kv)) kvs)) + 1.
Proof.
  induction kvs as [|x l IH]; intros H; [cbn; lia|].
  inversion H as [|? ? Hx Hl]; subst. specialize (IH Hl).
  unfold members_weight in *. simpl list_sum.
  destruct l as [|y l].
  - cbn [map str_join]. simpl list_sum. rewrite !chars_app, !length_app. lia.
  - change (str_join ?s (map ?g (x :: y :: l)))
      with (g x +:+ s +:+ str_join s (map g (y :: l))).
    cbn beta. rewrite !chars_app, !length_app. cbn [String.list_ascii_of_string length].
    simpl list_sum in IH. simpl list_sum. lia.
Qed.

Lemma json_weight_bound (lay : layout) (v : json) :
  ∀ level, json_weight v ≤ 2 * text_length (encode_with lay level v).
Proof.
  induction v as [|b|z|s|l IH|kvs IH] using json_ind'; intros level.
  - cbn. lia.
  - destruct b; cbn; lia.
  - destruct (pretty_Z_head z) as (c & tl & E & _). cbn [encode_with json_weight].
    rewrite E. cbn. lia.
  - cbn [encode_with json_weight]. rewrite chars_json_quote. cbn. lia.
  - destruct l as [|x l]; [cbn; lia|].
    cbn [encode_with]. rewrite !chars_app, !length_app.
    cbn [String.list_ascii_of_string length].
    pose proof (elements_weight_bound (lay_sep lay level)
                  (encode_with lay (S level)) (x :: l)) as Hb.
    change (json_weight (JList (x :: l))) with (S (elements_weight (x :: l))).
    assert (elements_weight (x :: l)
            ≤ 2 * text_length (str_join ("," +:+ lay_sep lay level)
                                 (map (encode_with lay (S level)) (x :: l))) + 1)
      as Hb'; [|lia].
    apply Hb. eapply Forall_impl; [exact IH|]. intros y Hy. apply Hy.
  - destruct kvs as [|x l]; [cbn; lia|].
    cbn [encode_with]. rewrite !chars_app, !length_app.
    cbn [String.list_ascii_of_string length].
    change (json_weight (JObj (x :: l))) with (S (members_weight (x :: l))).
    assert (members_weight (x :: l)
            ≤ 2 * text_length
                    (str_join ("," +:+ lay_sep lay level)
                       (map (λ kv, json_quote (fst kv) +:+ ": "
                                     +:+ encode_with lay (S level) (snd kv))
                            (x :: l))) + 1)
      as Hb'; [|lia].
    apply (members_weight_bound (lay_sep lay level) (encode_with lay (S level))).
    eapply Forall_impl; [exact IH|]. intros y Hy. apply Hy.
Qed.

Lemma json_loads_encode_with (lay : layout) (level : nat) (v : json) :
  layout_ok lay → json_loads (encode_with lay level v) = Some v.
Proof.
  intros Hlay. unfold json_loads.
  pose proof (parse_value_encode lay Hlay v level
                (2 * text_length (encode_with lay level v) + 2) []) as H.
  rewrite app_nil_r in H. rewrite H; [done| |done].
  pose proof (json_weight_bound lay v level). lia.
Qed.

(** [json.loads(json.dumps(v, indent=4)) == v]. *)
Lemma json_loads_dumps_indent4 (v : json) :
  json_loads (json_dumps_indent4 v) = Some v.
Proof.
  unfold json_dumps_indent4. rewrite json_encode_layout.
  apply json_loads_encode_with, layout_ok_indent4.
Qed.

(** [json.loads(json.dumps(v)) == v]. *)
Lemma json_loads_dumps (v : json) : json_loads (json_dumps v) = Some v.
Proof.
  unfold json_dumps. rewrite (json_encode_compact_layout v 0).
  apply json_loads_encode_with, layout_ok_one_line.
Qed.

(** * Saving, then loading *)

Lemma str_nonempty (self : InferenceProfile) : __str__ self ≠ "".
Proof. discriminate. Qed.

Lemma json_loads_str (self : InferenceProfile) :
  json_loads (__str__ self) = Some (JObj (_to_dict self)).
Proof. apply json_loads_dumps_indent4. Qed.

(** Loading a file that holds the text of a profile is constructing from
    the attributes of that profile. *)
Lemma load_profile_of_text loader (self : InferenceProfile) name dir w :
  w_env w !! "PROFILES_DIR" = Some dir →
  w_fs w !! os_path_join dir (name +:+ ".json")
  = Some (File true (__str__ self)) →
  let p := os_path_join dir (name +:+ ".json") in
  load_profile loader name w
  = __init__ loader (_engine_name self) (_base_url self) (_model_id self)
      (_config_folder_name self) (_api_key self) (_system_prompt_file self)
      (_tools self) (_optional_hyper_parameters self)
      (_load_tokenizer_flag self)
      (logs [EvGetenv "PROFILES_DIR"; EvIsfile p; EvAccess p; EvGetsize p;
             EvRead p] w).
Proof.
  intros Henv Hfs p. unfold load_profile.
  destruct (get_full_resource_path_text "PROFILES_DIR" (name +:+ ".json")
              (__str__ self) w) as (p' & E & _).
  { exists dir. split; [done|]. split; [done|]. apply str_nonempty. }
  assert (p' = p) as ->.
  { apply get_full_resource_path_ok in E as (d & c & Hd & -> & _).
    rewrite Henv in Hd. by injection Hd as <-. }
  rewrite (bind_eval_ok _ _ _ _ _ E).
  assert (json_load p (logs [EvGetenv "PROFILES_DIR"; EvIsfile p; EvAccess p;
                             EvGetsize p] w)
          = (Ok (JObj (_to_dict self)),
             logs [EvGetenv "PROFILES_DIR"; EvIsfile p; EvAccess p;
                   EvGetsize p; EvRead p] w)) as E2.
  { unfold json_load.
    rewrite (bind_eval_ok _ _ _ _ _
               (read_file_eval p (__str__ self)
                  (logs [EvGetenv "PROFILES_DIR"; EvIsfile p; EvAccess p;
                         EvGetsize p] w) Hfs)).
    by rewrite json_loads_str, logs_logs. }
  by rewrite (bind_eval_ok _ _ _ _ _ E2).
Qed.



(** The resources of a world are those of any world with the same
    environment and more files. *)
Lemma resource_text_mono w w' var name c :
  w_env w' = w_env w →
  (∀ p n, w_fs w !! p = Some n → w_fs w' !! p = Some n) →
  resource_text w var name c → resource_text w' var name c.
Proof.
  intros He Hf (dir & Henv & Hfs & Hc). exists dir.
  rewrite He. split; [done|]. split; [by apply Hf|done].
Qed.

Lemma resource_json_mono w w' var name v :
  w_env w' = w_env w →
  (∀ p n, w_fs w !! p = Some n → w_fs w' !! p = Some n) →
  resource_json w var name v → resource_json w' var name v.
Proof.
  intros He Hf (c & Hc & Hv). exists c. split; [|done].
  by apply (resource_text_mono w).
Qed.

Lemma resource_text_fun w var name c c' :
  resource_text w var name c → resource_text w var name c' → c = c'.
Proof.
  intros (dir & Henv & Hfs & _) (dir' & Henv' & Hfs' & _).
  rewrite Henv in Henv'. injection Henv' as <-. congruence.
Qed.

Lemma resource_json_fun w var name v v' :
  resource_json w var name v → resource_json w var name v' → v = v'.
Proof.
  intros (c & Hc & Hv) (c' & Hc' & Hv').
  rewrite (resource_text_fun _ _ _ _ _ Hc Hc') in Hv. congruence.
Qed.



(** * [generate.py]: extracting the JSON content of a reply *)

(** ** Searching in texts *)

Lemma startswith_app (sub rest : string) : startswith sub (sub +:+ rest) = true.
Proof.
  induction sub as [|a sub IH]; [done|].
  change (String a sub +:+ rest) with (String a (sub +:+ rest)).
  cbn [startswith]. by rewrite Ascii.eqb_refl, IH.
Qed.

Lemma str_drop_app (pre rest : string) (n : nat) :
  str_drop (String.length pre + n) (pre +:+ rest) = str_drop n rest.
Proof. induction pre as [|a pre IH]; [done|]. exact IH. Qed.

Lemma str_take_app (body rest : string) :
  str_take (String.length body) (body +:+ rest) = body.
Proof.
  induction body as [|a body IH]; [by destruct rest|].
  change (String a body +:+ rest) with (String a (body +:+ rest)).
  cbn [str_take String.length]. by rewrite IH.
Qed.

Lemma str_drop_0 (s : string) : str_drop 0 s = s.
Proof. by destruct s. Qed.

(** A text without backtick is skipped by the search for a text that
    starts with one. *)
Lemma find_at_backtick_free (pre sub rest : string) (i : nat) :
  backtick_free pre →
  find_at (String "`" sub) (pre +:+ rest) i
  = find_at (String "`" sub) rest (i + String.length pre).
Proof.
  unfold backtick_free. revert i.
  induction pre as [|a pre IH]; intros i H.
  - cbn [String.append String.length]. by rewrite Nat.add_0_r.
  - inversion H as [|? ? Ha Hpre]; subst.
    change (String a pre +:+ rest) with (String a (pre +:+ rest)).
    cbn [find_at startswith]. rewrite Ascii.eqb_sym, Ha. cbn [andb].
    rewrite IH by done. cbn [String.length]. f_equal. lia.
Qed.

Lemma find_at_backtick_free_end (body sub : string) (i : nat) :
  backtick_free body → find_at (String "`" sub) body i = None.
Proof.
  unfold backtick_free. revert i. induction body as [|a body IH]; intros i H; [done|].
  inversion H as [|? ? Ha Hbody]; subst.
  cbn [find_at startswith]. rewrite Ascii.eqb_sym, Ha. cbn [andb]. by apply IH.
Qed.

Lemma string_app_nil_r (s : string) : s +:+ "" = s.
Proof. induction s as [|a s IH]; [done|]. by rewrite string_app_cons, IH. Qed.

Lemma find_at_here (sub rest : string) (i : nat) :
  find_at sub (sub +:+ rest) i = Some i.
Proof.
  pose proof (startswith_app sub rest) as H.
  destruct (sub +:+ rest); cbn [find_at]; by rewrite H.
Qed.

Lemma str_find_0 (sub s : string) : str_find sub s 0 = find_at sub s 0.
Proof. unfold str_find. by rewrite str_drop_0. Qed.

(** What the three searches of [extract_json_content] find in a text with
    one fenced block. *)
Lemma fenced_block_slice (pre body closing : string) :
  backtick_free pre → backtick_free body →
  (closing = "" ∨ ∃ post, closing = "```" +:+ post) →
  let s := pre +:+ "```json" +:+ body +:+ closing in
  let start_index := String.length pre + 2 + String.length "`json" in
  str_contains "```json" s = true
  ∧ str_find "`json" s 0 = Some (String.length pre + 2)
  ∧ str_slice s start_index (str_find "```" s start_index) = body.
Proof.
  intros Hpre Hbody Hclosing s start_index.
  split; [|split].
  - unfold str_contains. apply bool_decide_eq_true_2.
    rewrite str_find_0. unfold s. rewrite find_at_backtick_free by done.
    assert (find_at "```json" ("```json" +:+ body +:+ closing)
              (0 + String.length pre) = Some (0 + String.length pre)) as ->.
    { apply find_at_here. }
    by eexists.
  - rewrite str_find_0. unfold s. rewrite find_at_backtick_free by done.
    change ("```json" +:+ body +:+ closing)
      with (String "`" (String "`" ("`json" +:+ body +:+ closing))).
    cbn [find_at startswith]. change (Ascii.eqb "`" "`") with true.
    change (Ascii.eqb "j" "`") with false. cbn [andb].
    rewrite find_at_here. f_equal. lia.
  - unfold str_find.
    assert ((String.length s <? start_index) = false) as ->.
    { apply Nat.ltb_ge. unfold s, start_index.
      rewrite !string_app_length. cbn. lia. }
    assert (str_drop start_index s = body +:+ closing) as Hdrop.
    { unfold s, start_index.
      replace (String.length pre + 2 + String.length "`json")
        with (String.length pre + 7) by (cbn; lia).
      rewrite str_drop_app. reflexivity. }
    rewrite Hdrop, find_at_backtick_free by done.
    destruct Hclosing as [->|[post ->]].
    + cbn [find_at startswith str_slice]. rewrite Hdrop. apply string_app_nil_r.
    + assert (find_at "```" ("```" +:+ post) (start_index + String.length body)
              = Some (start_index + String.length body)) as ->.
      { apply find_at_here. }
      cbn [str_slice]. rewrite Hdrop.
      replace (start_index + String.length body - start_index)
        with (String.length body) by lia.
      apply str_take_app.
Qed.

Section Extract.

Variable json_error_text : string → string.

Lemma extract_json_content_text (response q : json) (c : string) (s : gstate) :
  reply_with response (JStr c) →
  extract_json_content json_error_text response q s
  = decode_outcome json_error_text
      (if str_contains "```json" c then
         let start_index :=
           match str_find "`json" c 0 with
           | Some i => i + String.length "`json"
           | None => 4
           end in
         str_strip (str_slice c start_index (str_find "```" c start_index))
       else c) s.
Proof.
  intros (r & m & -> & Hm & Hc). unfold extract_json_content.
  destruct r as [|kv r]; [discriminate Hm|]. cbn [py_truthy negb].
  unfold gbind at 1. unfold py_getitem at 1. rewrite Hm. cbn [gret].
  unfold gbind at 1. unfold py_getitem at 1. rewrite Hc. cbn [gret].
  unfold gbind at 1. cbn [py_contains gret].
  unfold decode_outcome.
  destruct (str_contains "```json" c).
  - unfold gbind at 1. cbn [gret].
    destruct (json_loads _); [done|]. destruct s as [w tr]. reflexivity.
  - unfold gbind at 1. cbn [gret].
    destruct (json_loads _); [done|]. destruct s as [w tr]. reflexivity.
Qed.



End Extract.


(** * [generate.py]: the generation of a sample *)

Lemma glogs_nil (s : gstate) : glogs [] [] s = s.
Proof. destruct s as [[] tr]. unfold glogs, logs; cbn. by rewrite !app_nil_r. Qed.

Lemma glogs_glogs evs1 gevs1 evs2 gevs2 s :
  glogs evs2 gevs2 (glogs evs1 gevs1 s) = glogs (evs1 ++ evs2) (gevs1 ++ gevs2) s.
Proof. unfold glogs, logs; cbn. by rewrite !app_assoc. Qed.

Lemma requests_app (a b : list gen_event) :
  requests (a ++ b) = requests a + requests b.
Proof. unfold requests. by rewrite List.filter_app, length_app. Qed.

Lemma gbind_ok {A B} (m : G A) (k : A → G B) s a s1 :
  m s = (Ok a, s1) → gbind m k s = k a s1.
Proof. unfold gbind. by intros ->. Qed.

Lemma gbind_raise {A B} (m : G A) (k : A → G B) s e s1 :
  m s = (Raise e, s1) → gbind m k s = (Raise e, s1).
Proof. unfold gbind. by intros ->. Qed.

(** ** Composition of [gspec] *)

Lemma gspec_ret {A} (P : A → Prop) (a : A) n : P a → gspec n P (gret a).
Proof.
  intros H s r s' [= <- <-]. split; [done|].
  exists [], []. rewrite glogs_nil. split; [done|]. split; [cbn; lia|constructor].
Qed.

Lemma gspec_raise {A} (P : A → Prop) c msg n :
  c ∈ generate_errors → gspec n P (@graise A c msg).
Proof.
  intros H s r s' [= <- <-]. split; [done|].
  exists [], []. rewrite glogs_nil. split; [done|]. split; [cbn; lia|constructor].
Qed.

Lemma gspec_bind {A B} n1 n2 (P : A → Prop) (Q : B → Prop)
    (m : G A) (k : A → G B) :
  gspec n1 P m → (∀ a, P a → gspec n2 Q (k a)) → gspec (n1 + n2) Q (gbind m k).
Proof.
  intros Hm Hk s r s'. unfold gbind.
  destruct (m s) as [[a|e|] s1] eqn:E; specialize (Hm _ _ _ E) as [Hr Hs].
  - intros Hka. destruct Hs as (evs1 & gevs1 & -> & Hn1 & Hw1).
    destruct (Hk a Hr _ _ _ Hka) as [Hr2 (evs2 & gevs2 & -> & Hn2 & Hw2)].
    split; [done|]. exists (evs1 ++ evs2), (gevs1 ++ gevs2).
    rewrite glogs_glogs, requests_app. split; [done|].
    split; [lia|by apply Forall_app].
  - intros [= <- <-]. split; [done|].
    destruct Hs as (evs1 & gevs1 & -> & Hn1 & Hw1).
    exists evs1, gevs1. split; [done|]. split; [lia|done].
  - done.
Qed.

Lemma gspec_weaken {A} n n' (P P' : A → Prop) (m : G A) :
  gspec n P m → n ≤ n' → (∀ a, P a → P' a) → gspec n' P' m.
Proof.
  intros Hm Hn HP s r s' E. destruct (Hm _ _ _ E) as [Hr (evs & gevs & -> & Hn1 & Hw)].
  split; [destruct r; auto|]. exists evs, gevs. split; [done|]. split; [lia|done].
Qed.

Lemma gspec_log {A} n (P : A → Prop) level msg (k : G A) :
  gspec n P k → gspec n P (gbind (gtell (GLog level msg)) (λ _, k)).
Proof.
  intros Hk. apply (gspec_bind 0 n (λ _, True)); [|by intros].
  intros s r s' [= <- <-]. split; [done|].
  exists [], [GLog level msg]. split; [|split; [cbn; lia|constructor]].
  destruct s as [[] tr]. unfold glogs, logs; cbn. by rewrite app_nil_r.
Qed.

Lemma gspec_print {A} n (P : A → Prop) line (k : G A) :
  gspec n P k → gspec n P (gbind (lift (print line)) (λ _, k)).
Proof.
  intros Hk. apply (gspec_bind 0 n (λ _, True)); [|by intros].
  intros s r s' [= <- <-]. split; [done|].
  exists [EvPrint line], []. split; [|split; [cbn; lia|by repeat constructor]].
  destruct s as [w tr]. unfold glogs; cbn. by rewrite app_nil_r.
Qed.

Lemma gspec_getitem n v k : gspec n (λ _, True) (py_getitem v k).
Proof.
  unfold py_getitem. destruct v as [| | | | |d];
    try (apply gspec_raise; unfold generate_errors; set_solver).
  destruct (dict_get d k); [by apply gspec_ret|].
  apply gspec_raise. unfold generate_errors. set_solver.
Qed.

Lemma gspec_setitem n v q :
  py_truthy q = true →
  gspec n (sample_of q) (py_setitem v "generated_user_query" q).
Proof.
  intros Hq. unfold py_setitem. destruct v as [| | | | |d];
    try (apply gspec_raise; unfold generate_errors; set_solver).
  apply gspec_ret. exists (dict_set d "generated_user_query" q).
  split; [done|]. split; [|done]. apply dict_get_set.
Qed.

Lemma gspec_contains n sub v : gspec n (λ _, True) (py_contains sub v).
Proof.
  unfold py_contains. destruct v;
    try (by apply gspec_ret);
    apply gspec_raise; unfold generate_errors; set_solver.
Qed.

Section GenerateFacts.

Variable ollama_chat : list gen_event → string → string → exn + json.
Variable json_error_text : string → string.
Variables phases environments types constraints : list string.
Variable user_query_prompt_template_format :
  string → string → string → string → string.
Variable response_prompt_template_format : string → string.

Lemma get_ollama_response_eval (prompt model : string) (s : gstate) :
  get_ollama_response ollama_chat prompt model s
  = match ollama_chat (g_trace s) model prompt with
    | inr response =>
        (Ok response, GState (g_world s) (g_trace s ++ [GChat model prompt]))
    | inl e =>
        (Ok JNull,
         GState (g_world s)
           (g_trace s ++ [GChat model prompt;
                          GLog ERROR ("Ollama API call failed: " +:+ exn_msg e)]))
    end.
Proof.
  unfold get_ollama_response, try_except, gbind, gget, gtell, logging_error; cbn.
  destruct (ollama_chat (g_trace s) model prompt) as [e|response]; cbn; [|done].
  by rewrite <- app_assoc.
Qed.

Lemma gspec_get_ollama_response (prompt model : string) :
  gspec 1 (λ _, True) (get_ollama_response ollama_chat prompt model).
Proof.
  intros s r s' E. rewrite get_ollama_response_eval in E.
  destruct (ollama_chat (g_trace s) model prompt) as [e|response];
    injection E as <- <-; (split; [done|]).
  - exists [], [GChat model prompt;
                GLog ERROR ("Ollama API call failed: " +:+ exn_msg e)].
    split; [|split; [cbn; lia|constructor]].
    destruct s as [[] tr]. unfold glogs, logs; cbn. by rewrite app_nil_r.
  - exists [], [GChat model prompt].
    split; [|split; [cbn; lia|constructor]].
    destruct s as [[] tr]. unfold glogs, logs; cbn. by rewrite app_nil_r.
Qed.

Lemma gspec_extract_json_content (response q : json) :
  gspec 0 (λ _, True) (extract_json_content json_error_text response q).
Proof.
  unfold extract_json_content.
  destruct (negb (py_truthy response)); [by apply gspec_ret|].
  apply (gspec_bind 0 0 (λ _, True)); [apply gspec_getitem|]. intros message _.
  apply (gspec_bind 0 0 (λ _, True)); [apply gspec_getitem|]. intros raw _.
  apply (gspec_bind 0 0 (λ _, True)); [apply gspec_contains|]. intros fenced _.
  apply (gspec_bind 0 0 (λ _, True)).
  { destruct fenced; [|by apply gspec_ret].
    destruct raw; try (by apply gspec_ret);
      apply gspec_raise; unfold generate_errors; set_solver. }
  intros raw' _.
  destruct raw'; try (apply gspec_raise; unfold generate_errors; set_solver).
  destruct (json_loads s); [by apply gspec_ret|].
  apply gspec_log, gspec_print. by apply gspec_ret.
Qed.

Lemma gspec_generate_user_query :
  gspec 1 (λ _, True)
    (generate_user_query ollama_chat phases environments types constraints
       user_query_prompt_template_format).
Proof.
  unfold generate_user_query.
  apply (gspec_bind 1 0 (λ _, True)); [apply gspec_get_ollama_response|].
  intros response _. destruct (py_truthy response).
  - apply (gspec_bind 0 0 (λ _, True)); [apply gspec_getitem|]. intros m _.
    apply gspec_getitem.
  - apply gspec_log. by apply gspec_ret.
Qed.

Lemma gspec_generate_response (q : json) :
  gspec 1 (λ _, True)
    (generate_response ollama_chat json_error_text
       response_prompt_template_format q).
Proof.
  unfold generate_response.
  apply (gspec_bind 1 0 (λ _, True)); [apply gspec_get_ollama_response|].
  intros response _. destruct (py_truthy response).
  - apply (gspec_bind 0 0 (λ _, True)); [apply gspec_extract_json_content|].
    intros output _. destruct (py_truthy output); [by apply gspec_ret|].
    apply gspec_log. by apply gspec_ret.
  - apply gspec_log. by apply gspec_ret.
Qed.

Lemma gspec_generate_penetration_testing_data (q : json) :
  gspec (if py_truthy q then 1 else 2)
    (λ v, v = JNull ∨ ∃ q', sample_of q' v ∧ (py_truthy q = true → q' = q))
    (generate_penetration_testing_data ollama_chat json_error_text phases
       environments types constraints user_query_prompt_template_format
       response_prompt_template_format q).
Proof.
  unfold generate_penetration_testing_data.
  assert (∀ n uq, (py_truthy q = true → uq = q) →
            gspec (n + 1)
              (λ v, v = JNull ∨ ∃ q', sample_of q' v ∧ (py_truthy q = true → q' = q))
              (if negb (py_truthy uq) then gret JNull
               else
                 gbind (generate_response ollama_chat json_error_text
                          response_prompt_template_format uq)
                   (λ response,
                      if py_truthy response
                      then py_setitem response "generated_user_query" uq
                      else gret JNull))) as Hrest.
  { intros n uq Huq. destruct (py_truthy uq) eqn:Ht; cbn [negb].
    - eapply gspec_weaken;
        [apply (gspec_bind 1 0 (λ _, True) (λ v, v = JNull ∨ sample_of uq v));
           [apply gspec_generate_response|]
        |lia|].
      + intros response _. destruct (py_truthy response).
        * eapply gspec_weaken; [by apply (gspec_setitem 0)|lia|]. intros a Ha. by right.
        * apply gspec_ret. by left.
      + intros v [->|Hv]; [by left|]. right. by exists uq.
    - apply gspec_ret. by left. }
  destruct (py_truthy q) eqn:Hq; cbn [negb].
  - change 1 with (0 + (0 + 1)).
    apply (gspec_bind 0 (0 + 1) (λ uq, uq = q)); [by apply gspec_ret|].
    intros uq ->. apply Hrest. done.
  - change 2 with (1 + (0 + 1)).
    apply (gspec_bind 1 (0 + 1) (λ _, True)); [apply gspec_generate_user_query|].
    intros uq _. apply Hrest. done.
Qed.


(** With a query, a reply that carries a text, and a text handed to the
    decoder that holds a true value, the sample is that value with the
    query stored in it. *)
Lemma generate_penetration_testing_data_eval
    (q response : json) (c : string) (v : json) (s : gstate) :
  py_truthy q = true →
  ollama_chat (g_trace s) MODEL_NAME
    (response_prompt_template_format (py_str q)) = inr response →
  reply_with response (JStr c) →
  (∀ s1, extract_json_content json_error_text response q s1 = (Ok v, s1)) →
  py_truthy v = true →
  generate_penetration_testing_data ollama_chat json_error_text phases
    environments types constraints user_query_prompt_template_format
    response_prompt_template_format q s
  = py_setitem v "generated_user_query" q
      (GState (g_world s)
         (g_trace s ++ [GChat MODEL_NAME
                          (response_prompt_template_format (py_str q))])).
Proof.
  intros Hq Hchat Hreply Hextract Hv.
  unfold generate_penetration_testing_data. rewrite Hq. cbn [negb].
  unfold gbind at 1. cbn [gret]. rewrite Hq. cbn [negb].
  assert (py_truthy response = true) as Hresp.
  { destruct Hreply as (r & m & -> & Hm & _). by destruct r. }
  assert (generate_response ollama_chat json_error_text
            response_prompt_template_format q s
          = (Ok v, GState (g_world s)
                     (g_trace s ++ [GChat MODEL_NAME
                                      (response_prompt_template_format (py_str q))])))
    as Hgen.
  { unfold generate_response.
    rewrite (gbind_ok _ _ _ _ _
               (eq_trans (get_ollama_response_eval _ _ _)
                  ltac:(rewrite Hchat; reflexivity))).
    rewrite Hresp. rewrite (gbind_ok _ _ _ _ _ (Hextract _)). by rewrite Hv. }
  rewrite (gbind_ok _ _ _ _ _ Hgen). by rewrite Hv.
Qed.



End GenerateFacts.




(** ** The script when the server is down *)

Section ServerDown.

Variable ollama_chat : list gen_event → string → string → exn + json.
Variable json_error_text : string → string.
Variables phases environments types constraints : list string.
Variable user_query_prompt_template_format :
  string → string → string → string → string.
Variable response_prompt_template_format : string → string.

Hypothesis down : ∀ tr model prompt, ∃ e, ollama_chat tr model prompt = inl e.

Lemma generate_dataset_down (size : nat) :
  ∀ dataset s,
    ∃ gevs,
      generate_dataset ollama_chat json_error_text phases environments types
        constraints user_query_prompt_template_format
        response_prompt_template_format size dataset s
      = (Ok dataset, GState (g_world s) (g_trace s ++ gevs))
      ∧ requests gevs = size
      ∧ Forall (λ e, match e with
                     | GChat model _ => model = MODEL_NAME
                     | GLog level _ => level ≠ INFO
                     | GCreate _ _ _ _ | GSlack _ _ => False
                     end) gevs.
Proof.
  induction size as [|size IH]; intros dataset s.
  - exists []. cbn. rewrite app_nil_r. by destruct s.
  - cbn [generate_dataset].
    set (prompt := user_query_prompt_template_format (str_join ", " phases)
                     (str_join ", " environments) (str_join ", " types)
                     (str_join ", " constraints)).
    destruct (down (g_trace s) MODEL_NAME prompt) as [e He].
    set (evs1 := [GChat MODEL_NAME prompt;
                  GLog ERROR ("Ollama API call failed: " +:+ exn_msg e);
                  GLog WARNING
                    "Failed to generate user query due to failed Ollama API call."]).
    assert (generate_penetration_testing_data ollama_chat json_error_text phases
              environments types constraints user_query_prompt_template_format
              response_prompt_template_format JNull s
            = (Ok JNull, GState (g_world s) (g_trace s ++ evs1))) as Hgen.
    { unfold generate_penetration_testing_data, generate_user_query.
      cbn [py_truthy negb]. fold prompt.
      unfold gbind at 1. unfold gbind at 1.
      rewrite get_ollama_response_eval, He. cbn [py_truthy].
      unfold gbind, logging_warning, gtell, gret; cbn.
      by rewrite <- app_assoc. }
    rewrite (gbind_ok _ _ _ _ _ Hgen). cbn [py_truthy].
    unfold gbind at 1, logging_warning, gtell. cbn [g_world g_trace].
    destruct (IH dataset
                (GState (g_world s)
                   ((g_trace s ++ evs1)
                      ++ [GLog WARNING
                            "Skipping sample due to failed data generation."])))
      as (gevs & Hrun & Hreq & Hall).
    exists (evs1 ++ [GLog WARNING "Skipping sample due to failed data generation."]
              ++ gevs).
    split; [|split].
    + rewrite Hrun. cbn [g_world g_trace]. by rewrite <- !app_assoc.
    + rewrite !requests_app, Hreq. reflexivity.
    + apply Forall_app. split; [by repeat constructor|].
      apply Forall_app. split; [by repeat constructor|done].
Qed.

(** X18. The script when no request succeeds.  If every call of
    [ollama.chat] raises, a run for [size] samples returns normally: it has
    sent exactly [size] requests, all to the default model (the request for
    a user query fails, so none is sent for an answer), recorded errors and
    warnings only, printed the failure line, and, the log apart, changed no
    file - the output file is not created. *)
Theorem main_server_down (size : nat) (output : string) (s : gstate) :
  ∃ gevs,
    main ollama_chat json_error_text phases environments types constraints
      user_query_prompt_template_format response_prompt_template_format
      size output s
    = (Ok tt,
       glogs [EvPrint "Dataset generation failed. Check log file for errors."]
         gevs s)
    ∧ requests gevs = size
    ∧ Forall (λ e, match e with
                   | GChat model _ => model = MODEL_NAME
                   | GLog level _ => level ≠ INFO
                   | GCreate _ _ _ _ | GSlack _ _ => False
                   end) gevs.
Proof.
  destruct (generate_dataset_down size [] s) as (gevs & Hrun & Hreq & Hall).
  exists gevs. split; [|done]. unfold main.
  rewrite (gbind_ok _ _ _ _ _ Hrun). reflexivity.
Qed.

End ServerDown.

Lemma main_server_down_witness :
  ∃ gevs,
    main GenSample.down_server GenSample.error_text ["Reporting"] [] [] []
      GenSample.query_template GenSample.response_template 3 "out.jsonl"
      GenSample.s0
    = (Ok tt,
       glogs [EvPrint "Dataset generation failed. Check log file for errors."]
         gevs GenSample.s0)
    ∧ requests gevs = 3.
Proof.
  destruct (main_server_down GenSample.down_server GenSample.error_text
              ["Reporting"] [] [] [] GenSample.query_template
              GenSample.response_template
              (λ _ _ _, ex_intro _ (Exn OSError "connection refused") eq_refl)
              3 "out.jsonl" GenSample.s0) as (gevs & Hrun & Hreq & _).
  exists gevs. split; [exact Hrun|exact Hreq].
Defined.

(** * [generate.py]: the data set file *)

(** ** One sample, one line *)

Lemma newline_free_app (a b : string) :
  newline_free a → newline_free b → newline_free (a +:+ b).
Proof. unfold newline_free. rewrite chars_app. apply Forall_app_2. Qed.

Lemma newline_free_cons (c : ascii) (s : string) :
  Ascii.eqb c newline = false → newline_free s → newline_free (String c s).
Proof. unfold newline_free. cbn. by constructor. Qed.

Lemma newline_free_escape_char (c : ascii) : newline_free (escape_char c).
Proof.
  revert c. refine (all_ascii _ _).
  intros [] [] [] [] [] [] [] []; vm_compute; repeat constructor.
Qed.

Lemma newline_free_escape (s : string) : newline_free (escape s).
Proof.
  induction s as [|c s IH]; [constructor|].
  cbn [escape]. apply newline_free_app; [apply newline_free_escape_char|done].
Qed.

Lemma newline_free_json_quote (s : string) : newline_free (json_quote s).
Proof.
  unfold json_quote. apply newline_free_cons; [done|].
  apply newline_free_app; [apply newline_free_escape|by repeat constructor].
Qed.

Lemma newline_free_pretty_N_go (x : N) :
  ∀ s, newline_free s → newline_free (pretty_N_go x s).
Proof.
  induction (N.lt_wf_0 x) as [x _ IH]; intros s Hs.
  assert (x = 0 ∨ 0 < x)%N as [->|Hx] by lia.
  - by rewrite pretty_N_go_0.
  - rewrite pretty_N_go_step by done. apply IH; [by apply N.div_lt|].
    apply newline_free_cons; [|done].
    unfold pretty_N_char. by repeat case_match.
Qed.

Lemma newline_free_pretty_Z (z : Z) : newline_free (pretty z).
Proof.
  assert (∀ n : N, newline_free (pretty n)) as HN.
  { intros n. unfold pretty, pretty_N. case_decide; [by repeat constructor|].
    apply newline_free_pretty_N_go. constructor. }
  destruct z as [|p|p]; unfold pretty, pretty_Z.
  - by repeat constructor.
  - apply (HN (N.pos p)).
  - apply newline_free_app; [by repeat constructor|apply (HN (N.pos p))].
Qed.

Lemma newline_free_str_join (sep : string) (parts : list string) :
  newline_free sep → Forall newline_free parts →
  newline_free (str_join sep parts).
Proof.
  intros Hsep. induction parts as [|p ps IH]; intros H; [constructor|].
  inversion H as [|? ? Hp Hps]; subst. destruct ps as [|p' ps]; [done|].
  change (str_join sep (p :: p' :: ps)) with (p +:+ sep +:+ str_join sep (p' :: ps)).
  apply newline_free_app; [done|]. apply newline_free_app; [done|]. by apply IH.
Qed.

(** The text of [json.dumps(obj)] has no line end. *)
Lemma newline_free_json_dumps (v : json) : newline_free (json_dumps v).
Proof.
  unfold json_dumps.
  induction v as [|b|z|s|l IH|kvs IH] using json_ind'.
  - by repeat constructor.
  - destruct b; by repeat constructor.
  - apply newline_free_pretty_Z.
  - apply newline_free_json_quote.
  - cbn [json_encode_compact]. apply newline_free_cons; [done|].
    apply newline_free_app; [|by repeat constructor].
    apply newline_free_str_join; [by repeat constructor|].
    by apply Forall_map.
  - cbn [json_encode_compact]. apply newline_free_cons; [done|].
    apply newline_free_app; [|by repeat constructor].
    apply newline_free_str_join; [by repeat constructor|].
    apply Forall_map. eapply Forall_impl; [exact IH|]. intros [k x] Hx. cbn in *.
    apply newline_free_app; [apply newline_free_json_quote|].
    apply newline_free_app; [by repeat constructor|done].
Qed.

Lemma lines_of_line (l rest : list ascii) :
  Forall (λ c, Ascii.eqb c newline = false) l →
  lines_of (l ++ newline :: rest) = l :: lines_of rest.
Proof.
  induction l as [|c l IH]; intros H.
  - cbn [app lines_of]. by rewrite Ascii.eqb_refl.
  - inversion H as [|? ? Hc Hl]; subst. cbn [app lines_of]. by rewrite Hc, IH.
Qed.

Lemma str_join_empty_cons (p : string) (ps : list string) :
  str_join "" (p :: ps) = p +:+ str_join "" ps.
Proof. destruct ps; [by rewrite string_app_nil_r|done]. Qed.

(** The lines of the text written for a data set are the texts of its
    samples. *)
Lemma str_lines_jsonl (dataset : list json) :
  str_lines (str_join "" (map jsonl_line dataset)) = map json_dumps dataset.
Proof.
  unfold str_lines. induction dataset as [|obj ds IH]; [done|].
  cbn [map]. rewrite str_join_empty_cons. unfold jsonl_line at 1.
  rewrite !chars_app, <- app_assoc. cbn [String.list_ascii_of_string app].
  rewrite lines_of_line by apply newline_free_json_dumps.
  cbn [map]. rewrite IH. f_equal. apply String.string_of_list_ascii_of_string.
Qed.

(** ** [save_dataset_to_jsonl] *)



(** X20. [save_dataset_to_jsonl] never raises.  Whatever the data set, the
    path and the state, it returns normally and sends no request; when the
    path names a directory or a file that cannot be read, no file is
    changed, one error record is kept and the error line is printed. *)
Theorem save_dataset_to_jsonl_never_raises
    (dataset : list json) (filename : string) (s : gstate) :
  ∃ s' gevs,
    save_dataset_to_jsonl dataset filename s = (Ok tt, s')
    ∧ g_trace s' = g_trace s ++ gevs ∧ requests gevs = 0
    ∧ (∀ p, p ≠ filename → w_fs (g_world s') !! p = w_fs (g_world s) !! p)
    ∧ (w_fs (g_world s) !! filename = Some Dir
       ∨ (∃ c, w_fs (g_world s) !! filename = Some (File false c)) →
       w_fs (g_world s') = w_fs (g_world s)
       ∧ (∃ msg, gevs = [GLog ERROR msg])
       ∧ w_trace (g_world s')
         = w_trace (g_world s)
             ++ [EvWrite filename;
                 EvPrint ("Error saving dataset. Check log file '"
                            +:+ LOG_FILENAME +:+ "' for details.")]).
Proof.
  unfold save_dataset_to_jsonl, try_except, gbind, lift, append_file, print,
    logging_info, logging_error, gtell, bind, tell, get_world, raise; cbn.
  destruct (w_fs (g_world s) !! filename) as [[[] c|]|] eqn:Hfs; cbn.
  - eexists _, _. split; [reflexivity|]. cbn. split; [reflexivity|].
    split; [reflexivity|]. split.
    + intros p Hp. by rewrite lookup_insert_ne.
    + intros [H|[c' H]]; discriminate H.
  - eexists _, _. split; [reflexivity|]. cbn. split; [reflexivity|].
    split; [reflexivity|]. split; [done|].
    intros _. split; [done|]. split; [by eexists|]. by rewrite <- app_assoc.
  - eexists _, _. split; [reflexivity|]. cbn. split; [reflexivity|].
    split; [reflexivity|]. split; [done|].
    intros _. split; [done|]. split; [by eexists|]. by rewrite <- app_assoc.
  - eexists _, _. split; [reflexivity|]. cbn. split; [reflexivity|].
    split; [reflexivity|]. split.
    + intros p Hp. by rewrite lookup_insert_ne.
    + intros [H|[c' H]]; discriminate H.
Qed.

(** ** The script *)

(** The two ways [save_dataset_to_jsonl] ends. *)
Lemma save_dataset_to_jsonl_cases
    (dataset : list json) (filename : string) (s : gstate) :
  ∃ fs' evs gevs,
    save_dataset_to_jsonl dataset filename s
    = (Ok tt,
       GState (World (w_env (g_world s)) fs' (w_heap (g_world s))
                 (w_trace (g_world s) ++ evs))
         (g_trace s ++ gevs))
    ∧ requests gevs = 0
    ∧ (fs' = w_fs (g_world s)
       ∨ ∃ old,
           (w_fs (g_world s) !! filename = Some (File true old)
            ∨ (w_fs (g_world s) !! filename = None ∧ old = ""))
           ∧ fs' = <[filename := File true
                                   (old +:+ str_join "" (map jsonl_line dataset))]>
                     (w_fs (g_world s))).
Proof.
  unfold save_dataset_to_jsonl, try_except, gbind, lift, append_file, print,
    logging_info, logging_error, gtell, bind, tell, get_world, raise; cbn.
  destruct (w_fs (g_world s) !! filename) as [[[] c|]|] eqn:Hfs; cbn.
  - eexists _, _, _. unfold set_fs, log; cbn. rewrite <- !app_assoc.
    split; [reflexivity|]. split; [reflexivity|]. right. exists c.
    split; [by left|done].
  - eexists _, _, _. unfold set_fs, log; cbn. rewrite <- !app_assoc.
    split; [reflexivity|]. split; [reflexivity|]. by left.
  - eexists _, _, _. unfold set_fs, log; cbn. rewrite <- !app_assoc.
    split; [reflexivity|]. split; [reflexivity|]. by left.
  - eexists _, _, _. unfold set_fs, log; cbn. rewrite <- !app_assoc.
    split; [reflexivity|]. split; [reflexivity|]. right. exists "".
    split; [by right|done].
Qed.

Section Script.

Variable ollama_chat : list gen_event → string → string → exn + json.
Variable json_error_text : string → string.
Variables phases environments types constraints : list string.
Variable user_query_prompt_template_format :
  string → string → string → string → string.
Variable response_prompt_template_format : string → string.

Lemma gspec_generate_dataset (size : nat) :
  ∀ dataset,
    gspec (2 * size)
      (λ result, ∃ new, result = dataset ++ new ∧ length new ≤ size
                      ∧ Forall (λ v, ∃ q, sample_of q v) new)
      (generate_dataset ollama_chat json_error_text phases environments types
         constraints user_query_prompt_template_format
         response_prompt_template_format size dataset).
Proof.
  induction size as [|size IH]; intros dataset.
  - apply gspec_ret. exists []. rewrite app_nil_r. by repeat split.
  - cbn [generate_dataset]. replace (2 * S size) with (2 + 2 * size) by lia.
    eapply gspec_bind.
    { apply (gspec_generate_penetration_testing_data ollama_chat json_error_text
               phases environments types constraints
               user_query_prompt_template_format
               response_prompt_template_format JNull). }
    intros data Hdata. cbn beta in Hdata.
    destruct (py_truthy data) eqn:Ht.
    + destruct Hdata as [->|(q' & Hq' & _)]; [done|].
      eapply gspec_weaken; [apply (IH (dataset ++ [data]))|lia|].
      intros result (new & -> & Hlen & Hall). exists (data :: new).
      rewrite <- app_assoc. split; [done|]. split; [cbn; lia|].
      constructor; [by exists q'|done].
    + apply gspec_log. eapply gspec_weaken; [apply (IH dataset)|lia|].
      intros result (new & -> & Hlen & Hall). exists new.
      split; [done|]. split; [lia|done].
Qed.


End Script.


(** * [generate.py]: requests made with an [InferenceProfile] *)

Lemma dict_set_elem d k v k' :
  k' ∈ map fst (dict_set d k v) ↔ k' ∈ map fst d ∨ k' = k.
Proof.
  rewrite dict_set_keys. case_bool_decide as Hk.
  - split; [by left|]. intros [?| ->]; done.
  - rewrite elem_of_app, list_elem_of_singleton. done.
Qed.

Lemma dict_update_elem d other k :
  k ∈ map fst (dict_update d other) ↔ k ∈ map fst d ∨ k ∈ map fst other.
Proof.
  unfold dict_update. revert d.
  induction other as [|[k0 v0] o IH]; intros d; cbn.
  - split; [by left|]. intros [?|H]; [done|]. by apply elem_of_nil in H.
  - rewrite IH, dict_set_elem, elem_of_cons. tauto.
Qed.

Lemma format_inference_params_messages (self : InferenceProfile) :
  "messages" ∈ map fst (format_inference_params self)
  ↔ "messages" ∈ map fst (_optional_hyper_parameters self).
Proof.
  unfold format_inference_params. rewrite dict_update_elem. cbn.
  split; [|by right]. intros [H|H]; [|done].
  apply list_elem_of_singleton in H. discriminate H.
Qed.

Section ProfileResponse.

Variable client_create :
  list gen_event → string → string → list pydict → pydict → exn + json.

(** The list object is made, shaped, read and dropped: the world is as
    before. *)
Lemma shaped_messages (self : InferenceProfile) (user_query : json) (s : gstate)
    {A} (k : list pydict → G A) :
  gbind (lift (alloc_list [[("role", JStr "user"); ("content", user_query)]]))
    (λ messages,
       gbind (lift (format_messages_chat self messages))
         (λ formatted_messages,
            gbind (lift (read_list formatted_messages))
              (λ items, gbind (lift (free_list messages)) (λ _, k items)))) s
  = k (request_messages self user_query) s.
Proof.
  destruct s as [w tr].
  set (l := fresh (dom (w_heap w))).
  assert (w_heap w !! l = None) as Hl.
  { apply not_elem_of_dom, is_fresh. }
  set (user := [("role", JStr "user"); ("content", user_query)]).
  set (w1 := set_heap (<[l := [user]]> (w_heap w)) w).
  assert (alloc_list [user] w = (Ok l, w1)) as Halloc by reflexivity.
  unfold gbind at 1. unfold lift at 1. cbn [g_world g_trace]. rewrite Halloc.
  assert (format_messages_chat self l w1
          = (Ok l, set_heap (<[l := request_messages self user_query]> (w_heap w)) w))
    as Hfmt.
  { rewrite (format_messages_chat_eval self l user [] (JStr "user") w1);
      [|by apply lookup_insert_eq|done].
    unfold request_messages. cbn [py_eq_str negb String.eqb].
    change (String.eqb "user" "system") with false. cbn [negb].
    destruct (_system_prompt self) as [prompt|]; [|done].
    unfold w1, set_heap; cbn. by rewrite insert_insert_eq. }
  unfold gbind at 1. unfold lift at 1. cbn [g_world g_trace]. rewrite Hfmt.
  unfold gbind at 1. unfold lift at 1, read_list, bind, get_world.
  cbn [g_world g_trace w_heap set_heap]. rewrite lookup_insert_eq. cbn [ret].
  unfold gbind at 1. unfold lift at 1, free_list.
  cbn [g_world g_trace w_heap set_heap w_env w_fs w_trace].
  rewrite delete_insert_eq, delete_id by done. by destruct w.
Qed.

(** X22. The request made with a profile.  When no optional
    hyperparameter is named [messages], [get_inference_profile_response]
    sends exactly one request, to the base URL and with the key of the
    profile: its messages are the system prompt of the profile, if one is
    loaded, followed by the query, and its parameters are those of
    [format_inference_params].  It returns the reply; if the client raises,
    it keeps one error record and returns [None].  The world is as
    before. *)
Theorem get_inference_profile_response_request
    (user_query : json) (self : InferenceProfile) (s : gstate) :
  "messages" ∉ map fst (_optional_hyper_parameters self) →
  let request :=
    GCreate (_base_url self) (_api_key self)
      (request_messages self user_query) (format_inference_params self) in
  get_inference_profile_response client_create user_query self s
  = match client_create (g_trace s) (_base_url self) (_api_key self)
            (request_messages self user_query) (format_inference_params self)
    with
    | inr response => (Ok response, GState (g_world s) (g_trace s ++ [request]))
    | inl e =>
        (Ok JNull,
         GState (g_world s)
           (g_trace s
              ++ [request;
                  GLog ERROR ("InferenceProfile API call failed: "
                                +:+ exn_msg e)]))
    end.
Proof.
  intros Hkey request. unfold get_inference_profile_response, try_except.
  rewrite shaped_messages.
  rewrite bool_decide_eq_false_2 by (by rewrite format_inference_params_messages).
  unfold gbind, gget, gtell, get_client, logging_error, gret; cbn.
  destruct (client_create _ _ _ _ _) as [e|response]; cbn; [|done].
  by rewrite <- app_assoc.
Qed.

(** X23. A hyperparameter named [messages].  When the optional
    hyperparameters of the profile have the key [messages], the call of the
    client is refused for a keyword given twice:
    [get_inference_profile_response] sends no request, keeps one error
    record and returns [None], whatever the query. *)
Theorem get_inference_profile_response_duplicate_keyword
    (user_query : json) (self : InferenceProfile) (s : gstate) :
  "messages" ∈ map fst (_optional_hyper_parameters self) →
  get_inference_profile_response client_create user_query self s
  = (Ok JNull,
     GState (g_world s)
       (g_trace s
          ++ [GLog ERROR
                ("InferenceProfile API call failed: "
                   +:+ "got multiple values for keyword argument 'messages'")])).
Proof.
  intros Hkey. unfold get_inference_profile_response, try_except.
  rewrite shaped_messages.
  rewrite bool_decide_eq_true_2 by (by rewrite format_inference_params_messages).
  reflexivity.
Qed.

End ProfileResponse.

Lemma get_inference_profile_response_request_witness :
  let server : list gen_event → string → string → list pydict → pydict
               → exn + json :=
    λ _ _ _ messages _, inr (JInt (Z.of_nat (length messages))) in
  let self := set_system_prompt "Be brief." Sample.plain in
  (get_inference_profile_response server (JStr "hi") self GenSample.s0).1
  = Ok (JInt 2).
Proof.
  intros server self.
  rewrite (get_inference_profile_response_request server (JStr "hi") self
             GenSample.s0).
  - reflexivity.
  - apply (bool_decide_unpack _). vm_compute. exact I.
Defined.

Lemma get_inference_profile_response_duplicate_keyword_witness :
  let server : list gen_event → string → string → list pydict → pydict
               → exn + json :=
    λ _ _ _ _ _, inr (JStr "reply") in
  let self := set_optional_param Sample.plain [("messages", JList [])] in
  (get_inference_profile_response server (JStr "hi") self GenSample.s0).1
  = Ok JNull.
Proof.
  intros server self.
  rewrite (get_inference_profile_response_duplicate_keyword server (JStr "hi")
             self GenSample.s0).
  - reflexivity.
  - apply (bool_decide_unpack _). vm_compute. exact I.
Defined.

(** * [slack_bot.py]: the count of the [/query] command *)

Lemma is_digit_pretty_N_char (d : N) : is_digit (pretty_N_char d) = true.
Proof. unfold pretty_N_char. by repeat case_match. Qed.

Lemma digit_of_pretty_N_char (d : N) :
  (d < 10)%N → N.of_nat (nat_of_ascii (pretty_N_char d) - 48) = d.
Proof.
  intros H.
  assert (d = 0 ∨ d = 1 ∨ d = 2 ∨ d = 3 ∨ d = 4 ∨ d = 5 ∨ d = 6 ∨ d = 7
          ∨ d = 8 ∨ d = 9)%N as Hd by lia.
  repeat (destruct Hd as [->|Hd]; [reflexivity|]). by subst.
Qed.

(** The digits written for a number are read as digits, up to the end of
    the number. *)
Lemma str_take_while_digits (x : N) :
  ∀ s rest,
    (∀ rest', str_take_while is_digit (s +:+ rest') = s +:+ str_take_while is_digit rest') →
    str_take_while is_digit (pretty_N_go x s +:+ rest)
    = pretty_N_go x s +:+ str_take_while is_digit rest.
Proof.
  induction (N.lt_wf_0 x) as [x _ IH]; intros s rest Hs.
  assert (x = 0 ∨ 0 < x)%N as [->|Hx] by lia.
  - rewrite pretty_N_go_0. apply Hs.
  - rewrite pretty_N_go_step by done. apply IH; [by apply N.div_lt|].
    intros rest'. rewrite !string_app_cons. cbn [str_take_while].
    by rewrite is_digit_pretty_N_char, Hs.
Qed.

Lemma int_of_digits_from_pretty_N_go (x : N) :
  ∃ m : N, ∀ acc s,
    int_of_digits_from acc (pretty_N_go x s)
    = int_of_digits_from (acc * m + x) s.
Proof.
  induction (N.lt_wf_0 x) as [x _ IH].
  assert (x = 0 ∨ 0 < x)%N as [->|Hx] by lia.
  - exists 1%N. intros acc s. rewrite pretty_N_go_0. f_equal. lia.
  - destruct (IH (x `div` 10)%N) as [m Hm]; [by apply N.div_lt|].
    exists (10 * m)%N. intros acc s.
    rewrite pretty_N_go_step, Hm by done. cbn [int_of_digits_from].
    rewrite digit_of_pretty_N_char by (apply N.mod_lt; lia).
    f_equal. pose proof (N.div_mod x 10). lia.
Qed.

Lemma int_of_digits_pretty (n : N) : int_of_digits (pretty n) = n.
Proof.
  unfold int_of_digits, pretty, pretty_N. case_decide as Hn; [by subst|].
  destruct (int_of_digits_from_pretty_N_go n) as [m Hm]. rewrite Hm. cbn. lia.
Qed.

Lemma str_take_while_pretty (n : N) (rest : string) :
  no_digit_ahead rest →
  str_take_while is_digit (pretty n +:+ rest) = pretty n.
Proof.
  intros Hrest.
  assert (str_take_while is_digit rest = "") as Hr.
  { destruct rest as [|c rest]; [done|]. cbn in *. by rewrite Hrest. }
  unfold pretty, pretty_N. case_decide as Hn.
  - change ("0" +:+ rest) with (String "0" rest). cbn [str_take_while].
    change (is_digit "0") with true. cbn iota. by rewrite Hr.
  - rewrite str_take_while_digits; [by rewrite Hr, string_app_nil_r|].
    intros rest'. reflexivity.
Qed.

Lemma pretty_N_nonempty (n : N) : ∃ c s, pretty n = String c s ∧ is_digit c = true.
Proof.
  unfold pretty, pretty_N. case_decide as Hn; [by exists "0"%char, ""|].
  destruct (pretty_N_go_head n "") as (c & tl & d & E & Hc & _); [lia|].
  exists c, tl. split; [done|].
  unfold digit_value in Hc. unfold is_digit. by destruct (_ && _).
Qed.

Lemma str_lstrip_blank (ws rest : string) :
  blank ws → str_lstrip (ws +:+ rest) = str_lstrip rest.
Proof.
  unfold blank. induction ws as [|c ws IH]; intros H; [done|].
  inversion H as [|? ? Hc Hws]; subst. rewrite string_app_cons.
  cbn [str_lstrip]. rewrite Hc. by apply IH.
Qed.

Lemma digit_not_space (c : ascii) : is_digit c = true → is_space c = false.
Proof.
  revert c. refine (all_ascii _ _).
  intros [] [] [] [] [] [] [] [] H;
    solve [reflexivity | vm_compute in H; discriminate H].
Qed.

Lemma match_count_here_dash (s : string) :
  match s with
  | String c _ => Ascii.eqb c "-" = false
  | EmptyString => True
  end →
  match_count_here s = None.
Proof.
  destruct s as [|c s]; [done|]. intros H. unfold match_count_here.
  destruct c as [[] [] [] [] [] [] [] []]; try done; discriminate H.
Qed.

Lemma re_search_count_dash_free (pre rest : string) :
  dash_free pre → re_search_count (pre +:+ rest) = re_search_count rest.
Proof.
  unfold dash_free. induction pre as [|c pre IH]; intros H; [done|].
  inversion H as [|? ? Hc Hpre]; subst. rewrite string_app_cons.
  cbn [re_search_count]. rewrite match_count_here_dash by done. by apply IH.
Qed.



(** X25. The count is at most 5, whatever the text; and it is 1 for a
    text without [-]. *)
Theorem query_count_bound :
  (∀ text, query_count text ≤ 5)
  ∧ (∀ text, dash_free text → query_count text = 1).
Proof.
  split.
  - intros text. unfold query_count. destruct (re_search_count text); lia.
  - intros text H. unfold query_count.
    rewrite <- (string_app_nil_r text), re_search_count_dash_free by done.
    reflexivity.
Qed.

(** * [slack_bot.py]: users and reminders *)

Lemma slack_calls_app method a b :
  slack_calls method (a ++ b) = slack_calls method a ++ slack_calls method b.
Proof. unfold slack_calls. apply omap_app. Qed.

Section BotFacts.

Variable slack_api : list gen_event → string → pydict → exn + json.
Variable now_text : list gen_event → string.
Variable today_text : list gen_event → string.
Variable OPENWEBUI_CHAT_URL : string.
Variables sun bullet : string.

Lemma slack_call_eval method args s :
  slack_call slack_api method args s
  = match slack_api (g_trace s) method args with
    | inr response =>
        (Ok response, GState (g_world s) (g_trace s ++ [GSlack method args]))
    | inl e => (Raise e, GState (g_world s) (g_trace s ++ [GSlack method args]))
    end.
Proof.
  unfold slack_call, gbind, gget, gtell; cbn.
  by destruct (slack_api (g_trace s) method args).
Qed.

(** On a member as the API describes it, a step of the comprehension keeps
    or skips the member, and does not raise. *)
Lemma add_active_user_member name id m active_users s :
  dict_get m "name" = Some (JStr name) → dict_get m "id" = Some (JStr id) →
  add_active_user active_users (JObj m) s
  = (Ok (if is_active m then dict_set active_users name (JStr id)
         else active_users), s).
Proof.
  intros Hname Hid. unfold add_active_user, is_active, py_get, py_getitem.
  rewrite Hname, Hid. cbn [default]. unfold gbind, gret; cbn.
  destruct (py_truthy (default (JBool false) (dict_get m "is_bot"))); cbn; [done|].
  destruct (String.eqb id "USLACKBOT"); cbn; [done|].
  by destruct (py_truthy (default (JBool false) (dict_get m "deleted"))).
Qed.

Lemma active_users_of_members members :
  Forall (λ member, ∃ name id, member_of name id member) members →
  ∀ active_users s,
    active_users_of members active_users s
    = (Ok (dict_update active_users (active_pairs members)), s).
Proof.
  induction members as [|member members IH]; intros H active_users s; [done|].
  inversion H as [|? ? (name & id & m & -> & Hname & Hid) Hrest]; subst.
  cbn [active_users_of active_pairs].
  rewrite (gbind_ok _ _ _ _ _ (add_active_user_member name id m _ s Hname Hid)).
  rewrite IH by done. rewrite Hname, Hid.
  by destruct (is_active m).
Qed.

(** X26. The users that [get_all_users] returns.  When [users_list]
    answers with members as the API describes them - dictionaries with a
    name and an identifier - [get_all_users] does not fail: it returns the
    dictionary that maps the name of every active member to its
    identifier, in the order of the reply, a name that comes twice keeping
    its first place and its last identifier.  A member is active when
    [is_bot] is missing or false, its identifier is not [USLACKBOT], and
    [deleted] is missing or false.  Nothing is printed. *)
Theorem get_all_users_active
    (response : pydict) (members : list json) (s : gstate) :
  slack_api (g_trace s) "users_list" [] = inr (JObj response) →
  dict_get response "members" = Some (JList members) →
  Forall (λ member, ∃ name id, member_of name id member) members →
  get_all_users slack_api s
  = (Ok (JObj (dict_update [] (active_pairs members))),
     GState (g_world s) (g_trace s ++ [GSlack "users_list" []])).
Proof.
  intros Hapi Hmembers Hall. unfold get_all_users, try_except.
  rewrite (gbind_ok _ _ _ _ _
             (eq_trans (slack_call_eval _ _ _) ltac:(rewrite Hapi; reflexivity))).
  unfold py_getitem at 1. rewrite Hmembers.
  unfold gbind at 1. cbn [gret]. unfold gbind at 1. cbn [py_iter gret].
  by rewrite (gbind_ok _ _ _ _ _ (active_users_of_members members Hall [] _)).
Qed.

(** X27. The reminder when the users cannot be fetched.  If the call
    [users_list] raises, [get_all_users] prints the error and returns the
    empty list, not a dictionary; [send_morning_reminder] then raises
    [AttributeError] on [values]: the job fails and no user is
    contacted. *)
Theorem send_morning_reminder_without_users (e : exn) (s : gstate) :
  slack_api (g_trace s) "users_list" [] = inl e →
  let s1 :=
    GState (logs [EvPrint ("Error fetching users: " +:+ exn_msg e)] (g_world s))
      (g_trace s ++ [GSlack "users_list" []]) in
  get_all_users slack_api s = (Ok (JList []), s1)
  ∧ send_morning_reminder slack_api now_text today_text OPENWEBUI_CHAT_URL
      sun bullet s
    = (Raise (Exn AttributeError "values"), s1).
Proof.
  intros Hapi s1.
  assert (get_all_users slack_api s = (Ok (JList []), s1)) as Hget.
  { unfold get_all_users, try_except.
    rewrite (gbind_raise _ _ _ _ _
               (eq_trans (slack_call_eval _ _ _) ltac:(rewrite Hapi; reflexivity))).
    reflexivity. }
  split; [exact Hget|]. unfold send_morning_reminder.
  by rewrite (gbind_ok _ _ _ _ _ Hget).
Qed.

(** One pass of the loop of [send_morning_reminder]: the user is asked
    for once, whatever happens then, and nothing is raised. *)
Ltac reminder_done :=
  split; [reflexivity|]; split; [reflexivity|]; split; [cbn; lia|reflexivity].

Lemma send_reminder_spec text user_id s :
  ∃ w' gevs,
    send_reminder slack_api now_text text user_id s
    = (Ok tt, GState w' (g_trace s ++ gevs))
    ∧ slack_calls "conversations_open" gevs = [[("users", JList [user_id])]]
    ∧ length (slack_calls "chat_postMessage" gevs) ≤ 1
    ∧ requests gevs = 0.
Proof.
  unfold send_reminder, try_except.
  unfold gbind at 1. rewrite slack_call_eval.
  destruct (slack_api (g_trace s) "conversations_open" _) as [e|response].
  { eexists _, [_]. reminder_done. }
  unfold gbind at 1. unfold py_getitem at 1.
  destruct response as [| | | | |r];
    try (eexists _, [_]; reminder_done).
  destruct (dict_get r "channel") as [channel|];
    [|eexists _, [_]; reminder_done].
  cbn [gret]. unfold gbind at 1. unfold py_getitem at 1.
  destruct channel as [| | | | |c];
    try (eexists _, [_]; reminder_done).
  destruct (dict_get c "id") as [dm|];
    [|eexists _, [_]; reminder_done].
  cbn [gret]. unfold gbind at 1. rewrite slack_call_eval. cbn [g_world g_trace].
  destruct (slack_api _ "chat_postMessage" _) as [e|posted].
  - eexists _, [_; _]. rewrite <- app_assoc. reminder_done.
  - eexists _, [_; _]. rewrite <- app_assoc. reminder_done.
Qed.

Lemma gfor_send_reminder text user_ids :
  ∀ s, ∃ w' gevs,
    gfor user_ids (send_reminder slack_api now_text text) s
    = (Ok tt, GState w' (g_trace s ++ gevs))
    ∧ slack_calls "conversations_open" gevs
      = map (λ user_id, [("users", JList [user_id])]) user_ids
    ∧ length (slack_calls "chat_postMessage" gevs) ≤ length user_ids
    ∧ requests gevs = 0.
Proof.
  induction user_ids as [|user_id user_ids IH]; intros s.
  - exists (g_world s), []. rewrite app_nil_r. by destruct s.
  - destruct (send_reminder_spec text user_id s) as (w1 & gevs1 & H1 & Ho1 & Hp1 & Hr1).
    destruct (IH (GState w1 (g_trace s ++ gevs1)))
      as (w2 & gevs2 & H2 & Ho2 & Hp2 & Hr2).
    exists w2, (gevs1 ++ gevs2). cbn [gfor].
    rewrite (gbind_ok _ _ _ _ _ H1), H2. cbn [g_trace]. rewrite <- app_assoc.
    split; [done|]. rewrite !slack_calls_app, requests_app, length_app, Ho1, Ho2.
    split; [done|]. split; [cbn [length]; lia|lia].
Qed.

(** X28. Every user is asked for.  Once [get_all_users] has returned a
    dictionary, [send_morning_reminder] returns normally, and it has opened
    a conversation with every identifier of the dictionary, once and in
    order, whether the calls made for the users before have failed or not;
    at most one message is posted per user, and no request goes to a model
    server. *)
Theorem send_morning_reminder_contacts_all
    (users : pydict) (s s1 : gstate) :
  get_all_users slack_api s = (Ok (JObj users), s1) →
  ∃ w' gevs,
    send_morning_reminder slack_api now_text today_text OPENWEBUI_CHAT_URL
      sun bullet s
    = (Ok tt, GState w' (g_trace s1 ++ gevs))
    ∧ slack_calls "conversations_open" gevs
      = map (λ user_id, [("users", JList [user_id])]) (map snd users)
    ∧ length (slack_calls "chat_postMessage" gevs) ≤ length users
    ∧ requests gevs = 0.
Proof.
  intros Hget. unfold send_morning_reminder.
  rewrite (gbind_ok _ _ _ _ _ Hget). unfold gbind at 1. cbn [py_values gret].
  unfold gbind at 1. cbn [gget].
  destruct (gfor_send_reminder
              (reminder_text OPENWEBUI_CHAT_URL sun bullet (today_text (g_trace s1)))
              (map snd users) s1) as (w' & gevs & Hrun & Ho & Hp & Hr).
  exists w', gevs. rewrite length_map in Hp. by repeat split.
Qed.

End BotFacts.

Lemma get_all_users_active_witness :
  (get_all_users GenSample.slack_up GenSample.s0).1
  = Ok (JObj [("ann", JStr "U1"); ("bob", JStr "U2")]).
Proof.
  rewrite (get_all_users_active GenSample.slack_up
             [("ok", JBool true); ("members", JList GenSample.members)]
             GenSample.members GenSample.s0).
  - reflexivity.
  - reflexivity.
  - reflexivity.
  - repeat constructor; eexists _, _, _; (split; [reflexivity|]);
      split; reflexivity.
Defined.

Lemma send_morning_reminder_without_users_witness :
  (send_morning_reminder GenSample.slack_down GenSample.clock GenSample.clock
     "http://chat/" "*" "-" GenSample.s0).1
  = Raise (Exn AttributeError "values").
Proof.
  destruct (send_morning_reminder_without_users GenSample.slack_down
              GenSample.clock GenSample.clock "http://chat/" "*" "-"
              (Exn OSError "timeout") GenSample.s0 eq_refl) as [_ H].
  by rewrite H.
Defined.

Lemma send_morning_reminder_contacts_all_witness :
  ∃ w' gevs,
    send_morning_reminder GenSample.slack_up GenSample.clock GenSample.clock
      "http://chat/" "*" "-" GenSample.s0
    = (Ok tt, GState w' (GSlack "users_list" [] :: gevs))
    ∧ slack_calls "conversations_open" gevs
      = [[("users", JList [JStr "U1"])]; [("users", JList [JStr "U2"])]].
Proof.
  destruct (send_morning_reminder_contacts_all GenSample.slack_up
              GenSample.clock GenSample.clock "http://chat/" "*" "-"
              [("ann", JStr "U1"); ("bob", JStr "U2")] GenSample.s0
              (GState (World ∅ ∅ ∅ []) [GSlack "users_list" []]))
    as (w' & gevs & Hrun & Hopen & _).
  - vm_compute. reflexivity.
  - exists w', gevs. split; [exact Hrun|exact Hopen].
Defined.

(** * [slack_bot.py]: the [/query] command *)

(** ** Composition of [gbound] *)

Lemma gbound_ret {A} n (P : A → Prop) (a : A) : P a → gbound n P (gret a).
Proof.
  intros H s r s' [= <- <-]. split; [done|].
  exists (g_world s), []. rewrite app_nil_r. split; [by destruct s|cbn; lia].
Qed.

Lemma gbound_raise {A} n (P : A → Prop) c msg : gbound n P (@graise A c msg).
Proof.
  intros s r s' [= <- <-]. split; [done|].
  exists (g_world s), []. rewrite app_nil_r. split; [by destruct s|cbn; lia].
Qed.

Lemma gbound_bind {A B} n1 n2 (P : A → Prop) (Q : B → Prop)
    (m : G A) (k : A → G B) :
  gbound n1 P m → (∀ a, P a → gbound n2 Q (k a)) → gbound (n1 + n2) Q (gbind m k).
Proof.
  intros Hm Hk s r s'. unfold gbind.
  destruct (m s) as [[a|e|] s1] eqn:E; specialize (Hm _ _ _ E) as [Hr Hs].
  - intros Hka. destruct Hs as (w1 & gevs1 & -> & Hn1).
    destruct (Hk a Hr _ _ _ Hka) as [Hr2 (w2 & gevs2 & -> & Hn2)].
    split; [done|]. exists w2, (gevs1 ++ gevs2). cbn [g_trace].
    rewrite app_assoc, requests_app. split; [done|lia].
  - intros [= <- <-]. split; [done|].
    destruct Hs as (w1 & gevs1 & -> & Hn1). exists w1, gevs1. split; [done|lia].
  - done.
Qed.

Lemma gbound_weaken {A} n n' (P P' : A → Prop) (m : G A) :
  gbound n P m → n ≤ n' → (∀ a, P a → P' a) → gbound n' P' m.
Proof.
  intros Hm Hn HP s r s' E. destruct (Hm _ _ _ E) as [Hr (w' & gevs & -> & Hn1)].
  split; [destruct r; auto|]. exists w', gevs. split; [done|lia].
Qed.

Lemma gbound_try {A} n1 n2 (P : A → Prop) (m : G A) (handler : exn → G A) :
  gbound n1 P m → (∀ e, gbound n2 P (handler e)) →
  gbound (n1 + n2) P (try_except m handler).
Proof.
  intros Hm Hh s r s'. unfold try_except.
  destruct (m s) as [[a|e|] s1] eqn:E; specialize (Hm _ _ _ E) as [Hr Hs].
  - intros [= <- <-]. split; [done|].
    destruct Hs as (w1 & gevs1 & -> & Hn1). exists w1, gevs1. split; [done|lia].
  - intros Hhe. destruct Hs as (w1 & gevs1 & -> & Hn1).
    destruct (Hh e _ _ _ Hhe) as [Hr2 (w2 & gevs2 & -> & Hn2)].
    split; [done|]. exists w2, (gevs1 ++ gevs2). cbn [g_trace].
    rewrite app_assoc, requests_app. split; [done|lia].
  - done.
Qed.

Lemma gbound_of_gspec {A} n (P : A → Prop) (m : G A) :
  gspec n P m → gbound n P m.
Proof.
  intros Hm s r s' E. destruct (Hm _ _ _ E) as [Hr (evs & gevs & -> & Hn & _)].
  split; [by destruct r|]. eexists _, gevs. split; [reflexivity|done].
Qed.

Lemma gbound_getitem n v k : gbound n (λ _, True) (py_getitem v k).
Proof. apply gbound_of_gspec, gspec_getitem. Qed.

Lemma gbound_get n v k d : gbound n (λ _, True) (py_get v k d).
Proof. unfold py_get. destruct v; by (apply gbound_raise || apply gbound_ret). Qed.

Section QueryFacts.

Variable slack_api : list gen_event → string → pydict → exn + json.
Variable ollama_chat : list gen_event → string → string → exn + json.
Variables phases environments types constraints : list string.
Variable user_query_prompt_template_format :
  string → string → string → string → string.
Variable OPENWEBUI_CHAT_URL : string.
Variables magnifier brain check_mark cross_mark warning_sign : string.

Lemma gbound_slack_call n method args :
  gbound n (λ _, True) (slack_call slack_api method args).
Proof.
  intros s r s' E. unfold slack_call, gbind, gget, gtell in E; cbn in E.
  destruct (slack_api (g_trace s) method args); injection E as <- <-;
    (split; [done|]); exists (g_world s), [GSlack method args];
    (split; [done|cbn; lia]).
Qed.

Lemma gbound_chat_update n thinking_message text :
  gbound n (λ _, True) (chat_update slack_api thinking_message text).
Proof.
  unfold chat_update.
  apply (gbound_bind 0 n (λ _, True)); [apply gbound_getitem|]. intros channel _.
  apply (gbound_bind 0 n (λ _, True)); [apply gbound_getitem|]. intros ts _.
  apply (gbound_bind 0 n (λ _, True)); [apply gbound_slack_call|]. intros _ _.
  by apply gbound_ret.
Qed.

Lemma gbound_generate_scenarios thinking_message count n :
  ∀ i scenarios,
    gbound n (λ _, True)
      (generate_scenarios slack_api ollama_chat phases environments types
         constraints user_query_prompt_template_format brain thinking_message
         count i n scenarios).
Proof.
  induction n as [|n IH]; intros i scenarios; [by apply gbound_ret|].
  cbn [generate_scenarios].
  apply (gbound_bind 0 (S n) (λ _, True)).
  { destruct (_ && _); [|by apply gbound_ret].
    apply (gbound_bind 0 0 (λ _, True)); [apply gbound_getitem|]. intros channel _.
    apply (gbound_bind 0 0 (λ _, True)); [apply gbound_getitem|]. intros ts _.
    apply (gbound_bind 0 0 (λ _, True)); [apply gbound_slack_call|]. intros _ _.
    by apply gbound_ret. }
  intros _ _. change (S n) with (1 + n).
  apply (gbound_bind 1 n (λ _, True)).
  { apply gbound_of_gspec, gspec_generate_user_query. }
  intros user_query _. apply IH.
Qed.

(** X29. The requests of one command.  Whatever the command and
    whatever the servers answer, [handle_query_command] sends at most as
    many requests to the model server as the count read from the text of
    the command, hence at most 5 - and none if the text is missing from a
    command that is no dictionary or is no text. *)
Theorem handle_query_command_requests
    (command : json) (s : gstate) (r : result unit) (s' : gstate) :
  handle_query_command slack_api ollama_chat phases environments types
    constraints user_query_prompt_template_format OPENWEBUI_CHAT_URL
    magnifier brain check_mark cross_mark warning_sign command s = (r, s') →
  r ≠ Timeout
  ∧ ∃ gevs, g_trace s' = g_trace s ++ gevs
          ∧ requests gevs ≤ command_count command
          ∧ requests gevs ≤ 5.
Proof.
  intros Hrun.
  assert (gbound (command_count command) (λ _, True)
            (handle_query_command slack_api ollama_chat phases environments
               types constraints user_query_prompt_template_format
               OPENWEBUI_CHAT_URL magnifier brain check_mark cross_mark
               warning_sign command)) as Hb.
  { unfold handle_query_command.
    apply (gbound_bind 0 _ (λ _, True)); [apply gbound_slack_call|]. intros _ _.
    apply (gbound_bind 0 _
             (λ text, match text with
                      | JStr t => query_count t
                      | _ => 0
                      end ≤ command_count command)).
    { unfold py_get, command_count. destruct command; try apply gbound_raise.
      by apply gbound_ret. }
    intros text Htext. cbn beta in Htext.
    apply (gbound_bind 0 _ (λ count, count ≤ command_count command)).
    { destruct text; try apply gbound_raise. by apply gbound_ret. }
    intros count Hcount. cbn beta in Hcount.
    apply (gbound_bind 0 _ (λ _, True)); [apply gbound_getitem|]. intros user_id _.
    apply (gbound_bind 0 _ (λ _, True)); [apply gbound_slack_call|]. intros resp _.
    apply (gbound_bind 0 _ (λ _, True)); [apply gbound_getitem|]. intros channel _.
    apply (gbound_bind 0 _ (λ _, True)); [apply gbound_getitem|]. intros dm _.
    apply (gbound_bind 0 _ (λ _, True)); [apply gbound_get|]. intros thread_ts _.
    apply (gbound_bind 0 _ (λ _, True)); [apply gbound_slack_call|].
    intros thinking_message _.
    eapply gbound_weaken;
      [apply (gbound_try count 0 (λ _, True))
      |unfold command_count in Hcount |- *; lia|done].
    - replace count with (count + 0) at 1 by lia.
      apply (gbound_bind count 0 (λ _, True));
        [apply gbound_generate_scenarios|].
      intros scenarios _. destruct scenarios; apply gbound_chat_update.
    - intros e. apply gbound_chat_update. }
  destruct (Hb _ _ _ Hrun) as [Hr (w' & gevs & -> & Hn)].
  split; [by destruct r|]. exists gevs. split; [done|]. split; [done|].
  etrans; [exact Hn|]. unfold command_count.
  destruct command as [| | | | |c]; try lia.
  destruct (default _ _) as [| | |t| |]; try lia.
  unfold query_count. destruct (re_search_count t); lia.
Qed.

End QueryFacts.

Lemma handle_query_command_requests_witness :
  let run :=
    handle_query_command GenSample.slack_up GenSample.fenced_server
      ["Reporting"] [] [] [] GenSample.query_template "http://chat/"
      "?" "~" "+" "x" "!"
      (JObj [("user_id", JStr "U1"); ("text", JStr "-c 9")]) GenSample.s0 in
  run.1 ≠ Timeout
  ∧ ∃ gevs, g_trace run.2 = g_trace GenSample.s0 ++ gevs ∧ requests gevs ≤ 5.
Proof.
  intros run. destruct run as [r s'] eqn:E. unfold run in E.
  destruct (handle_query_command_requests _ _ _ _ _ _ _ _ _ _ _ _ _ _ _ _ _ E)
    as [Hr (gevs & Htr & _ & Hn)].
  split; [exact Hr|]. exists gevs. split; [exact Htr|exact Hn].
Defined.
